(** * partition.py: decoding of MBR/EBR, GPT and BSD disklabel tables

    A shallow embedding of [partition.py] and the properties of its three
    table readers.  Python objects become records, the file object and the
    interpreter's standard output become an explicit [world] threaded
    through a small state-and-exception monad, and every Python exception
    the code can meet is a constructor of [exn]. *)

From Stdlib Require Import ZArith List String Lia Bool QArith.
From Stdlib.Strings Require Import Byte Ascii.
From stdpp Require Import gmap strings list pretty.

Local Open Scope Z_scope.

(** ** Bytes and [struct] decoding *)

Abbreviation bytes := (list byte).

#[global] Instance byte_eq_dec : EqDecision byte := Byte.byte_eq_dec.

Definition byte_val (b : byte) : Z := Z.of_N (Byte.to_N b).

(** [struct] codes [B], [H], [L], [Q] under the ["<"] prefix: unsigned,
    little-endian, standard sizes 1, 2, 4, 8. *)
Fixpoint unpack_uint (bs : bytes) : Z :=
  match bs with
  | [] => 0
  | b :: rest => byte_val b + 256 * unpack_uint rest
  end.

(** [data[off : off + len]] *)
Definition slice (off len : nat) (bs : bytes) : bytes := take len (drop off bs).

(** [struct] code [3p], a Pascal string: the first byte is a length, capped
    by the two bytes that follow. *)
Definition unpack_pascal (bs : bytes) : bytes :=
  match bs with
  | [] => []
  | n :: rest => take (Nat.min (Z.to_nat (byte_val n)) (length rest)) rest
  end.

Definition zeros (n : nat) : bytes := replicate n x00.

(** A byte literal such as [b"EFI PART"]. *)
Definition b_ (s : string) : bytes := list_byte_of_string s.

(** ** Exceptions *)

Inductive exn : Type :=
| MBRMissing (msg : string)
| MBRError (msg : string)
| GPTMissing (msg : string)
| GPTError (msg : string)
| DisklabelMissing (msg : string)
| DisklabelError (msg : string)
| DiskException (msg : string)
| struct_error (msg : string)
| NameError (msg : string)
| AttributeError (msg : string)
| UnicodeDecodeError (msg : string)
| RecursionError (msg : string)
| RuntimeError (msg : string)
| IOError (msg : string)
| OverflowError (msg : string)
| ValueError (msg : string)
| IndexError (msg : string).

#[global] Instance exn_eq_dec : EqDecision exn.
Proof. solve_decision. Defined.

(** [class MBRMissing(MBRError)], and likewise for the other two schemes:
    [except XError] also catches [XMissing]. *)
Definition isinstance_MBRMissing (e : exn) : bool :=
  match e with MBRMissing _ => true | _ => false end.
Definition isinstance_MBRError (e : exn) : bool :=
  match e with MBRMissing _ | MBRError _ => true | _ => false end.
Definition isinstance_GPTMissing (e : exn) : bool :=
  match e with GPTMissing _ => true | _ => false end.
Definition isinstance_GPTError (e : exn) : bool :=
  match e with GPTMissing _ | GPTError _ => true | _ => false end.
Definition isinstance_DisklabelMissing (e : exn) : bool :=
  match e with DisklabelMissing _ => true | _ => false end.
Definition isinstance_DisklabelError (e : exn) : bool :=
  match e with DisklabelMissing _ | DisklabelError _ => true | _ => false end.
Definition isinstance_IOError (e : exn) : bool :=
  match e with IOError _ => true | _ => false end.

Inductive result (A : Type) : Type :=
| Ok (a : A)
| Raise (e : exn).
Arguments Ok {A} a.
Arguments Raise {A} e.

Definition is_Ok {A} (r : result A) : Prop :=
  match r with Ok _ => True | Raise _ => False end.

(** ** The interpreter's world: open files, standard output, I/O log *)

Definition handle := nat.

(** A file object opened with ["rb"].  [f_blksz] is what the [BLKSSZGET]
    ioctl ([4608 | 104]) answers on the descriptor, [None] when the ioctl
    raises (a regular file, an in-memory stream); [f_bad] marks the cursor
    positions at which the device fails a read. *)
Record file : Type := mkfile {
  f_data : bytes;
  f_pos : Z;
  f_blksz : option Z;
  f_bad : Z -> bool;
}.

Definition set_pos (p : Z) (f : file) : file :=
  {| f_data := f_data f; f_pos := p; f_blksz := f_blksz f; f_bad := f_bad f |}.

Inductive io_event : Type :=
| EvSeek (h : handle) (off : Z)
| EvRead (h : handle) (pos : Z) (n : Z).

(** A value handed to [str.format], and a line written by [print]: either a
    literal or a format template with its arguments (the rendering of the
    report rows is left symbolic). *)
Inductive pyval : Type :=
| VStr (s : string)
| VInt (n : Z)
| VBytes (b : bytes)
| VText (cs : list Z).

Inductive out_line : Type :=
| Line (s : string)
| Fmt (template : string) (args : list pyval).

Record world : Type := mkworld {
  files : gmap handle file;
  stdout : list out_line;
  io_log : list io_event;
}.

Definition M (A : Type) : Type := world -> result A * world.

Definition ret {A} (a : A) : M A := fun w => (Ok a, w).
Definition raise {A} (e : exn) : M A := fun w => (Raise e, w).
Definition bind {A B} (c : M A) (k : A -> M B) : M B :=
  fun w =>
    match c w with
    | (Ok a, w') => k a w'
    | (Raise e, w') => (Raise e, w')
    end.
Definition lift {A} (r : result A) : M A := fun w => (r, w).

Notation "'let*' x ':=' c 'in' k" := (bind c (fun x => k))
  (at level 10, x name, c at level 100, k at level 200).

Definition print_line (l : out_line) : M unit :=
  fun w => (Ok tt, {| files := files w; stdout := stdout w ++ [l]; io_log := io_log w |}).
Definition print (s : string) : M unit := print_line (Line s).
Definition print_fmt (template : string) (args : list pyval) : M unit :=
  print_line (Fmt template args).

(** [for x in xs: body], with the loop's variables threaded as [s]. *)
Fixpoint for_ {A S : Type} (xs : list A) (body : A -> S -> M S) (s : S) : M S :=
  match xs with
  | [] => ret s
  | x :: rest => let* s' := body x s in for_ rest body s'
  end.

(** [range(a, b)] *)
Definition py_range (a b : Z) : list Z := seqZ a (b - a).

Definition log_io (e : io_event) (w : world) : world :=
  {| files := files w; stdout := stdout w; io_log := io_log w ++ [e] |}.

Definition set_file (h : handle) (f : file) (w : world) : world :=
  {| files := <[h := f]> (files w); stdout := stdout w; io_log := io_log w |}.

Definition max_off : Z := 2 ^ 63 - 1.

(** [fp.tell()] *)
Definition fp_tell (h : handle) : M Z :=
  fun w =>
    match files w !! h with
    | None => (Raise (ValueError "I/O operation on closed file"), w)
    | Some f => (Ok (f_pos f), w)
    end.

(** [fp.seek(off)]: absolute positioning; the offsets the readers compute
    are products of unsigned fields and of the block size.  The attempt is
    logged whether or not the call succeeds.  The medium is taken to accept
    every offset that a C [off_t] holds.  A file system refuses offsets
    beyond its own largest file size with the same [Errno 22]; that size
    is no part of [file], so a result about a seek beyond the end of the
    image is a result about media that accept its target.  An offset
    beyond [off_t] never reaches the file: the interpreter refuses it,
    with OverflowError on Python 2, and [fp_seek_in] below gives what
    Python 3 makes of it. *)
Definition fp_seek (h : handle) (off : Z) : M unit :=
  fun w =>
    match files w !! h with
    | None => (Raise (ValueError "I/O operation on closed file"), w)
    | Some f =>
        if off <? 0 then (Raise (IOError "[Errno 22] Invalid argument"), log_io (EvSeek h off) w)
        else if max_off <? off
        then (Raise (OverflowError "Python int too large to convert to C long"), log_io (EvSeek h off) w)
        else (Ok tt, log_io (EvSeek h off) (set_file h (set_pos off f) w))
    end.

(** [fp.read(n)] for [n >= 0]: at most [n] bytes from the cursor, fewer at
    the end of the stream, and the cursor moves past what was read. *)
Definition fp_read (h : handle) (n : Z) : M bytes :=
  fun w =>
    match files w !! h with
    | None => (Raise (ValueError "I/O operation on closed file"), w)
    | Some f =>
        if f_bad f (f_pos f) then (Raise (IOError "[Errno 5] Input/output error"), log_io (EvRead h (f_pos f) n) w)
        else
          let data := slice (Z.to_nat (f_pos f)) (Z.to_nat n) (f_data f) in
          (Ok data,
           log_io (EvRead h (f_pos f) n)
             (set_file h (set_pos (f_pos f + Z.of_nat (length data)) f) w))
    end.

(** [struct.unpack("i", ioctl(fp.fileno(), 4608 | 104, struct.pack("i", -1)))[0]]
    inside [try: ... except: blocksize = 512]. *)
Definition query_blocksize (h : handle) : M Z :=
  fun w =>
    match files w !! h with
    | Some f => (Ok (default 512 (f_blksz f)), w)
    | None => (Ok 512, w)
    end.

(** What the module's globals and the interpreter fix before a reader runs:
    the branch of [sys.version_info] taken at import, the binding of the
    module-level name [fp] (bound by the [__main__] block to the file it
    opened, unbound when the module is imported), how many nested
    [read_ebr_partition] frames fit under the recursion limit, and the byte
    order the ["utf-16"] codec falls back to. *)
Record interp : Type := mkinterp {
  py3 : bool;
  global_fp : option handle;
  recursion_limit : nat;
  little_endian_host : bool;
}.

(** The exception that ends a recursion deeper than the interpreter
    allows: RecursionError on Python 3 (from 3.5 on, which the module's
    [bytes.hex] needs anyway), RuntimeError on Python 2. *)
Definition recursion_error (env : interp) : exn :=
  if py3 env then RecursionError "maximum recursion depth exceeded"
  else RuntimeError "maximum recursion depth exceeded".

(** [fp.seek(off)] under the interpreter [env], for an offset that may
    exceed a C [off_t] (a 64-bit field times the block size): Python 3
    refuses such an offset with ValueError, Python 2 with OverflowError. *)
Definition fp_seek_in (env : interp) (h : handle) (off : Z) : M unit :=
  fun w =>
    match fp_seek h off w with
    | (Raise (OverflowError msg), w') =>
        (Raise (if py3 env then ValueError "cannot fit 'int' into an offset-sized integer"
                else OverflowError msg), w')
    | r => r
    end.

(** Reading the global name [fp]. *)
Definition load_global_fp (env : interp) : M handle :=
  match global_fp env with
  | Some h => ret h
  | None => raise (NameError "name 'fp' is not defined")
  end.

Definition check_disk_file (disk : handle) : M unit :=
  fun w =>
    match fp_tell disk w with
    | (Ok _, w') => (Ok tt, w')
    | (Raise _, w') =>
        (Raise (DiskException "Please provide a file pointer (sys.stding or result of open function) as first argument, pointing to an existing disk such as /dev/sda."), w')
    end.

(** ** MBR and EBR *)

Definition MBR_EXTENDED_TYPE : list Z := [0x05; 0x0f; 0x15; 0x1f; 0x85].

Definition MBR_PARTITION_TYPE : gmap Z string := list_to_map [
    (0x00, "Empty");
    (0x01, "FAT12");
    (0x04, "FAT16 16-32MB");
    (0x05, "Extended, CHS");
    (0x06, "FAT16 32MB-2GB");
    (0x07, "NTFS");
    (0x0b, "FAT32");
    (0x0c, "FAT32X");
    (0x0e, "FAT16X");
    (0x0f, "Extended, LBA");
    (0x11, "Hidden FAT12");
    (0x14, "Hidden FAT16,16-32MB");
    (0x15, "Hidden Extended, CHS");
    (0x16, "Hidden FAT16,32MB-2GB");
    (0x17, "Hidden NTFS");
    (0x1b, "Hidden FAT32");
    (0x1c, "Hidden FAT32X");
    (0x1e, "Hidden FAT16X");
    (0x1f, "Hidden Extended, LBA");
    (0x27, "Windows recovery environment");
    (0x39, "Plan 9");
    (0x3c, "PartitionMagic recovery partition");
    (0x42, "Windows dynamic extended partition marker");
    (0x44, "GoBack partition");
    (0x63, "Unix System V");
    (0x64, "PC-ARMOUR protected partition");
    (0x81, "Minix");
    (0x82, "Linux Swap");
    (0x83, "Linux");
    (0x84, "Hibernation");
    (0x85, "Linux Extended");
    (0x86, "Fault-tolerant FAT16B volume set");
    (0x87, "Fault-tolerant NTFS volume set");
    (0x88, "Linux plaintext");
    (0x8e, "Linux LVM");
    (0x93, "Hidden Linux");
    (0x9f, "BSD/OS");
    (0xa0, "Hibernation");
    (0xa1, "Hibernation");
    (0xa5, "FreeBSD");
    (0xa6, "OpenBSD");
    (0xa8, "Mac OS X");
    (0xa9, "NetBSD");
    (0xab, "Mac OS X Boot");
    (0xaf, "Mac OS X HFS");
    (0xbe, "Solaris 8 boot");
    (0xbf, "Solaris x86");
    (0xe8, "Linux Unified Key Setup");
    (0xeb, "BFS");
    (0xee, "EFI GPT protec MBR");
    (0xef, "EFI system");
    (0xfa, "Bochs x86 emulator");
    (0xfb, "VMware File System");
    (0xfc, "VMware Swap");
    (0xfd, "Linux RAID") ].

(** [MBR_FORMAT]: 440x 4s 2x 16s 16s 16s 16s 2s, 512 bytes. *)
Module MBRHeader.
Record t : Type := mk {
  drive_signature : bytes;
  partition1 : bytes;
  partition2 : bytes;
  partition3 : bytes;
  partition4 : bytes;
  signature : bytes;
}.

Definition unpack (data : bytes) : result t :=
  if bool_decide (length data = 512%nat) then
    Ok {| drive_signature := slice 440 4 data;
          partition1 := slice 446 16 data;
          partition2 := slice 462 16 data;
          partition3 := slice 478 16 data;
          partition4 := slice 494 16 data;
          signature := slice 510 2 data |}
  else Raise (struct_error "unpack requires a buffer of 512 bytes").

(** [getattr(header, "partition{0}".format(i))] *)
Definition getattr_partition (h : t) (i : Z) : result bytes :=
  if i =? 1 then Ok (partition1 h)
  else if i =? 2 then Ok (partition2 h)
  else if i =? 3 then Ok (partition3 h)
  else if i =? 4 then Ok (partition4 h)
  else Raise (AttributeError "'MBRHeader' object has no attribute 'partition'").
End MBRHeader.

(** [MBR_PARTITION_FORMAT]: B 3p B 3p L L, 16 bytes, and the three extras. *)
Module MBRPartition.
Record t : Type := mk {
  status : Z;
  chs_first : bytes;
  type : Z;
  chs_last : bytes;
  lba : Z;
  sectors : Z;
  index : Z;
  active : bool;
  type_str : string;
}.

Definition unpack (partstr : bytes) (num : Z) : result t :=
  if bool_decide (length partstr = 16%nat) then
    Ok {| status := unpack_uint (slice 0 1 partstr);
          chs_first := unpack_pascal (slice 1 3 partstr);
          type := unpack_uint (slice 4 1 partstr);
          chs_last := unpack_pascal (slice 5 3 partstr);
          lba := unpack_uint (slice 8 4 partstr);
          sectors := unpack_uint (slice 12 4 partstr);
          index := num;
          active := false;
          type_str := "" |}
  else Raise (struct_error "unpack requires a buffer of 16 bytes").

(** [part._replace(active=a, type_str=s)] *)
Definition replace_active_type_str (a : bool) (s : string) (p : t) : t :=
  {| status := status p; chs_first := chs_first p; type := type p;
     chs_last := chs_last p; lba := lba p; sectors := sectors p;
     index := index p; active := a; type_str := s |}.
End MBRPartition.

(** [EBR_FORMAT]: 446x 16s 16s 16x 16x 2s, 512 bytes. *)
Module EBR.
Record t : Type := mk {
  partition : bytes;
  next_ebr : bytes;
  signature : bytes;
}.

Definition unpack (data : bytes) : result t :=
  if bool_decide (length data = 512%nat) then
    Ok {| partition := slice 446 16 data;
          next_ebr := slice 462 16 data;
          signature := slice 510 2 data |}
  else Raise (struct_error "unpack requires a buffer of 512 bytes").
End EBR.

Module MBRInfo.
Record t : Type := mk {
  lba_size : Z;
  header : MBRHeader.t;
  partitions : list (option MBRPartition.t);
}.
End MBRInfo.

Module MBRTable.
Record t : Type := mk {
  filename : string;
  fp : handle;
  info : option MBRInfo.t;
  mbrheader : option MBRHeader.t;
}.

Definition set_mbrheader (h : MBRHeader.t) (self : t) : t :=
  {| filename := filename self; fp := fp self; info := info self; mbrheader := Some h |}.
Definition set_info (i : MBRInfo.t) (self : t) : t :=
  {| filename := filename self; fp := fp self; info := Some i; mbrheader := mbrheader self |}.

(** [self.mbrheader] *)
Definition get_mbrheader (self : t) : M MBRHeader.t :=
  match mbrheader self with
  | Some h => ret h
  | None => raise (AttributeError "'MBRTable' object has no attribute 'mbrheader'")
  end.

Definition read_mbr_header (self : t) : M MBRHeader.t :=
  let* data := fp_read (fp self) 512 in
  let* header := lift (MBRHeader.unpack data) in
  if bool_decide (MBRHeader.signature header <> [x55; xaa])
  then raise (MBRMissing "Bad MBR signature")
  else ret header.

(** Returns [None] (Python's implicit return) for type code 0. *)
Definition read_mbr_partition (partstr : bytes) (num : Z) : result (option MBRPartition.t) :=
  match MBRPartition.unpack partstr num with
  | Raise e => Raise e
  | Ok part =>
      if MBRPartition.type part =? 0 then Ok None
      else
        let ptype := default "Unknown" (MBR_PARTITION_TYPE !! MBRPartition.type part) in
        Ok (Some (MBRPartition.replace_active_type_str
                    (0x80 <=? MBRPartition.status part) ptype part))
  end.

(** The recursion of the source, with the interpreter's bound on nested
    frames as the structural argument.  The seek goes to [self.fp]; the
    read goes to whatever the global name [fp] is bound to. *)
Fixpoint read_ebr_partition (env : interp) (depth : nat) (self : t)
    (extended_lba lba num : Z) : M (list (option MBRPartition.t)) :=
  match depth with
  | O => raise (recursion_error env)
  | S depth' =>
      let* _ := fp_seek (fp self) ((extended_lba + lba) * 512) in
      let* gfp := load_global_fp env in
      let* data := fp_read gfp 512 in
      let* ebr := lift (EBR.unpack data) in
      if bool_decide (EBR.signature ebr <> [x55; xaa])
      then raise (MBRError "Bad EBR signature")
      else
        let* part := lift (read_mbr_partition (EBR.partition ebr) num) in
        let parts := [part] in
        if bool_decide (EBR.next_ebr ebr <> zeros 16) then
          let* part_next_ebr := lift (read_mbr_partition (EBR.next_ebr ebr) 0) in
          match part_next_ebr with
          | None => raise (AttributeError "'NoneType' object has no attribute 'lba'")
          | Some p =>
              let next_lba := MBRPartition.lba p in
              let* more := read_ebr_partition env depth' self extended_lba next_lba (num + 1) in
              ret (parts ++ more)
          end
        else ret parts
  end.

Definition read_mbr_partitions (env : interp) (self : t) : M (list (option MBRPartition.t)) :=
  let* header := get_mbrheader self in
  let* parts := for_ (py_range 1 4)
             (fun i parts =>
                let* partstr := lift (MBRHeader.getattr_partition header i) in
                let* part := lift (read_mbr_partition partstr i) in
                match part with
                | Some p => ret (parts ++ [p])
                | None => ret parts
                end) [] in
  let extendpart :=
    find (fun part => bool_decide (MBRPartition.type part ∈ MBR_EXTENDED_TYPE)) parts in
  match extendpart with
  | Some ep =>
      let* logical := read_ebr_partition env (recursion_limit env) self (MBRPartition.lba ep) 0 5 in
      ret (map Some parts ++ logical)
  | None => ret (map Some parts)
  end.

(** The two [except] clauses of [__init__]. *)
Definition init_except (self : t) (e : exn) : world -> t * result unit * world :=
  fun w =>
    if isinstance_MBRMissing e then (self, Ok tt, w)
    else if isinstance_MBRError e then (self, Ok tt, snd (print "Error reading MBR!" w))
    else (self, Raise e, w).

(** The body of the [try] block of [__init__].  The object under
    construction is returned next to the outcome, so that its fields can
    be inspected however the block ends. *)
Definition init_try (env : interp) (self : t) : world -> t * result unit * world :=
  fun w =>
    match read_mbr_header self w with
    | (Raise e, w1) => (self, Raise e, w1)
    | (Ok h, w1) =>
        let self := set_mbrheader h self in
        match read_mbr_partitions env self w1 with
        | (Raise e, w2) => (self, Raise e, w2)
        | (Ok partitions, w2) =>
            (set_info (MBRInfo.mk 512 h partitions) self, Ok tt, w2)
        end
    end.

Definition init (env : interp) (fp0 : handle) (name : string) : world -> t * result unit * world :=
  fun w =>
    let self := {| filename := name; fp := fp0; info := None; mbrheader := None |} in
    match check_disk_file (fp self) w with
    | (Raise e, w1) => (self, Raise e, w1)
    | (Ok _, w1) =>
        match fp_seek (fp self) 0 w1 with
        | (Raise e, w2) => (self, Raise e, w2)
        | (Ok _, w2) =>
            match init_try env self w2 with
            | (self, Ok _, w3) => (self, Ok tt, w3)
            | (self, Raise e, w3) => init_except self e w3
            end
        end
    end.

(** The expression [MBRTable(fp, name)]. *)
Definition new (env : interp) (fp0 : handle) (name : string) : M t :=
  fun w =>
    match init env fp0 name w with
    | (self, Ok _, w') => (Ok self, w')
    | (_, Raise e, w') => (Raise e, w')
    end.
End MBRTable.

(** ** GPT *)

Definition GPT_GUID : gmap string string := list_to_map [
    ("024DEE41-33E7-11D3-9D69-0008C781F39F", "MBR partition scheme");
    ("C12A7328-F81F-11D2-BA4B-00A0C93EC93B", "EFI System partition");
    ("21686148-6449-6E6F-744E-656564454649", "BIOS Boot partition");
    ("D3BFE2DE-3DAF-11DF-BA40-E3A556D89593", "Intel Fast Flash (iFFS) partition (for Intel Rapid Start technology)");
    ("F4019732-066E-4E12-8273-346C5641494F", "Sony boot partition");
    ("BFBFAFE7-A34F-448A-9A5B-6213EB736C22", "Lenovo boot partition / Ceph Journal");
    ("E3C9E316-0B5C-4DB8-817D-F92DF00215AE", "Microsoft Reserved Partition (MSR)");
    ("EBD0A0A2-B9E5-4433-87C0-68B6B72699C7", "Basic data partition");
    ("5808C8AA-7E8F-42E0-85D2-E1E90434CFB3", "Logical Disk Manager (LDM) metadata partition");
    ("AF9B60A0-1431-4F62-BC68-3311714A69AD", "Logical Disk Manager data partition");
    ("DE94BBA4-06D1-4D40-A16A-BFD50179D6AC", "Windows Recovery Environment");
    ("37AFFC90-EF7D-4E96-91C3-2D7AE055B174", "IBM General Parallel File System (GPFS) partition");
    ("75894C1E-3AEB-11D3-B7C1-7B03A0000000", "Data partition");
    ("E2A1E728-32E3-11D6-A682-7B03A0000000", "Service Partition");
    ("0FC63DAF-8483-4772-8E79-3D69D8477DE4", "Linux filesystem data");
    ("A19D880F-05FC-4D3B-A006-743F0F84911E", "RAID partition");
    ("0657FD6D-A4AB-43C4-84E5-0933C84B4F4F", "Swap partition");
    ("E6D6D379-F507-44C2-A23C-238F2A3DF928", "Logical Volume Manager (LVM) partition");
    ("933AC7E1-2EB4-4F13-B844-0E14E2AEF915", "/home partition");
    ("3B8F8425-20E0-4F3B-907F-1A25A76F98E8", "/srv partition");
    ("7FFEC5C9-2D00-49B7-8941-3EA10A5586B7", "Plain dm-crypt partition");
    ("CA7D7CCB-63ED-4C53-861C-1742536059CC", "LUKS partition");
    ("8DA63339-0007-60C0-C436-083AC8230908", "Reserved");
    ("83BD6B9D-7F41-11DC-BE0B-001560B84F0F", "Boot partition");
    ("516E7CB4-6ECF-11D6-8FF8-00022D09712B", "Data partition");
    ("516E7CB5-6ECF-11D6-8FF8-00022D09712B", "Swap partition");
    ("516E7CB6-6ECF-11D6-8FF8-00022D09712B", "Unix File System (UFS) partition");
    ("516E7CB8-6ECF-11D6-8FF8-00022D09712B", "Vinum volume manager partition");
    ("516E7CBA-6ECF-11D6-8FF8-00022D09712B", "ZFS partition");
    ("48465300-0000-11AA-AA11-00306543ECAC", "Hierarchical File System Plus (HFS+) partition");
    ("55465300-0000-11AA-AA11-00306543ECAC", "Apple UFS");
    ("6A898CC3-1DD2-11B2-99A6-080020736631", "ZFS / usr partition ");
    ("52414944-0000-11AA-AA11-00306543ECAC", "Apple RAID partition");
    ("52414944-5F4F-11AA-AA11-00306543ECAC", "Apple RAID partition, offline");
    ("426F6F74-0000-11AA-AA11-00306543ECAC", "Apple Boot partition");
    ("4C616265-6C00-11AA-AA11-00306543ECAC", "Apple Label");
    ("5265636F-7665-11AA-AA11-00306543ECAC", "Apple TV Recovery partition");
    ("53746F72-6167-11AA-AA11-00306543ECAC", "Apple Core Storage (i.e. Lion FileVault) partition");
    ("6A82CB45-1DD2-11B2-99A6-080020736631", "Boot partition");
    ("6A85CF4D-1DD2-11B2-99A6-080020736631", "Root partition");
    ("6A87C46F-1DD2-11B2-99A6-080020736631", "Swap partition");
    ("6A8B642B-1DD2-11B2-99A6-080020736631", "Backup partition");
    ("6A8EF2E9-1DD2-11B2-99A6-080020736631", "/var partition");
    ("6A90BA39-1DD2-11B2-99A6-080020736631", "/home partition");
    ("6A9283A5-1DD2-11B2-99A6-080020736631", "Alternate sector");
    ("6A945A3B-1DD2-11B2-99A6-080020736631", "Reserved partition");
    ("6A9630D1-1DD2-11B2-99A6-080020736631", "Reserved partition");
    ("6A980767-1DD2-11B2-99A6-080020736631", "Reserved partition");
    ("6A96237F-1DD2-11B2-99A6-080020736631", "Reserved partition");
    ("6A8D2AC7-1DD2-11B2-99A6-080020736631", "Reserved partition");
    ("49F48D32-B10E-11DC-B99B-0019D1879648", "Swap partition");
    ("49F48D5A-B10E-11DC-B99B-0019D1879648", "FFS partition");
    ("49F48D82-B10E-11DC-B99B-0019D1879648", "LFS partition");
    ("49F48DAA-B10E-11DC-B99B-0019D1879648", "RAID partition");
    ("2DB519C4-B10F-11DC-B99B-0019D1879648", "Concatenated partition");
    ("2DB519EC-B10F-11DC-B99B-0019D1879648", "Encrypted partition");
    ("FE3A2A5D-4F32-41A7-B725-ACCC3285A309", "ChromeOS kernel");
    ("3CB8E202-3B7E-47DD-8A3C-7FF2A13CFCEC", "ChromeOS rootfs");
    ("2E0A753D-9E48-43B0-8337-B15192CB1B5E", "ChromeOS future use");
    ("42465331-3BA3-10F1-802A-4861696B7521", "Haiku BFS");
    ("85D5E45E-237C-11E1-B4B3-E89A8F7FC3A7", "Boot partition");
    ("85D5E45A-237C-11E1-B4B3-E89A8F7FC3A7", "Data partition");
    ("85D5E45B-237C-11E1-B4B3-E89A8F7FC3A7", "Swap partition");
    ("0394EF8B-237E-11E1-B4B3-E89A8F7FC3A7", "Unix File System (UFS) partition");
    ("85D5E45C-237C-11E1-B4B3-E89A8F7FC3A7", "Vinum volume manager partition");
    ("85D5E45D-237C-11E1-B4B3-E89A8F7FC3A7", "ZFS partition");
    ("45B0969E-9B03-4F30-B4C6-5EC00CEFF106", "Ceph dm-crypt Encrypted Journal");
    ("4FBD7E29-9D25-41B8-AFD0-062C0CEFF05D", "Ceph OSD");
    ("4FBD7E29-9D25-41B8-AFD0-5EC00CEFF05D", "Ceph dm-crypt OSD");
    ("89C57F98-2FE5-4DC0-89C1-F3AD0CEFF2BE", "Ceph disk in creation");
    ("89C57F98-2FE5-4DC0-89C1-5EC00CEFF2BE", "Ceph dm-crypt disk in creation") ].

(** *** [uuid.UUID(bytes_le=b)], [str] and [upper] *)

Definition hex_digit_upper (n : Z) : ascii :=
  if n <? 10 then ascii_of_nat (Z.to_nat (48 + n)) else ascii_of_nat (Z.to_nat (55 + n)).

Definition hex_upper (bs : bytes) : string :=
  fold_right (fun b acc =>
                String (hex_digit_upper (byte_val b / 16))
                  (String (hex_digit_upper (byte_val b mod 16)) acc))
             EmptyString bs.

Definition hex_digit_lower (n : Z) : ascii :=
  if n <? 10 then ascii_of_nat (Z.to_nat (48 + n)) else ascii_of_nat (Z.to_nat (87 + n)).

(** The module's [hex(bytestring)]. *)
Definition hex (bs : bytes) : string :=
  fold_right (fun b acc =>
                String (hex_digit_lower (byte_val b / 16))
                  (String (hex_digit_lower (byte_val b mod 16)) acc))
             EmptyString bs.

(** The first three fields of [bytes_le] are stored little-endian. *)
Definition uuid_of_bytes_le (b : bytes) : result bytes :=
  if bool_decide (length b = 16%nat) then
    Ok (rev (slice 0 4 b) ++ rev (slice 4 2 b) ++ rev (slice 6 2 b) ++ slice 8 8 b)
  else Raise (ValueError "bytes_le is not a 16-char string").

Definition uuid_str_upper (b : bytes) : result string :=
  match uuid_of_bytes_le b with
  | Raise e => Raise e
  | Ok u =>
      Ok (hex_upper (slice 0 4 u) +:+ "-" +:+ hex_upper (slice 4 2 u) +:+ "-" +:+
          hex_upper (slice 6 2 u) +:+ "-" +:+ hex_upper (slice 8 2 u) +:+ "-" +:+
          hex_upper (slice 10 6 u))
  end.

(** *** [bytes.decode("utf-16")] and [str.split(sep, 1)[0]] *)

Fixpoint utf16_units (le : bool) (b : bytes) : result (list Z) :=
  match b with
  | [] => Ok []
  | [_] => Raise (UnicodeDecodeError "truncated data")
  | b0 :: b1 :: rest =>
      match utf16_units le rest with
      | Raise e => Raise e
      | Ok us =>
          Ok ((if le then byte_val b0 + 256 * byte_val b1
               else byte_val b1 + 256 * byte_val b0) :: us)
      end
  end.

Definition is_high_surrogate (u : Z) : bool := (0xD800 <=? u) && (u <=? 0xDBFF).
Definition is_low_surrogate (u : Z) : bool := (0xDC00 <=? u) && (u <=? 0xDFFF).

Fixpoint utf16_code_points (us : list Z) : result (list Z) :=
  match us with
  | [] => Ok []
  | u :: rest =>
      if is_high_surrogate u then
        match rest with
        | [] => Raise (UnicodeDecodeError "unexpected end of data")
        | u2 :: rest2 =>
            if is_low_surrogate u2 then
              match utf16_code_points rest2 with
              | Raise e => Raise e
              | Ok cs => Ok (0x10000 + (u - 0xD800) * 0x400 + (u2 - 0xDC00) :: cs)
              end
            else Raise (UnicodeDecodeError "illegal UTF-16 surrogate")
        end
      else if is_low_surrogate u then Raise (UnicodeDecodeError "illegal encoding")
      else
        match utf16_code_points rest with
        | Raise e => Raise e
        | Ok cs => Ok (u :: cs)
        end
  end.

(** The codec named ["utf-16"]: a leading byte-order mark picks the byte
    order and is dropped, otherwise the host's order is used. *)
Definition decode_utf16 (env : interp) (b : bytes) : result (list Z) :=
  let '(le, body) :=
    match b with
    | b0 :: b1 :: rest =>
        if bool_decide (b0 = xff /\ b1 = xfe) then (true, rest)
        else if bool_decide (b0 = xfe /\ b1 = xff) then (false, rest)
        else (little_endian_host env, b)
    | _ => (little_endian_host env, b)
    end in
  match utf16_units le body with
  | Raise e => Raise e
  | Ok us => utf16_code_points us
  end.

(** The text of a [str] literal, as code points. *)
Definition text (s : string) : list Z :=
  map (fun a => Z.of_nat (nat_of_ascii a)) (list_ascii_of_string s).

(** Lines 18 to 35 of the module: ["0"] on Python 3, [b"\0"] on Python 2. *)
Definition split_literal (env : interp) : list Z :=
  if py3 env then text "0" else [0].

(** [s.split(sep, 1)[0]] for a non-empty [sep]: what precedes the first
    occurrence of [sep], or all of [s]. *)
Fixpoint split1_head (sep s : list Z) : list Z :=
  match s with
  | [] => []
  | c :: rest => if bool_decide (sep `prefix_of` s) then [] else c :: split1_head sep rest
  end.

(** [GPT_HEADER_FORMAT]: 8s H H L L 4x Q Q Q Q 16s Q L L L, 92 bytes. *)
Module GPTHeader.
Record t : Type := mk {
  signature : bytes;
  revision_minor : Z;
  revision_major : Z;
  header_size : Z;
  crc32 : Z;
  current_lba : Z;
  backup_lba : Z;
  first_usable_lba : Z;
  last_usable_lba : Z;
  disk_guid : pyval;
  part_entry_start_lba : Z;
  num_part_entries : Z;
  part_entry_size : Z;
  crc32_part_array : Z;
}.

Definition unpack (data : bytes) : result t :=
  if bool_decide (length data = 92%nat) then
    Ok {| signature := slice 0 8 data;
          revision_minor := unpack_uint (slice 8 2 data);
          revision_major := unpack_uint (slice 10 2 data);
          header_size := unpack_uint (slice 12 4 data);
          crc32 := unpack_uint (slice 16 4 data);
          current_lba := unpack_uint (slice 24 8 data);
          backup_lba := unpack_uint (slice 32 8 data);
          first_usable_lba := unpack_uint (slice 40 8 data);
          last_usable_lba := unpack_uint (slice 48 8 data);
          disk_guid := VBytes (slice 56 16 data);
          part_entry_start_lba := unpack_uint (slice 72 8 data);
          num_part_entries := unpack_uint (slice 80 4 data);
          part_entry_size := unpack_uint (slice 84 4 data);
          crc32_part_array := unpack_uint (slice 88 4 data) |}
  else Raise (struct_error "unpack requires a buffer of 92 bytes").

(** [header._replace(disk_guid=g)] *)
Definition replace_disk_guid (g : pyval) (h : t) : t :=
  {| signature := signature h; revision_minor := revision_minor h;
     revision_major := revision_major h; header_size := header_size h;
     crc32 := crc32 h; current_lba := current_lba h; backup_lba := backup_lba h;
     first_usable_lba := first_usable_lba h; last_usable_lba := last_usable_lba h;
     disk_guid := g; part_entry_start_lba := part_entry_start_lba h;
     num_part_entries := num_part_entries h; part_entry_size := part_entry_size h;
     crc32_part_array := crc32_part_array h |}.
End GPTHeader.

(** [GPT_PARTITION_FORMAT]: 16s 16s Q Q Q 72s, 128 bytes, and two extras. *)
Module GPTPartition.
Record t : Type := mk {
  guid : pyval;
  uid : pyval;
  first_lba : Z;
  last_lba : Z;
  flags : Z;
  name : pyval;
  index : Z;
  type : string;
}.

Definition unpack (data : bytes) (i : Z) : result t :=
  if bool_decide (length data = 128%nat) then
    Ok {| guid := VBytes (slice 0 16 data);
          uid := VBytes (slice 16 16 data);
          first_lba := unpack_uint (slice 32 8 data);
          last_lba := unpack_uint (slice 40 8 data);
          flags := unpack_uint (slice 48 8 data);
          name := VBytes (slice 56 72 data);
          index := i;
          type := "" |}
  else Raise (struct_error "unpack requires a buffer of 128 bytes").

(** [part._replace(guid=g, uid=u, name=n, type=ty)] *)
Definition replace (g u n : pyval) (ty : string) (p : t) : t :=
  {| guid := g; uid := u; first_lba := first_lba p; last_lba := last_lba p;
     flags := flags p; name := n; index := index p; type := ty |}.
End GPTPartition.

Module GPTInfo.
Record t : Type := mk {
  lba_size : Z;
  header : GPTHeader.t;
  revision_minor : Z;
  revision_major : Z;
  crc32 : Z;
  current_lba : Z;
  backup_lba : Z;
  first_usable_lba : Z;
  last_usable_lba : Z;
  disk_guid : pyval;
  part_entry_start_lba : Z;
  num_part_entries : Z;
  part_entry_size : Z;
  crc32_part_array : Z;
  partitions : list GPTPartition.t;
}.
End GPTInfo.

(** [bytes] held in a field that [_replace] has not yet rewritten. *)
Definition as_bytes (v : pyval) : bytes :=
  match v with VBytes b => b | _ => [] end.

(** [a < b] on the values of [major + minor / 10] and [1.0].  With
    [from __future__ import division] the quotient is a true division and
    the sum a binary64 number; it is compared here as the exact rational.
    On 16-bit fields the two comparisons with [1.0] agree: for major 0 the
    sum is the correctly rounded [minor / 10], below [1.0] exactly for
    minor 0 to 9 ([9 / 10] rounds to 0.9, [10 / 10] is 1.0), and for
    major 1 or more the sum of two non-negative numbers is at least 1.0. *)
Definition Qltb (a b : Q) : bool := (Qnum a * QDen b <? Qnum b * QDen a)%Z.

Module GPTTable.
Record t : Type := mk {
  filename : string;
  fp : handle;
  info : option GPTInfo.t;
  gptheader : option GPTHeader.t;
}.

Definition set_gptheader (h : GPTHeader.t) (self : t) : t :=
  {| filename := filename self; fp := fp self; info := info self; gptheader := Some h |}.
Definition set_info (i : GPTInfo.t) (self : t) : t :=
  {| filename := filename self; fp := fp self; info := Some i; gptheader := gptheader self |}.

Definition get_gptheader (self : t) : M GPTHeader.t :=
  match gptheader self with
  | Some h => ret h
  | None => raise (AttributeError "'GPTTable' object has no attribute 'gptheader'")
  end.

Definition revision (header : GPTHeader.t) : Q :=
  (inject_Z (GPTHeader.revision_major header)
   + inject_Z (GPTHeader.revision_minor header) / inject_Z 10)%Q.

Definition read_gpt_header (self : t) (lba_size : Z) : M GPTHeader.t :=
  fun w =>
    match fp_seek (fp self) (1 * lba_size) w with
    | (Raise e, w1) =>
        match e with
        | IOError msg => (Raise (GPTError msg), w1)
        | _ => (Raise e, w1)
        end
    | (Ok _, w1) =>
        (let* data := fp_read (fp self) 92 in
         let* header := lift (GPTHeader.unpack data) in
         if bool_decide (GPTHeader.signature header <> b_ "EFI PART")
         then raise (GPTMissing "Bad GPT signature")
         else if Qltb (revision header) (inject_Z 1)
         then raise (GPTError ("Bad GPT revision: " +:+ pretty (GPTHeader.revision_major header)
                               +:+ "." +:+ pretty (GPTHeader.revision_minor header)))
         else if GPTHeader.header_size header <? 92
         then raise (GPTError ("Bad GPT header size: " +:+ pretty (GPTHeader.header_size header)))
         else
           let* g := lift (uuid_str_upper (as_bytes (GPTHeader.disk_guid header))) in
           ret (GPTHeader.replace_disk_guid (VStr g) header)) w1
    end.

(** The body of the loop of [read_gpt_partitions]; [parts] is the list
    being built and [i] the loop variable. *)
Definition read_gpt_partitions_body (env : interp) (self : t) (header : GPTHeader.t)
    (i : Z) (parts : list GPTPartition.t) : M (list GPTPartition.t) :=
  let* data := fp_read (fp self) (GPTHeader.part_entry_size header) in
  if (Z.of_nat (length data) <? 128)
  then raise (GPTError ("Short GPT partition entry #" +:+ pretty (i + 1)))
  else
    let* part := lift (GPTPartition.unpack data (i + 1)) in
    if bool_decide (as_bytes (GPTPartition.guid part) = zeros 16) then ret parts
    else
      let* guid := lift (uuid_str_upper (as_bytes (GPTPartition.guid part))) in
      let ptype := default "Unknown" (GPT_GUID !! guid) in
      let* uid := lift (uuid_str_upper (as_bytes (GPTPartition.uid part))) in
      let* decoded := lift (decode_utf16 env (as_bytes (GPTPartition.name part))) in
      let name := split1_head (split_literal env) decoded in
      ret (parts ++ [GPTPartition.replace (VStr guid) (VStr uid) (VText name) ptype part]).

Definition read_gpt_partitions (env : interp) (self : t) (lba_size : Z) : M (list GPTPartition.t) :=
  let* header := get_gptheader self in
  let* _ := fp_seek_in env (fp self) (GPTHeader.part_entry_start_lba header * lba_size) in
  for_ (py_range 0 (GPTHeader.num_part_entries header))
    (read_gpt_partitions_body env self header) [].

Definition init_except (self : t) (e : exn) : world -> t * result unit * world :=
  fun w =>
    if isinstance_GPTMissing e then (self, Ok tt, w)
    else if isinstance_GPTError e then (self, Ok tt, snd (print "Error reading GPT!" w))
    else (self, Raise e, w).

(** The [GPTInfo] tuple built from the dictionary [info] once the header
    and the partitions are in. *)
Definition make_info (blocksize : Z) (h : GPTHeader.t) (partitions : list GPTPartition.t) : GPTInfo.t :=
  {| GPTInfo.lba_size := blocksize;
     GPTInfo.header := h;
     GPTInfo.revision_minor := GPTHeader.revision_minor h;
     GPTInfo.revision_major := GPTHeader.revision_major h;
     GPTInfo.crc32 := GPTHeader.crc32 h;
     GPTInfo.current_lba := GPTHeader.current_lba h;
     GPTInfo.backup_lba := GPTHeader.backup_lba h;
     GPTInfo.first_usable_lba := GPTHeader.first_usable_lba h;
     GPTInfo.last_usable_lba := GPTHeader.last_usable_lba h;
     GPTInfo.disk_guid := GPTHeader.disk_guid h;
     GPTInfo.part_entry_start_lba := GPTHeader.part_entry_start_lba h;
     GPTInfo.num_part_entries := GPTHeader.num_part_entries h;
     GPTInfo.part_entry_size := GPTHeader.part_entry_size h;
     GPTInfo.crc32_part_array := GPTHeader.crc32_part_array h;
     GPTInfo.partitions := partitions |}.

(** The body of the second [try] block of [__init__]; the dictionary
    [info] is local to it and becomes [self.info] in its last statement. *)
Definition init_try (env : interp) (self : t) (blocksize : Z) : world -> t * result unit * world :=
  fun w =>
    match read_gpt_header self blocksize w with
    | (Raise e, w1) => (self, Raise e, w1)
    | (Ok h, w1) =>
        let self := set_gptheader h self in
        match read_gpt_partitions env self blocksize w1 with
        | (Raise e, w2) => (self, Raise e, w2)
        | (Ok partitions, w2) =>
            (set_info (make_info blocksize h partitions) self, Ok tt, w2)
        end
    end.

Definition init (env : interp) (fp0 : handle) (name : string) : world -> t * result unit * world :=
  fun w =>
    let self := {| filename := name; fp := fp0; info := None; gptheader := None |} in
    match check_disk_file (fp self) w with
    | (Raise e, w1) => (self, Raise e, w1)
    | (Ok _, w1) =>
        match fp_seek (fp self) 0 w1 with
        | (Raise e, w2) => (self, Raise e, w2)
        | (Ok _, w2) =>
            match query_blocksize (fp self) w2 with
            | (Raise e, w3) => (self, Raise e, w3)
            | (Ok blocksize, w3) =>
                match init_try env self blocksize w3 with
                | (self, Ok _, w4) => (self, Ok tt, w4)
                | (self, Raise e, w4) => init_except self e w4
                end
            end
        end
    end.

Definition new (env : interp) (fp0 : handle) (name : string) : M t :=
  fun w =>
    match init env fp0 name w with
    | (self, Ok _, w') => (Ok self, w')
    | (_, Raise e, w') => (Raise e, w')
    end.
End GPTTable.

(** ** BSD disklabel *)

Definition DISKLABEL_PARTITION_TYPE : gmap Z string := list_to_map [
    (0x00, "Unused");
    (0x01, "Swap");
    (0x02, "V6");
    (0x03, "V7");
    (0x04, "SystemV");
    (0x05, "4.1BSD");
    (0x06, "Eighth edition");
    (0x07, "4.2BSD fast file system (FFS)");
    (0x08, "MSDOS (FAT variants)");
    (0x09, "4.4BSD (LFS)");
    (0x0a, "Unknown");
    (0x0b, "OS/2 (HPFS)");
    (0x0c, "CD-ROM (ISO9660)");
    (0x0d, "Bootstrap");
    (0x20, "NTFS");
    (0x1b, "ZFS") ].

(** [DISKLABEL_HEADER_FORMAT]: 4s 4s 16s 16s L 88s 4s 2s H L L, 148 bytes,
    and the extra [size]. *)
Module DisklabelHeader.
Record t : Type := mk {
  signature1 : bytes;
  controller : bytes;
  disklabel : bytes;
  pack_id : bytes;
  sector_byte : Z;
  misc : bytes;
  signature2 : bytes;
  checksum : bytes;
  slices_total : Z;
  boot_size : Z;
  superblock_size : Z;
  size : Z;
}.

Definition unpack (data : bytes) (sz : Z) : result t :=
  if bool_decide (length data = 148%nat) then
    Ok {| signature1 := slice 0 4 data;
          controller := slice 4 4 data;
          disklabel := slice 8 16 data;
          pack_id := slice 24 16 data;
          sector_byte := unpack_uint (slice 40 4 data);
          misc := slice 44 88 data;
          signature2 := slice 132 4 data;
          checksum := slice 136 2 data;
          slices_total := unpack_uint (slice 138 2 data);
          boot_size := unpack_uint (slice 140 4 data);
          superblock_size := unpack_uint (slice 144 4 data);
          size := sz |}
  else Raise (struct_error "unpack requires a buffer of 148 bytes").
End DisklabelHeader.

(** [DISKLABEL_PARTITION_FORMAT]: L L L B 1s 2s, 16 bytes, and two extras. *)
Module DisklabelPartition.
Record t : Type := mk {
  sectors_total : Z;
  first_sector : Z;
  filesystem_size : Z;
  type : Z;
  fragments : bytes;
  cylinders : bytes;
  index : Z;
  type_str : string;
}.

Definition unpack (partstr : bytes) (num : Z) (ts : string) : result t :=
  if bool_decide (length partstr = 16%nat) then
    Ok {| sectors_total := unpack_uint (slice 0 4 partstr);
          first_sector := unpack_uint (slice 4 4 partstr);
          filesystem_size := unpack_uint (slice 8 4 partstr);
          type := unpack_uint (slice 12 1 partstr);
          fragments := slice 13 1 partstr;
          cylinders := slice 14 2 partstr;
          index := num;
          type_str := ts |}
  else Raise (struct_error "unpack requires a buffer of 16 bytes").

Definition replace_type_str (s : string) (p : t) : t :=
  {| sectors_total := sectors_total p; first_sector := first_sector p;
     filesystem_size := filesystem_size p; type := type p;
     fragments := fragments p; cylinders := cylinders p;
     index := index p; type_str := s |}.
End DisklabelPartition.

Module DisklabelInfo.
Record t : Type := mk {
  lba_size : Z;
  header : DisklabelHeader.t;
  partitions : list DisklabelPartition.t;
}.
End DisklabelInfo.

Module DisklabelTable.
Record t : Type := mk {
  fp : handle;
  filename : string;
  info : option DisklabelInfo.t;
  header : option DisklabelHeader.t;
  partitions : option (list DisklabelPartition.t);
}.

Definition set_header (h : DisklabelHeader.t) (self : t) : t :=
  {| fp := fp self; filename := filename self; info := info self;
     header := Some h; partitions := partitions self |}.
Definition set_partitions (ps : list DisklabelPartition.t) (self : t) : t :=
  {| fp := fp self; filename := filename self; info := info self;
     header := header self; partitions := Some ps |}.
Definition set_info (i : DisklabelInfo.t) (self : t) : t :=
  {| fp := fp self; filename := filename self; info := Some i;
     header := header self; partitions := partitions self |}.

Definition get_header (self : t) : M DisklabelHeader.t :=
  match header self with
  | Some h => ret h
  | None => raise (AttributeError "'DisklabelTable' object has no attribute 'header'")
  end.

Definition read_disklabel_header (self : t) (lba_size : Z) : M DisklabelHeader.t :=
  fun w =>
    match fp_seek (fp self) (1 * lba_size) w with
    | (Raise e, w1) =>
        match e with
        | IOError msg => (Raise (DisklabelError msg), w1)
        | _ => (Raise e, w1)
        end
    | (Ok _, w1) =>
        (let* data := fp_read (fp self) 148 in
         let* hdr := lift (DisklabelHeader.unpack data 0x94) in
         if bool_decide (DisklabelHeader.signature1 hdr <> [x57; x45; x56; x82])
            || bool_decide (DisklabelHeader.signature2 hdr <> [x57; x45; x56; x82])
         then raise (DisklabelMissing "Bad Disklabel signature")
         else ret hdr) w1
    end.

Definition read_disklabel_partitions (self : t) (lba_size : Z) : M (list DisklabelPartition.t) :=
  let* hdr := get_header self in
  for_ (py_range 0 (DisklabelHeader.slices_total hdr))
    (fun num parts =>
       let* _ := fp_seek (fp self) (lba_size + DisklabelHeader.size hdr + num * 0x10) in
       let* partstr := fp_read (fp self) 0x10 in
       let* part := lift (DisklabelPartition.unpack partstr num "Unknown") in
       if DisklabelPartition.type part =? 0 then ret parts
       else
         match DISKLABEL_PARTITION_TYPE !! DisklabelPartition.type part with
         | Some ptype => ret (parts ++ [DisklabelPartition.replace_type_str ptype part])
         | None => ret (parts ++ [part])
         end)
    [].

(** Both [except] clauses are [pass]. *)
Definition init_except (self : t) (e : exn) : world -> t * result unit * world :=
  fun w =>
    if isinstance_DisklabelMissing e then (self, Ok tt, w)
    else if isinstance_DisklabelError e then (self, Ok tt, w)
    else (self, Raise e, w).

Definition init_try (self : t) (blocksize : Z) : world -> t * result unit * world :=
  fun w =>
    match read_disklabel_header self blocksize w with
    | (Raise e, w1) => (self, Raise e, w1)
    | (Ok h, w1) =>
        let self := set_header h self in
        match read_disklabel_partitions self blocksize w1 with
        | (Raise e, w2) => (self, Raise e, w2)
        | (Ok ps, w2) =>
            let self := set_partitions ps self in
            (set_info (DisklabelInfo.mk 512 h ps) self, Ok tt, w2)
        end
    end.

Definition init (fp0 : handle) (name : string) : world -> t * result unit * world :=
  fun w =>
    let self := {| fp := fp0; filename := name; info := None;
                   header := None; partitions := None |} in
    match check_disk_file (fp self) w with
    | (Raise e, w1) => (self, Raise e, w1)
    | (Ok _, w1) =>
        match fp_seek (fp self) 0 w1 with
        | (Raise e, w2) => (self, Raise e, w2)
        | (Ok _, w2) =>
            match query_blocksize (fp self) w2 with
            | (Raise e, w3) => (self, Raise e, w3)
            | (Ok blocksize, w3) =>
                match init_try self blocksize w3 with
                | (self, Ok _, w4) => (self, Ok tt, w4)
                | (self, Raise e, w4) => init_except self e w4
                end
            end
        end
    end.

Definition new (fp0 : handle) (name : string) : M t :=
  fun w =>
    match init fp0 name w with
    | (self, Ok _, w') => (Ok self, w')
    | (_, Raise e, w') => (Raise e, w')
    end.
End DisklabelTable.

(** ** Reports and the driver

    [pprint] is the presentation layer; it is kept because [get_info] runs
    it between two constructors and it can raise.  Rows are recorded as
    their format template and arguments. *)

Fixpoint str_mul (s : string) (n : nat) : string :=
  match n with
  | O => EmptyString
  | S n' => s +:+ str_mul s n'
  end.

Definition MBRTable_pprint (self : MBRTable.t) : M unit :=
  let* _ :=
    match MBRTable.info self with
    | Some i =>
        let* _ := print "MBR Header" in
        let* _ := print (str_mul "-" 88) in
        let* _ := print "File dump       | #Parts   | FS or potential FS   |  Start   |   Size     |   Note     |" in
        let* _ := print "                |          |                      |          |            | *-active   |" in
        let* _ := print (str_mul "-" 88) in
        let* _ := print_fmt "{0: <16}| Serial: 0x{1: <59}|"
                    [VStr (MBRTable.filename self);
                     VStr (hex (MBRHeader.drive_signature (MBRInfo.header i)))] in
        let* _ := for_ (MBRInfo.partitions i)
                    (fun part _ =>
                       let* _ := print (str_mul "-" 88) in
                       match part with
                       | None => raise (AttributeError "'NoneType' object has no attribute 'index'")
                       | Some p =>
                           print_fmt "                |{n: ^9}|{type: ^23}|{from_s: ^10}|{size_s: ^12}| {boot: <2}ID=0x{code: <4X}|"
                             [VInt (MBRPartition.index p);
                              VStr (if MBRPartition.active p then "*" else "");
                              VInt (MBRPartition.lba p);
                              VInt (MBRPartition.sectors p);
                              VInt (MBRPartition.type p);
                              VStr (MBRPartition.type_str p)]
                       end) tt in
        print (str_mul "-" 88)
    | None => print "No MBR"
    end in
  print "---".

Definition GPTTable_pprint (self : GPTTable.t) : M unit :=
  let* _ :=
    match GPTTable.info self with
    | Some i =>
        let* _ := print "GPT Header" in
        let* _ := print (str_mul "-" 137) in
        let* _ := print "File dump       | #Parts   |           Partition GUID            |  Start   |    Size    |        FS or potential FS        |   Note    |" in
        let* _ := print (str_mul "-" 137) in
        let* _ := print_fmt " {0: <15}| GUID: 0x{1: <110}|"
                    [VStr (GPTTable.filename self); GPTInfo.disk_guid i] in
        let* _ := for_ (GPTInfo.partitions i)
                    (fun part _ =>
                       let* _ := print (str_mul "-" 137) in
                       let* _ := print_fmt "{empty: ^16}|{n: ^9}|{guid: ^38}|{from_s: ^10}|{size: ^12}| {type:31.31} |{flags: ^12}|"
                                   [VStr "";
                                    VInt (GPTPartition.index part);
                                    GPTPartition.guid part;
                                    VStr (GPTPartition.type part);
                                    VInt (GPTPartition.last_lba part - GPTPartition.first_lba part);
                                    VInt (GPTPartition.first_lba part);
                                    VInt (GPTPartition.flags part)] in
                       print_fmt "{empty: ^16}|{empty: ^9}|{uid: ^38}|{empty: ^10}|{empty: ^12}| {empty:31.31} |{empty: ^12}|"
                         [VStr ""; GPTPartition.uid part]) tt in
        print (str_mul "-" 137)
    | None => print "No GPT"
    end in
  print "---".

(** [[i + ":" for i in "abcdefghijklmnopqrstuvwxyz"]] *)
Definition indexer : list string :=
  map (fun a => String a ":") (list_ascii_of_string "abcdefghijklmnopqrstuvwxyz").

Definition DisklabelTable_pprint (self : DisklabelTable.t) : M unit :=
  let* _ :=
    match DisklabelTable.info self with
    | Some i =>
        let* _ := print "Disklabel Header" in
        let* _ := print (str_mul "-" 88) in
        let* _ := print "File dump      | #Parts   | FS or potential FS   |  Start   |   Size   |   Note     |" in
        let* _ := print (str_mul "-" 88) in
        let* _ := print_fmt " {0: <86}|" [VStr (DisklabelTable.filename self)] in
        let* _ := for_ (DisklabelInfo.partitions i)
                    (fun part _ =>
                       let* _ := print (str_mul "-" 88) in
                       match indexer !! Z.to_nat (DisklabelPartition.index part) with
                       | None => raise (IndexError "list index out of range")
                       | Some letter =>
                           print_fmt "              |{n: ^9}|{type: ^23}|{from_s: ^10}|{size_s: ^12}| ID=0x{code: <4X}  |"
                             [VStr letter;
                              VInt (DisklabelPartition.first_sector part);
                              VInt (DisklabelPartition.sectors_total part);
                              VInt (DisklabelPartition.type part);
                              VStr (DisklabelPartition.type_str part)]
                       end) tt in
        print (str_mul "-" 88)
    | None => print "No Disklabel"
    end in
  print "---".

(** [get_info(fp, name)].  The three local objects are returned so that
    they can be observed; Python drops them. *)
Definition get_info (env : interp) (fp : handle) (name : string)
  : M (MBRTable.t * GPTTable.t * DisklabelTable.t) :=
  let* m := MBRTable.new env fp name in
  let* _ := MBRTable_pprint m in
  let* g := GPTTable.new env fp name in
  let* _ := GPTTable_pprint g in
  let* d := DisklabelTable.new fp name in
  let* _ := DisklabelTable_pprint d in
  let* _ := print "" in
  ret (m, g, d).

(** ** Disk images used as test inputs *)

Module Image.
Definition byte_of_Z (v : Z) : byte :=
  default x00 (Byte.of_N (Z.to_N (v mod 256))).

(** [struct.pack] of an unsigned little-endian integer on [n] bytes. *)
Fixpoint pack_uint (n : nat) (v : Z) : bytes :=
  match n with
  | O => []
  | S n' => byte_of_Z v :: pack_uint n' (v / 256)
  end.

(** A 16-byte partition slot with zeroed CHS fields. *)
Definition slot (status type lba sectors : Z) : bytes :=
  pack_uint 1 status ++ zeros 3 ++ pack_uint 1 type ++ zeros 3
    ++ pack_uint 4 lba ++ pack_uint 4 sectors.

Definition empty_slot : bytes := zeros 16.

Definition mbr_sector (p1 p2 p3 p4 sig : bytes) : bytes :=
  zeros 440 ++ [xde; xad; xbe; xef] ++ zeros 2 ++ p1 ++ p2 ++ p3 ++ p4 ++ sig.

Definition ebr_sector (part next sig : bytes) : bytes :=
  zeros 446 ++ part ++ next ++ zeros 32 ++ sig.

Definition blank_sector : bytes := zeros 512.

Definition boot_sig : bytes := [x55; xaa].

(** A regular file: the block-size ioctl fails, and no read errors. *)
Definition regular (data : bytes) : file :=
  {| f_data := data; f_pos := 0; f_blksz := None; f_bad := fun _ => false |}.

Definition disk (h : handle) (data : bytes) : world :=
  {| files := {[ h := regular data ]}; stdout := []; io_log := [] |}.

(** The [__main__] block on Python 3: the global [fp] is the file being
    decoded. *)
Definition script (h : handle) : interp :=
  {| py3 := true; global_fp := Some h; recursion_limit := 990;
     little_endian_host := true |}.

(** The module imported as a library: no global [fp]. *)
Definition imported : interp :=
  {| py3 := true; global_fp := None; recursion_limit := 990;
     little_endian_host := true |}.

(** Only the fourth primary slot is in use. *)
Definition fourth_slot : bytes := slot 0x80 0x83 2048 1000.
Definition fourth_slot_only : bytes :=
  mbr_sector empty_slot empty_slot empty_slot fourth_slot boot_sig.

(** An extended partition at LBA 1 holding three logical partitions; the
    EBRs sit at relative LBAs 0, 2 and 4. *)
Definition chain3 : bytes :=
  mbr_sector (slot 0 0x05 1 100) (slot 0 0x83 50 10) empty_slot empty_slot boot_sig
    ++ ebr_sector (slot 0 0x83 1 1) (slot 0 0x05 2 2) boot_sig
    ++ blank_sector
    ++ ebr_sector (slot 0x80 0x07 1 1) (slot 0 0x05 4 2) boot_sig
    ++ blank_sector
    ++ ebr_sector (slot 0 0x82 1 1) empty_slot boot_sig.

(** An extended partition whose only EBR describes no logical partition
    and has an all-zero next-EBR descriptor. *)
Definition chain0 : bytes :=
  mbr_sector (slot 0 0x05 1 100) empty_slot empty_slot empty_slot boot_sig
    ++ ebr_sector empty_slot empty_slot boot_sig.

(** Three EBRs at relative LBAs 0, 1, 2; the third points back to the first. *)
Definition cycle3 : bytes :=
  mbr_sector (slot 0 0x05 1 100) empty_slot empty_slot empty_slot boot_sig
    ++ ebr_sector (slot 0 0x83 1 1) (slot 0 0x05 1 2) boot_sig
    ++ ebr_sector (slot 0x80 0x07 1 1) (slot 0 0x05 2 2) boot_sig
    ++ ebr_sector (slot 0 0x82 1 1) (slot 0 0x05 0 2) boot_sig.

(** [s.encode("utf-16-le")] for ASCII [s], and a 72-byte name field. *)
Definition utf16le (s : string) : bytes :=
  flat_map (fun a => [byte_of_ascii a; x00]) (list_ascii_of_string s).
Definition gpt_name (s : string) : bytes :=
  utf16le s ++ zeros (72 - length (utf16le s)).

Definition efi_system_guid : bytes :=
  [x28; x73; x2a; xc1; x1f; xf8; xd2; x11; xba; x4b; x00; xa0; xc9; x3e; xc9; x3b].
Definition linux_data_guid : bytes :=
  [xaf; x3d; xc6; x0f; x83; x84; x72; x47; x8e; x79; x3d; x69; xd8; x47; x7d; xe4].
Definition some_uid : bytes :=
  [x01; x02; x03; x04; x05; x06; x07; x08; x09; x0a; x0b; x0c; x0d; x0e; x0f; x10].

Definition gpt_header (sig : bytes) (minor major header_size entry_lba num entry_size : Z) : bytes :=
  sig ++ pack_uint 2 minor ++ pack_uint 2 major ++ pack_uint 4 header_size
    ++ pack_uint 4 0 ++ zeros 4 ++ pack_uint 8 1 ++ pack_uint 8 99
    ++ pack_uint 8 34 ++ pack_uint 8 66 ++ some_uid
    ++ pack_uint 8 entry_lba ++ pack_uint 4 num ++ pack_uint 4 entry_size ++ pack_uint 4 0.

Definition gpt_entry (type_guid uid : bytes) (first last flags : Z) (name : bytes) : bytes :=
  type_guid ++ uid ++ pack_uint 8 first ++ pack_uint 8 last ++ pack_uint 8 flags ++ name.

Definition unused_entry : bytes := zeros 128.

(** Sector 0 without an MBR signature, the GPT header in sector 1, the
    entry array from sector 2 on. *)
Definition gpt_disk (header : bytes) (entries : list bytes) : bytes :=
  blank_sector ++ header ++ zeros (512 - length header) ++ concat entries.

Definition efi_entry : bytes :=
  gpt_entry efi_system_guid some_uid 2048 4095 0 (gpt_name "EFI System").
Definition root_entry : bytes :=
  gpt_entry linux_data_guid some_uid 4096 8191 0 (gpt_name "root").

(** One entry named "EFI System". *)
Definition gpt_efi : bytes :=
  gpt_disk (gpt_header (b_ "EFI PART") 0 1 92 2 1 128) [efi_entry].

(** 128 declared entries, of which only the first and the fiftieth are in use. *)
Definition sparse_entries : list bytes :=
  map (fun i => if (i =? 1)%nat then efi_entry
                else if (i =? 50)%nat then root_entry
                else unused_entry) (seq 1 128).
Definition gpt_sparse : bytes :=
  gpt_disk (gpt_header (b_ "EFI PART") 0 1 92 2 128 128) sparse_entries.

(** Two declared entries of 256 bytes each: the first slot unused, the
    second in use. *)
Definition gpt_wide_unused : bytes :=
  gpt_disk (gpt_header (b_ "EFI PART") 0 1 92 2 2 256)
    [zeros 256; efi_entry ++ zeros 128].

(** Revision 1.0 with a header size one short of the minimum, and
    revision 0.0. *)
Definition gpt_short_header : bytes :=
  gpt_disk (gpt_header (b_ "EFI PART") 0 1 91 2 0 128) [].
Definition gpt_bad_revision : bytes :=
  gpt_disk (gpt_header (b_ "EFI PART") 0 0 92 2 0 128) [].

(** The header found in sector 1 of an image, as [read_gpt_header] leaves
    it in [self.gptheader]. *)
Definition parser_after_header (d : bytes) : GPTTable.t :=
  {| GPTTable.filename := "disk.img"; GPTTable.fp := 0%nat; GPTTable.info := None;
     GPTTable.gptheader :=
       match GPTTable.read_gpt_header (GPTTable.mk "disk.img" 0%nat None None) 512
               (disk 0%nat d) with
       | (Ok h, _) => Some h
       | (Raise _, _) => None
       end |}.

(** The image [gpt_efi] behind a device with 4096-byte logical blocks. *)
Definition disk_4k (h : handle) (data : bytes) : world :=
  {| files := {[ h := {| f_data := data; f_pos := 0; f_blksz := Some 4096;
                         f_bad := fun _ => false |} ]};
     stdout := []; io_log := [] |}.

(** A valid GPT with one entry behind an MBR whose extended partition
    (LBA 3) starts with a sector that is not an EBR. *)
Definition pad_sector (b : bytes) : bytes := b ++ zeros (512 - length b).
Definition hybrid_bad_ebr : bytes :=
  mbr_sector (slot 0 0x05 3 10) empty_slot empty_slot empty_slot boot_sig
    ++ pad_sector (gpt_header (b_ "EFI PART") 0 1 92 2 1 128)
    ++ pad_sector efi_entry
    ++ blank_sector.

(** Nothing on the disk: 64 blank sectors. *)
Definition blank_disk : bytes := zeros (64 * 512).

(** The same interpreter state on Python 2. *)
Definition script_py2 (h : handle) : interp :=
  {| py3 := false; global_fp := Some h; recursion_limit := 990;
     little_endian_host := true |}.

(** The module imported by a program that has its own global [fp], bound
    to another open file. *)
Definition foreign_fp (h : handle) : interp :=
  {| py3 := true; global_fp := Some h; recursion_limit := 990;
     little_endian_host := true |}.

Definition two_disks (h0 : handle) (d0 : bytes) (h1 : handle) (d1 : bytes) : world :=
  {| files := <[ h1 := regular d1 ]> {[ h0 := regular d0 ]}; stdout := []; io_log := [] |}.

(** An MBR with an extended partition at LBA 1 and nothing behind it. *)
Definition extended_no_ebr : bytes :=
  mbr_sector (slot 0 0x05 1 100) empty_slot empty_slot empty_slot boot_sig
    ++ blank_sector ++ blank_sector ++ blank_sector.

(** Another stream that happens to start with two chained EBR sectors. *)
Definition stray_ebrs : bytes :=
  ebr_sector (slot 0 0x83 1 1) (slot 0 0x05 2 2) boot_sig
    ++ ebr_sector (slot 0x80 0x07 1 1) empty_slot boot_sig.
End Image.


(** ** The EBR chain as it lies on the disk *)

(** The sector that the read at relative LBA [lba] of the extended
    partition at [ext] returns. *)
Definition ebr_sector_at (d : bytes) (ext lba : Z) : bytes :=
  slice (Z.to_nat ((ext + lba) * 512)) 512 d.

(** Where the EBR at [lba] sends the traversal: [Some lba'] when the sector
    is whole, its signature is right and its next-EBR descriptor is
    non-zero, with a non-zero type code and [lba'] in its LBA field. *)
Definition ebr_next (d : bytes) (ext lba : Z) : option Z :=
  match EBR.unpack (ebr_sector_at d ext lba) with
  | Ok ebr =>
      if bool_decide (EBR.signature ebr = [x55; xaa])
         && bool_decide (EBR.next_ebr ebr <> zeros 16)
      then
        match MBRTable.read_mbr_partition (EBR.next_ebr ebr) 0 with
        | Ok (Some p) => Some (MBRPartition.lba p)
        | _ => None
        end
      else None
  | Raise _ => None
  end.

(** The chain runs into a cycle: every LBA of [visited] has an EBR whose
    next pointer leads back into [visited]. *)
Definition cyclic_chain (d : bytes) (ext : Z) (visited : list Z) : bool :=
  forallb (fun l =>
             (0 <=? ext + l) && ((ext + l) * 512 <=? max_off)
             && match ebr_next d ext l with
                | Some l' => bool_decide (l' ∈ visited)
                | None => false
                end) visited.

(** A terminated chain: [nodes] lists, in traversal order, the relative
    LBA of each EBR and its 16-byte partition descriptor; each EBR is whole
    and signed, points to the next node, and the last one has an all-zero
    next-EBR descriptor. *)
Fixpoint ebr_chain (d : bytes) (ext : Z) (nodes : list (Z * bytes)) : bool :=
  match nodes with
  | [] => false
  | (lba, desc) :: rest =>
      (0 <=? ext + lba) && ((ext + lba) * 512 <=? max_off)
      && match EBR.unpack (ebr_sector_at d ext lba) with
         | Ok ebr =>
             bool_decide (EBR.signature ebr = [x55; xaa])
             && bool_decide (EBR.partition ebr = desc)
             && match rest with
                | [] => bool_decide (EBR.next_ebr ebr = zeros 16)
                | (lba', _) :: _ =>
                    bool_decide (ebr_next d ext lba = Some lba') && ebr_chain d ext rest
                end
         | Raise _ => false
         end
  end.

(** The entry a 16-byte descriptor stands for under the number [num];
    [None] when its type code is 0. *)
Definition slot_entry (partstr : bytes) (num : Z) : option MBRPartition.t :=
  match MBRTable.read_mbr_partition partstr num with
  | Ok o => o
  | Raise _ => None
  end.

(** What the traversal of [nodes] is expected to return and to log. *)
Fixpoint chain_entries (num : Z) (nodes : list (Z * bytes)) : list (option MBRPartition.t) :=
  match nodes with
  | [] => []
  | (_, desc) :: rest => slot_entry desc num :: chain_entries (num + 1) rest
  end.

Definition chain_io (h : handle) (ext : Z) (nodes : list (Z * bytes)) : list io_event :=
  flat_map (fun node => [EvSeek h ((ext + node.1) * 512);
                         EvRead h ((ext + node.1) * 512) 512]) nodes.

Definition chain_start (nodes : list (Z * bytes)) : Z :=
  match nodes with
  | [] => 0
  | (lba, _) :: _ => lba
  end.

(** A descriptor of a logical partition proper: 16 bytes, type code not 0. *)
Definition logical_desc (desc : bytes) : bool :=
  bool_decide (length desc = 16%nat) && negb (unpack_uint (slice 4 1 desc) =? 0).

(** The entries of the primary slots that the loop over [range(1, 4)]
    collects. *)
Definition primary_entries (h : MBRHeader.t) : list MBRPartition.t :=
  omap id [slot_entry (MBRHeader.partition1 h) 1;
           slot_entry (MBRHeader.partition2 h) 2;
           slot_entry (MBRHeader.partition3 h) 3].

Definition is_extended (part : MBRPartition.t) : bool :=
  bool_decide (MBRPartition.type part ∈ MBR_EXTENDED_TYPE).

(** The traversal that is at the EBR at [cur] passes through the EBRs at
    [lbas], in this order, and arrives at the one at [target]: each EBR
    on the way is whole and signed and its next-EBR descriptor, of a
    non-zero type, holds the LBA of the next one. *)
Fixpoint ebr_leads_to (d : bytes) (ext : Z) (lbas : list Z) (cur target : Z) : bool :=
  match lbas with
  | [] => bool_decide (cur = target)
  | l :: rest =>
      bool_decide (cur = l)
      && match ebr_next d ext l with
         | Some nxt => ebr_leads_to d ext rest nxt target
         | None => false
         end
  end.

(** ** The GPT entry array as it lies on the disk *)

(** The slots of an entry array that are in use (type GUID not all zero),
    each with its 1-based position; [i] is the position of the first slot. *)
Fixpoint used_slots (i : Z) (slots : list bytes) : list (Z * bytes) :=
  match slots with
  | [] => []
  | s :: rest =>
      if bool_decide (slice 0 16 s = zeros 16) then used_slots (i + 1) rest
      else (i, s) :: used_slots (i + 1) rest
  end.

(** The entry [part] was decoded from the slot [us.2] found at position
    [us.1] of the array. *)
Definition entry_of_slot (part : GPTPartition.t) (us : Z * bytes) : Prop :=
  GPTPartition.index part = us.1
  /\ GPTPartition.first_lba part = unpack_uint (slice 32 8 us.2)
  /\ GPTPartition.last_lba part = unpack_uint (slice 40 8 us.2)
  /\ GPTPartition.flags part = unpack_uint (slice 48 8 us.2)
  /\ Ok (GPTPartition.guid part) = match uuid_str_upper (slice 0 16 us.2) with
                                   | Ok g => Ok (VStr g)
                                   | Raise e => Raise e
                                   end.

(** A slot the loop can take in: 128 bytes, and a name that decodes when
    the slot is in use. *)
Definition readable_slot (env : interp) (s : bytes) : bool :=
  bool_decide (length s = 128%nat)
  && (bool_decide (slice 0 16 s = zeros 16)
      || match decode_utf16 env (slice 56 72 s) with
         | Ok _ => true
         | Raise _ => false
         end).

(** ** Devices that differ in their reported block size only *)

Definition reblock_file (b : option Z) (f : file) : file :=
  {| f_data := f_data f; f_pos := f_pos f; f_blksz := b; f_bad := f_bad f |}.

(** The same world with every open file answering [b] to the block-size
    ioctl. *)
Definition reblock (b : option Z) (w : world) : world :=
  {| files := reblock_file b <$> files w; stdout := stdout w; io_log := io_log w |}.

(** A computation that does not depend on the reported block size. *)
Definition blind {A} (c : M A) : Prop :=
  forall b w, c (reblock b w) = ((c w).1, reblock b (c w).2).

(** Every I/O event that [c] adds to the log satisfies [P]. *)
Definition logs {A} (P : io_event -> Prop) (c : M A) : Prop :=
  forall w, exists evs, io_log (c w).2 = io_log w ++ evs /\ Forall P evs.

Definition any_event (e : io_event) : Prop := True.

(** An I/O event of the EBR traversal of the extended partition at [ext]
    on the file [h]: a seek on [h] to a 512-byte sector counted from [ext],
    or a read of 512 bytes. *)
Definition ebr_event (h : handle) (ext : Z) (e : io_event) : Prop :=
  match e with
  | EvSeek h' off => h' = h /\ exists lba, off = (ext + lba) * 512
  | EvRead _ _ n => n = 512
  end.

(** The file behind [h] holds the bytes [d] and never fails a read. *)
Definition steady (w : world) (h : handle) (d : bytes) : Prop :=
  exists f, files w !! h = Some f /\ f_data f = d /\ forall p, f_bad f p = false.


(** ** [struct] formats and [make_fmt] *)

(** The format codes the module uses, read under the ["<"] prefix
    (little-endian, standard sizes, no alignment): [Nx] pad bytes, [Ns]
    bytes, [Np] Pascal string, [B], [H], [L], [Q] unsigned integers. *)
Inductive fmt_code : Type :=
| Fx (n : nat)
| Fs (n : nat)
| Fp (n : nat)
| FB
| FH
| FL
| FQ.

Definition code_size (c : fmt_code) : nat :=
  match c with
  | Fx n | Fs n | Fp n => n
  | FB => 1
  | FH => 2
  | FL => 4
  | FQ => 8
  end.

Definition MBR_FORMAT : list (fmt_code * string) :=
  [(Fx 440, "_"); (Fs 4, "drive_signature"); (Fx 2, "_");
   (Fs 16, "partition1"); (Fs 16, "partition2"); (Fs 16, "partition3");
   (Fs 16, "partition4"); (Fs 2, "signature")].

Definition MBR_PARTITION_FORMAT : list (fmt_code * string) :=
  [(FB, "status"); (Fp 3, "chs_first"); (FB, "type"); (Fp 3, "chs_last");
   (FL, "lba"); (FL, "sectors")].

Definition EBR_FORMAT : list (fmt_code * string) :=
  [(Fx 446, "_"); (Fs 16, "partition"); (Fs 16, "next_ebr");
   (Fx 16, "_"); (Fx 16, "_"); (Fs 2, "signature")].

Definition GPT_HEADER_FORMAT : list (fmt_code * string) :=
  [(Fs 8, "signature"); (FH, "revision_minor"); (FH, "revision_major");
   (FL, "header_size"); (FL, "crc32"); (Fx 4, "_"); (FQ, "current_lba");
   (FQ, "backup_lba"); (FQ, "first_usable_lba"); (FQ, "last_usable_lba");
   (Fs 16, "disk_guid"); (FQ, "part_entry_start_lba"); (FL, "num_part_entries");
   (FL, "part_entry_size"); (FL, "crc32_part_array")].

Definition GPT_PARTITION_FORMAT : list (fmt_code * string) :=
  [(Fs 16, "guid"); (Fs 16, "uid"); (FQ, "first_lba"); (FQ, "last_lba");
   (FQ, "flags"); (Fs 72, "name")].

Definition DISKLABEL_HEADER_FORMAT : list (fmt_code * string) :=
  [(Fs 4, "signature1"); (Fs 4, "controller"); (Fs 16, "disklabel");
   (Fs 16, "pack_id"); (FL, "sector_byte"); (Fs 88, "misc"); (Fs 4, "signature2");
   (Fs 2, "checksum"); (FH, "slices_total"); (FL, "boot_size");
   (FL, "superblock_size")].

Definition DISKLABEL_PARTITION_FORMAT : list (fmt_code * string) :=
  [(FL, "sectors_total"); (FL, "first_sector"); (FL, "filesystem_size");
   (FB, "type"); (Fs 1, "fragments"); (Fs 2, "cylinders")].

(** [make_fmt(name, fmt, extras)]: the pack format and the tuple type,
    the latter as its name and its field names. *)
Definition make_fmt (name : string) (fmt : list (fmt_code * string)) (extras : list string)
  : list fmt_code * (string * list string) :=
  (map fst fmt,
   (name, List.filter (fun n => negb (String.eqb n "_")) (map snd fmt) ++ extras)).

(** [struct.calcsize(packfmt)] *)
Definition calcsize (packfmt : list fmt_code) : nat :=
  fold_right (fun c acc => (code_size c + acc)%nat) 0%nat packfmt.

(** The values [struct.unpack] produces from offset [off] on. *)
Fixpoint unpack_at (packfmt : list fmt_code) (off : nat) (data : bytes) : list pyval :=
  match packfmt with
  | [] => []
  | c :: rest =>
      let field := slice off (code_size c) data in
      match c with
      | Fx _ => []
      | Fs _ => [VBytes field]
      | Fp _ => [VBytes (unpack_pascal field)]
      | FB | FH | FL | FQ => [VInt (unpack_uint field)]
      end ++ unpack_at rest (off + code_size c) data
  end.

(** [struct.unpack(packfmt, data)] *)
Definition struct_unpack (packfmt : list fmt_code) (data : bytes) : result (list pyval) :=
  if bool_decide (length data = calcsize packfmt) then Ok (unpack_at packfmt 0 data)
  else Raise (struct_error ("unpack requires a buffer of "
                            +:+ pretty (Z.of_nat (calcsize packfmt)) +:+ " bytes")).

(** [T._make(values)] on the unpacked values: field names paired with
    values, [None] for the TypeError of an arity mismatch. *)
Definition namedtuple_make (fields : list string) (values : list pyval)
  : option (list (string * pyval)) :=
  if bool_decide (length fields = length values) then Some (zip fields values) else None.

(** The unpacked fields of each record, by name. *)
Definition MBRHeader_fields (h : MBRHeader.t) : list (string * pyval) :=
  [("drive_signature", VBytes (MBRHeader.drive_signature h));
   ("partition1", VBytes (MBRHeader.partition1 h));
   ("partition2", VBytes (MBRHeader.partition2 h));
   ("partition3", VBytes (MBRHeader.partition3 h));
   ("partition4", VBytes (MBRHeader.partition4 h));
   ("signature", VBytes (MBRHeader.signature h))].

Definition MBRPartition_fields (p : MBRPartition.t) : list (string * pyval) :=
  [("status", VInt (MBRPartition.status p));
   ("chs_first", VBytes (MBRPartition.chs_first p));
   ("type", VInt (MBRPartition.type p));
   ("chs_last", VBytes (MBRPartition.chs_last p));
   ("lba", VInt (MBRPartition.lba p));
   ("sectors", VInt (MBRPartition.sectors p))].

Definition EBR_fields (e : EBR.t) : list (string * pyval) :=
  [("partition", VBytes (EBR.partition e));
   ("next_ebr", VBytes (EBR.next_ebr e));
   ("signature", VBytes (EBR.signature e))].

Definition GPTHeader_fields (h : GPTHeader.t) : list (string * pyval) :=
  [("signature", VBytes (GPTHeader.signature h));
   ("revision_minor", VInt (GPTHeader.revision_minor h));
   ("revision_major", VInt (GPTHeader.revision_major h));
   ("header_size", VInt (GPTHeader.header_size h));
   ("crc32", VInt (GPTHeader.crc32 h));
   ("current_lba", VInt (GPTHeader.current_lba h));
   ("backup_lba", VInt (GPTHeader.backup_lba h));
   ("first_usable_lba", VInt (GPTHeader.first_usable_lba h));
   ("last_usable_lba", VInt (GPTHeader.last_usable_lba h));
   ("disk_guid", GPTHeader.disk_guid h);
   ("part_entry_start_lba", VInt (GPTHeader.part_entry_start_lba h));
   ("num_part_entries", VInt (GPTHeader.num_part_entries h));
   ("part_entry_size", VInt (GPTHeader.part_entry_size h));
   ("crc32_part_array", VInt (GPTHeader.crc32_part_array h))].

Definition GPTPartition_fields (p : GPTPartition.t) : list (string * pyval) :=
  [("guid", GPTPartition.guid p);
   ("uid", GPTPartition.uid p);
   ("first_lba", VInt (GPTPartition.first_lba p));
   ("last_lba", VInt (GPTPartition.last_lba p));
   ("flags", VInt (GPTPartition.flags p));
   ("name", GPTPartition.name p)].

Definition DisklabelHeader_fields (h : DisklabelHeader.t) : list (string * pyval) :=
  [("signature1", VBytes (DisklabelHeader.signature1 h));
   ("controller", VBytes (DisklabelHeader.controller h));
   ("disklabel", VBytes (DisklabelHeader.disklabel h));
   ("pack_id", VBytes (DisklabelHeader.pack_id h));
   ("sector_byte", VInt (DisklabelHeader.sector_byte h));
   ("misc", VBytes (DisklabelHeader.misc h));
   ("signature2", VBytes (DisklabelHeader.signature2 h));
   ("checksum", VBytes (DisklabelHeader.checksum h));
   ("slices_total", VInt (DisklabelHeader.slices_total h));
   ("boot_size", VInt (DisklabelHeader.boot_size h));
   ("superblock_size", VInt (DisklabelHeader.superblock_size h))].

Definition DisklabelPartition_fields (p : DisklabelPartition.t) : list (string * pyval) :=
  [("sectors_total", VInt (DisklabelPartition.sectors_total p));
   ("first_sector", VInt (DisklabelPartition.first_sector p));
   ("filesystem_size", VInt (DisklabelPartition.filesystem_size p));
   ("type", VInt (DisklabelPartition.type p));
   ("fragments", VBytes (DisklabelPartition.fragments p));
   ("cylinders", VBytes (DisklabelPartition.cylinders p))].

(** A record decoder [dec] does what [struct.unpack] and [_make] do with
    the format table [fmt]: the same error on a buffer of the wrong length,
    and otherwise a record whose unpacked fields are the values that
    [struct.unpack] yields, under the names that [make_fmt] derives. *)
Definition decodes_as {R : Type} (fmt : list (fmt_code * string)) (name : string)
    (dec : bytes -> result R) (fields : R -> list (string * pyval)) : Prop :=
  forall data,
    match struct_unpack (make_fmt name fmt []).1 data with
    | Ok values =>
        exists r, dec data = Ok r
                  /\ namedtuple_make (make_fmt name fmt []).2.2 values = Some (fields r)
    | Raise e => dec data = Raise e
    end.

(** ** More sample images *)

Module Sample.
(** An MBR whose first slot is a Linux partition and whose second slot is
    empty; the boot signature is missing in [unsigned]. *)
Definition plain : bytes :=
  Image.mbr_sector (Image.slot 0x80 0x83 2048 1000) Image.empty_slot
    (Image.slot 0 0x2a 4096 10) Image.empty_slot Image.boot_sig.
Definition unsigned : bytes :=
  Image.mbr_sector (Image.slot 0x80 0x83 2048 1000) Image.empty_slot
    Image.empty_slot Image.empty_slot [x00; x00].

(** A file that stops in the middle of sector 0. *)
Definition stub : bytes := zeros 100.


(** An EBR whose next-EBR descriptor has an LBA but a type code of 0. *)
Definition untyped_next : bytes :=
  Image.mbr_sector (Image.slot 0 0x05 1 100) Image.empty_slot Image.empty_slot
    Image.empty_slot Image.boot_sig
    ++ Image.ebr_sector (Image.slot 0 0x83 1 1) (Image.slot 0 0x00 7 2) Image.boot_sig.
Definition gpt_narrow_entries : bytes :=
  Image.gpt_disk (Image.gpt_header (b_ "EFI PART") 0 1 92 2 1 64) [Image.efi_entry].

(** A signed MBR and nothing after it. *)
Definition mbr_only : bytes :=
  Image.mbr_sector (Image.slot 0x80 0x83 2048 1000) Image.empty_slot
    Image.empty_slot Image.empty_slot Image.boot_sig.
(** A disklabel one block into the image, with the given slots. *)
Definition disklabel_header (n : Z) : bytes :=
  [x57; x45; x56; x82] ++ zeros 4 ++ zeros 16 ++ zeros 16 ++ Image.pack_uint 4 512
    ++ zeros 88 ++ [x57; x45; x56; x82] ++ zeros 2 ++ Image.pack_uint 2 n
    ++ Image.pack_uint 4 0 ++ Image.pack_uint 4 0.
Definition disklabel_part (sectors first type : Z) : bytes :=
  Image.pack_uint 4 sectors ++ Image.pack_uint 4 first ++ Image.pack_uint 4 0 ++ Image.pack_uint 1 type
    ++ zeros 1 ++ zeros 2.
Definition disklabel : bytes :=
  Image.blank_sector ++ disklabel_header 3
    ++ disklabel_part 1000 16 0x07 ++ disklabel_part 0 0 0 ++ disklabel_part 500 1016 0x99.

(** Twenty-seven slots, of which only the last is in use. *)
Definition disklabel_27 : bytes :=
  Image.blank_sector ++ disklabel_header 27
    ++ concat (replicate 26 (disklabel_part 0 0 0)) ++ disklabel_part 500 1016 0x07.

(** The same descriptor in the second EBR of a chain. *)
Definition untyped_second : bytes :=
  Image.mbr_sector (Image.slot 0 0x05 1 100) Image.empty_slot Image.empty_slot
    Image.empty_slot Image.boot_sig
    ++ Image.ebr_sector (Image.slot 0 0x83 1 1) (Image.slot 0 0x05 1 2) Image.boot_sig
    ++ Image.ebr_sector (Image.slot 0 0x83 1 1) (Image.slot 0 0x00 7 2) Image.boot_sig.
End Sample.


(** ** The disklabel slot table as it lies on the disk *)

(** The 16 bytes of slot [num], right after the 148-byte header that
    starts one block into the device. *)
Definition disklabel_slot (d : bytes) (lba_size num : Z) : bytes :=
  slice (Z.to_nat (lba_size + 0x94 + num * 0x10)) 16 d.

(** The entry a slot stands for under the number [num]; nothing when its
    type code is 0. *)
Definition disklabel_entry (partstr : bytes) (num : Z) : option DisklabelPartition.t :=
  match DisklabelPartition.unpack partstr num "Unknown" with
  | Ok part =>
      if DisklabelPartition.type part =? 0 then None
      else
        match DISKLABEL_PARTITION_TYPE !! DisklabelPartition.type part with
        | Some ptype => Some (DisklabelPartition.replace_type_str ptype part)
        | None => Some part
        end
  | Raise _ => None
  end.

(** ** Computations that print nothing *)

Definition quiet {A} (c : M A) : Prop :=
  forall w, stdout (c w).2 = stdout w.


(** ** Computations that leave the medium alone *)

(** [f'] is [f] with its cursor moved, at most. *)
Definition same_medium (f f' : file) : Prop :=
  f_data f' = f_data f /\ f_blksz f' = f_blksz f /\ f_bad f' = f_bad f.

(** Every file that is open before [c] is open after it, with the same
    content, block size and bad sectors. *)
Definition keeps {A} (c : M A) : Prop :=
  forall w h f, files w !! h = Some f ->
    exists f', files (c w).2 !! h = Some f' /\ same_medium f f'.


(** ** The [__main__] block

    The block runs after [argparse] has produced the list [drives].  The
    paths are looked up in a file system [fs]: a path names nothing, a
    directory, or a file that [open] either fails on with IOError or
    yields.  The process ends with an exit status or with an uncaught
    exception. *)

Inductive fs_entry : Type :=
| FsDir
| FsFile (content : option file).

Inductive exit_status : Type :=
| Exited (code : Z)
| Crashed (e : exn).

(** [os.path.basename]: what follows the last slash. *)
Fixpoint basename_from (seg p : string) : string :=
  match p with
  | EmptyString => seg
  | String c rest =>
      if Ascii.eqb c "/"%char then basename_from EmptyString rest
      else basename_from (seg +:+ String c EmptyString) rest
  end.
Definition basename (p : string) : string := basename_from EmptyString p.

(** [open(path, "rb")] on a file that can be opened: a handle no open file
    has, with the cursor at 0. *)
Definition open_rb (f : file) : M handle :=
  fun w =>
    let h := fresh (dom (files w)) in
    (Ok h, set_file h (set_pos 0 f) w).

(** The assignment [fp = open(...)] at module level binds the global
    name [fp]. *)
Definition bind_global_fp (h : handle) (env : interp) : interp :=
  {| py3 := py3 env; global_fp := Some h; recursion_limit := recursion_limit env;
     little_endian_host := little_endian_host env |}.

(** The [for] loop over [args.drives], followed by [exit(0)]. *)
Fixpoint main_loop (env : interp) (fs : gmap string fs_entry) (drives : list string)
  : world -> exit_status * world :=
  fun w =>
    match drives with
    | [] => (Exited 0, w)
    | drive_path :: rest =>
        match fs !! drive_path with
        | None | Some FsDir =>
            (Exited (-1), (print ("Error, can't find image file " +:+ drive_path) w).2)
        | Some (FsFile None) =>
            main_loop env fs rest (print ("Error, can't open image " +:+ drive_path) w).2
        | Some (FsFile (Some f)) =>
            match open_rb f w with
            | (Raise e, w1) => (Crashed e, w1)
            | (Ok h, w1) =>
                let env1 := bind_global_fp h env in
                match (let* _ := print ("##### IMAGE " +:+ basename drive_path +:+ " #####") in
                       get_info env1 h (basename drive_path)) w1 with
                | (Ok _, w2) => main_loop env1 fs rest w2
                | (Raise e, w2) => (Crashed e, w2)
                end
            end
        end
    end.

(** [nargs="+"]: without a drive, [parse_args] ends the process with
    status 2 before the loop is reached. *)
Definition main (env : interp) (fs : gmap string fs_entry) (drives : list string)
  : world -> exit_status * world :=
  fun w =>
    match drives with
    | [] => (Exited 2, w)
    | _ => main_loop env fs drives w
    end.

(** * Properties *)

(** ** The monad and the file primitives *)

Lemma bind_Ok {A B} (c : M A) (k : A -> M B) w a w' :
  c w = (Ok a, w') -> bind c k w = k a w'.
Proof. intros H. unfold bind. now rewrite H. Qed.

Lemma bind_Raise {A B} (c : M A) (k : A -> M B) w e w' :
  c w = (Raise e, w') -> bind c k w = (Raise e, w').
Proof. intros H. unfold bind. now rewrite H. Qed.

Lemma bind_inv_Ok {A B} (c : M A) (k : A -> M B) w b w' :
  bind c k w = (Ok b, w') ->
  exists a w1, c w = (Ok a, w1) /\ k a w1 = (Ok b, w').
Proof.
  unfold bind. destruct (c w) as [[a|e] w1]; intros H.
  - eauto.
  - discriminate.
Qed.

Lemma bind_inv_Raise {A B} (c : M A) (k : A -> M B) w e w' :
  bind c k w = (Raise e, w') ->
  c w = (Raise e, w') \/ exists a w1, c w = (Ok a, w1) /\ k a w1 = (Raise e, w').
Proof.
  unfold bind. destruct (c w) as [[a|e0] w1]; intros H.
  - right. eauto.
  - left. injection H as -> ->. reflexivity.
Qed.

Lemma set_pos_set_pos p q f : set_pos p (set_pos q f) = set_pos p f.
Proof. reflexivity. Qed.

Lemma fp_seek_Ok h off w f :
  files w !! h = Some f -> 0 <= off <= max_off ->
  fp_seek h off w = (Ok tt, log_io (EvSeek h off) (set_file h (set_pos off f) w)).
Proof.
  intros Hf [H0 H1]. unfold fp_seek. rewrite Hf.
  destruct (off <? 0) eqn:E0; [apply Z.ltb_lt in E0; lia|].
  destruct (max_off <? off) eqn:E1; [apply Z.ltb_lt in E1; lia|].
  reflexivity.
Qed.

Lemma fp_seek_in_Ok env h off w f :
  files w !! h = Some f -> 0 <= off <= max_off ->
  fp_seek_in env h off w = (Ok tt, log_io (EvSeek h off) (set_file h (set_pos off f) w)).
Proof. intros Hf Hoff. unfold fp_seek_in. now rewrite (fp_seek_Ok _ _ _ _ Hf Hoff). Qed.

Lemma fp_seek_in_world env h off w : (fp_seek_in env h off w).2 = (fp_seek h off w).2.
Proof.
  unfold fp_seek_in. destruct (fp_seek h off w) as [[u|e] w']; [reflexivity|].
  destruct e; reflexivity.
Qed.

Lemma fp_read_Ok h n w f :
  files w !! h = Some f -> f_bad f (f_pos f) = false ->
  fp_read h n w =
    (Ok (slice (Z.to_nat (f_pos f)) (Z.to_nat n) (f_data f)),
     log_io (EvRead h (f_pos f) n)
       (set_file h (set_pos (f_pos f + Z.of_nat (length (slice (Z.to_nat (f_pos f)) (Z.to_nat n) (f_data f)))) f) w)).
Proof. intros Hf Hb. unfold fp_read. now rewrite Hf, Hb. Qed.

Lemma files_log_io e w : files (log_io e w) = files w.
Proof. reflexivity. Qed.

Lemma files_set_file_eq h f w : files (set_file h f w) !! h = Some f.
Proof. unfold set_file; simpl. apply lookup_insert_eq. Qed.

Lemma files_set_file_ne h h' f w : h <> h' -> files (set_file h f w) !! h' = files w !! h'.
Proof. intros Hne. unfold set_file; simpl. now apply lookup_insert_ne. Qed.

(** ** GPT header validation *)

Lemma Qltb_lt a b : Qltb a b = true <-> (a < b)%Q.
Proof. unfold Qltb, Qlt. apply Z.ltb_lt. Qed.

Lemma unpack_GPTHeader_inv data h :
  GPTHeader.unpack data = Ok h ->
  length data = 92%nat /\ GPTHeader.disk_guid h = VBytes (slice 56 16 data).
Proof.
  unfold GPTHeader.unpack. case_bool_decide as Hlen; [|discriminate].
  intros [= <-]. split; [exact Hlen | reflexivity].
Qed.

Lemma length_slice_le off len (bs : bytes) :
  (off + len <= length bs)%nat -> length (slice off len bs) = len.
Proof. intros H. unfold slice. rewrite length_take, length_drop. lia. Qed.

Lemma uuid_str_upper_Ok b : length b = 16%nat -> is_Ok (uuid_str_upper b).
Proof.
  intros H. unfold uuid_str_upper, uuid_of_bytes_le.
  rewrite bool_decide_eq_true_2 by exact H. exact I.
Qed.

(** What [read_gpt_header] does once the seek and the 92-byte read have
    gone through: the three checks in their order. *)
Lemma read_gpt_header_checks self lba_size w f h :
  files w !! GPTTable.fp self = Some f ->
  0 <= lba_size <= max_off ->
  f_bad f lba_size = false ->
  GPTHeader.unpack (slice (Z.to_nat lba_size) 92 (f_data f)) = Ok h ->
  exists g,
    uuid_str_upper (as_bytes (GPTHeader.disk_guid h)) = Ok g /\
    fst (GPTTable.read_gpt_header self lba_size w) =
      if bool_decide (GPTHeader.signature h <> b_ "EFI PART")
      then Raise (GPTMissing "Bad GPT signature")
      else if Qltb (GPTTable.revision h) (inject_Z 1)
      then Raise (GPTError ("Bad GPT revision: " +:+ pretty (GPTHeader.revision_major h)
                            +:+ "." +:+ pretty (GPTHeader.revision_minor h)))
      else if GPTHeader.header_size h <? 92
      then Raise (GPTError ("Bad GPT header size: " +:+ pretty (GPTHeader.header_size h)))
      else Ok (GPTHeader.replace_disk_guid (VStr g) h).
Proof.
  intros Hf Hoff Hbad Hun.
  destruct (unpack_GPTHeader_inv _ _ Hun) as [Hlen Hguid].
  assert (Hg : is_Ok (uuid_str_upper (as_bytes (GPTHeader.disk_guid h)))).
  { rewrite Hguid. apply uuid_str_upper_Ok. apply length_slice_le. lia. }
  destruct (uuid_str_upper (as_bytes (GPTHeader.disk_guid h))) as [g|] eqn:Eg; [|destruct Hg].
  exists g. split; [reflexivity|].
  unfold GPTTable.read_gpt_header.
  rewrite Z.mul_1_l.
  rewrite (fp_seek_Ok _ _ _ _ Hf Hoff).
  erewrite bind_Ok; cycle 1.
  { apply fp_read_Ok; [rewrite files_log_io; apply files_set_file_eq | exact Hbad]. }
  cbn [f_pos set_pos f_data].
  change (Z.to_nat 92) with 92%nat.
  unfold lift at 1. unfold bind at 1. rewrite Hun.
  case_bool_decide; [reflexivity|].
  destruct (Qltb _ _); [reflexivity|].
  destruct (_ <? 92); [reflexivity|].
  unfold bind, lift. rewrite Eg. reflexivity.
Qed.

Lemma unpack_uint_nonneg bs : 0 <= unpack_uint bs.
Proof.
  induction bs as [|b bs IH]; simpl; [lia|].
  unfold byte_val. lia.
Qed.

(** On unsigned fields, [major + minor / 10 < 1.0] says that the major
    number is 0 and the minor number is a single digit. *)
Lemma revision_lt_1 h :
  0 <= GPTHeader.revision_major h -> 0 <= GPTHeader.revision_minor h ->
  (GPTTable.revision h < inject_Z 1)%Q <->
  GPTHeader.revision_major h = 0 /\ GPTHeader.revision_minor h < 10.
Proof.
  intros Hmaj Hmin. unfold GPTTable.revision.
  set (a := GPTHeader.revision_major h) in *.
  set (b := GPTHeader.revision_minor h) in *.
  unfold Qlt, Qplus, Qdiv, Qmult, Qinv, inject_Z. simpl.
  rewrite !Z.mul_1_r. split; intros H; [split|]; nia.
Qed.

(** C6, as amended: for every GPT header whose signature is "EFI PART" and
    whose header_size is at least 92, header decoding fails with a GPTError
    (a corrupt table, never GPTMissing) exactly when
    revision_major + revision_minor/10 is below 1.0, and a header of
    revision 1.0 (major 1, minor 0) is accepted. *)
Theorem C6_revision_gate self lba_size w f h :
  files w !! GPTTable.fp self = Some f ->
  0 <= lba_size <= max_off ->
  f_bad f lba_size = false ->
  GPTHeader.unpack (slice (Z.to_nat lba_size) 92 (f_data f)) = Ok h ->
  GPTHeader.signature h = b_ "EFI PART" ->
  92 <= GPTHeader.header_size h ->
  let r := fst (GPTTable.read_gpt_header self lba_size w) in
  ((exists msg, r = Raise (GPTError msg)) <-> (GPTTable.revision h < inject_Z 1)%Q)
  /\ (forall msg, r <> Raise (GPTMissing msg))
  /\ (GPTHeader.revision_major h = 1 -> GPTHeader.revision_minor h = 0 ->
      exists h', r = Ok h').
Proof.
  intros Hf Hoff Hbad Hun Hsig Hsize r.
  destruct (read_gpt_header_checks self lba_size w f h Hf Hoff Hbad Hun) as (g & _ & Hr).
  fold r in Hr.
  rewrite bool_decide_eq_false_2 in Hr by (intros Hne; now apply Hne).
  assert (Hsz : (GPTHeader.header_size h <? 92) = false) by (apply Z.ltb_ge; lia).
  rewrite Hsz in Hr.
  destruct (Qltb (GPTTable.revision h) (inject_Z 1)) eqn:Erev.
  - apply Qltb_lt in Erev. repeat split.
    + intros _. exact Erev.
    + intros _. rewrite Hr. eauto.
    + intros msg. rewrite Hr. discriminate.
    + intros Hmaj Hmin. exfalso. revert Erev.
      unfold GPTTable.revision. rewrite Hmaj, Hmin. intros Hlt%Qltb_lt.
      vm_compute in Hlt. discriminate.
  - assert (Hnlt : ~ (GPTTable.revision h < inject_Z 1)%Q).
    { intros Hlt%Qltb_lt. congruence. }
    repeat split.
    + intros [msg Hmsg]. rewrite Hr in Hmsg. discriminate.
    + intros Hlt. contradiction.
    + intros msg. rewrite Hr. discriminate.
    + intros _ _. rewrite Hr. eauto.
Qed.

Lemma C6_revision_gate_witness :
  exists h',
    fst (GPTTable.read_gpt_header (GPTTable.mk "disk.img" 0%nat None None) 512
           (Image.disk 0%nat Image.gpt_efi)) = Ok h'.
Proof.
  refine (proj2 (proj2 (C6_revision_gate (GPTTable.mk "disk.img" 0%nat None None) 512
            (Image.disk 0%nat Image.gpt_efi) (Image.regular Image.gpt_efi) _
            _ _ _ _ _ _)) _ _).
  - reflexivity.
  - vm_compute. split; discriminate.
  - reflexivity.
  - vm_compute. reflexivity.
  - vm_compute. reflexivity.
  - vm_compute. discriminate.
  - reflexivity.
  - reflexivity.
Defined.

(** C6, the claim as stated fails: a header with the right signature and
    revision exactly 1.0 is rejected with a GPTError when its header_size
    is 91, so rejection as corrupt does not coincide with revision < 1.0. *)
Lemma C6_revision_1_0_rejected :
  exists h,
    GPTHeader.unpack (slice 512 92 Image.gpt_short_header) = Ok h /\
    GPTHeader.signature h = b_ "EFI PART" /\
    GPTHeader.revision_major h = 1 /\ GPTHeader.revision_minor h = 0 /\
    ~ (GPTTable.revision h < inject_Z 1)%Q /\
    fst (GPTTable.read_gpt_header (GPTTable.mk "disk.img" 0%nat None None) 512
           (Image.disk 0%nat Image.gpt_short_header))
    = Raise (GPTError "Bad GPT header size: 91").
Proof.
  eexists. split; [vm_compute; reflexivity|].
  repeat split; try (vm_compute; reflexivity).
  intros Hlt%Qltb_lt. vm_compute in Hlt. discriminate.
Qed.


(** ** Evaluations on the test images *)

(** C3, the defect: [range(1, 4)] visits slots 1, 2, 3 only.  On an image
    with a valid boot signature whose fourth slot alone is in use (type
    0x83, status 0x80) the decode succeeds with no entry at all, although
    the header holds the slot and the slot decodes to an active entry of
    index 4. *)
Theorem C3_fourth_slot_never_decoded :
  let out := MBRTable.init (Image.script 0%nat) 0%nat "disk.img"
               (Image.disk 0%nat Image.fourth_slot_only) in
  out.1.2 = Ok tt
  /\ option_map MBRInfo.partitions (MBRTable.info out.1.1) = Some []
  /\ option_map (fun i => MBRHeader.partition4 (MBRInfo.header i)) (MBRTable.info out.1.1)
      = Some Image.fourth_slot
  /\ exists p, MBRTable.read_mbr_partition Image.fourth_slot 4 = Ok (Some p)
       /\ MBRPartition.type p = 0x83 /\ MBRPartition.index p = 4
       /\ MBRPartition.active p = true.
Proof.
  vm_compute. repeat split. eexists. repeat split.
Qed.

(** C4, the defect: [read_ebr_partition] seeks on [self.fp] but reads from
    the global name [fp].  With the module imported (no such global) an MBR
    with a valid extended partition ends in a NameError; with the global
    bound to another open file the EBR sectors are taken from that file:
    two worlds that agree on the parser's own stream decode differently,
    and the own stream is only ever read once, for the MBR sector. *)
Theorem C4_ebr_read_through_global_fp :
  (MBRTable.init Image.imported 0%nat "disk.img" (Image.disk 0%nat Image.chain3)).1.2
    = Raise (NameError "name 'fp' is not defined")
  /\ let env := Image.foreign_fp 1%nat in
     let w1 := Image.two_disks 0%nat Image.extended_no_ebr 1%nat Image.blank_disk in
     let w2 := Image.two_disks 0%nat Image.extended_no_ebr 1%nat Image.stray_ebrs in
     let out1 := MBRTable.init env 0%nat "disk.img" w1 in
     let out2 := MBRTable.init env 0%nat "disk.img" w2 in
     files w1 !! 0%nat = files w2 !! 0%nat
     /\ MBRTable.info out1.1.1 = None
     /\ option_map (fun i => map (option_map MBRPartition.index) (MBRInfo.partitions i))
          (MBRTable.info out2.1.1) = Some [Some 1; Some 5; Some 6]
     /\ io_log out2.2 =
          [EvSeek 0%nat 0; EvRead 0%nat 0 512;
           EvSeek 0%nat 512; EvRead 1%nat 0 512;
           EvSeek 0%nat 1536; EvRead 1%nat 512 512].
Proof.
  vm_compute. repeat split.
Qed.

(** C5, the defect: on Python 3 [split_literal] is the digit ["0"], not the
    NUL character.  The name field holding "EFI System" in UTF-16LE and 52
    zero bytes decodes to "EFI System" followed by 26 NUL characters; the
    Python 2 branch of the same module yields "EFI System". *)
Theorem C5_name_keeps_trailing_nulls :
  let names env :=
    option_map (fun i => map GPTPartition.name (GPTInfo.partitions i))
      (GPTTable.info (GPTTable.init env 0%nat "disk.img"
                        (Image.disk 0%nat Image.gpt_efi)).1.1) in
  names (Image.script 0%nat) = Some [VText (text "EFI System" ++ replicate 26 0)]
  /\ names (Image.script 0%nat) <> Some [VText (text "EFI System")]
  /\ names (Image.script_py2 0%nat) = Some [VText (text "EFI System")].
Proof.
  vm_compute. repeat split. discriminate.
Qed.


(** ** One step of the EBR traversal *)

Lemma steady_seek w h d off :
  steady w h d -> 0 <= off <= max_off ->
  exists f, files w !! h = Some f /\ f_data f = d /\ (forall p, f_bad f p = false)
    /\ fp_seek h off w = (Ok tt, log_io (EvSeek h off) (set_file h (set_pos off f) w)).
Proof.
  intros (f & Hf & Hd & Hb) Hoff. exists f. repeat split; try assumption.
  now apply fp_seek_Ok.
Qed.

(** The seek on [self.fp] followed by the read through the global [fp],
    when the two are the same steady file. *)
Lemma ebr_fetch env self w d ext lba :
  global_fp env = Some (MBRTable.fp self) ->
  steady w (MBRTable.fp self) d ->
  0 <= (ext + lba) * 512 <= max_off ->
  exists w',
    steady w' (MBRTable.fp self) d
    /\ stdout w' = stdout w
    /\ io_log w' = io_log w ++ [EvSeek (MBRTable.fp self) ((ext + lba) * 512);
                                EvRead (MBRTable.fp self) ((ext + lba) * 512) 512]
    /\ forall B (k : bytes -> M B),
         (let* _ := fp_seek (MBRTable.fp self) ((ext + lba) * 512) in
          let* gfp := load_global_fp env in
          let* data := fp_read gfp 512 in
          k data) w
         = k (ebr_sector_at d ext lba) w'.
Proof.
  intros Hg Hst Hoff.
  destruct (steady_seek _ _ _ _ Hst Hoff) as (f & Hf & Hd & Hb & Hseek).
  set (h := MBRTable.fp self) in *.
  set (off := (ext + lba) * 512) in *.
  set (w1 := log_io (EvSeek h off) (set_file h (set_pos off f) w)) in *.
  assert (Hf1 : files w1 !! h = Some (set_pos off f)).
  { unfold w1. rewrite files_log_io. apply files_set_file_eq. }
  pose proof (fp_read_Ok h 512 w1 _ Hf1 (Hb _)) as Hread.
  cbn [f_pos f_data set_pos] in Hread. rewrite set_pos_set_pos in Hread.
  eexists. split; [|split; [|split]].
  4: { intros B k. rewrite (bind_Ok _ _ _ _ _ Hseek).
       unfold load_global_fp. rewrite Hg.
       rewrite (bind_Ok (ret h) _ w1 h w1 eq_refl).
       rewrite (bind_Ok _ _ _ _ _ Hread).
       unfold ebr_sector_at. rewrite Hd. fold off. reflexivity. }
  - eexists. split; [rewrite files_log_io; apply files_set_file_eq|].
    split; [exact Hd | exact Hb].
  - reflexivity.
  - unfold w1. cbn [io_log log_io set_file]. rewrite <- app_assoc. reflexivity.
Qed.

Lemma read_mbr_partition_16 partstr num :
  length partstr = 16%nat -> is_Ok (MBRTable.read_mbr_partition partstr num).
Proof.
  intros H. unfold MBRTable.read_mbr_partition, MBRPartition.unpack.
  rewrite bool_decide_eq_true_2 by exact H.
  destruct (_ =? 0); exact I.
Qed.

Lemma unpack_EBR_inv data ebr :
  EBR.unpack data = Ok ebr ->
  length (EBR.partition ebr) = 16%nat /\ length (EBR.next_ebr ebr) = 16%nat.
Proof.
  unfold EBR.unpack. case_bool_decide as Hlen; [|discriminate].
  intros [= <-]. cbn [EBR.partition EBR.next_ebr].
  split; apply length_slice_le; lia.
Qed.

(** ** EBR cycles *)

Lemma cyclic_chain_step d ext visited l :
  cyclic_chain d ext visited = true -> l ∈ visited ->
  0 <= (ext + l) * 512 <= max_off
  /\ exists ebr p,
       EBR.unpack (ebr_sector_at d ext l) = Ok ebr
       /\ EBR.signature ebr = [x55; xaa]
       /\ EBR.next_ebr ebr <> zeros 16
       /\ MBRTable.read_mbr_partition (EBR.next_ebr ebr) 0 = Ok (Some p)
       /\ MBRPartition.lba p ∈ visited.
Proof.
  unfold cyclic_chain. rewrite forallb_forall. intros Hall Hin.
  specialize (Hall l (proj1 (list_elem_of_In _ _) Hin)).
  apply andb_prop in Hall as [Hrange Hnext].
  apply andb_prop in Hrange as [H0 H1].
  apply Z.leb_le in H0, H1. split; [lia|].
  unfold ebr_next in Hnext.
  destruct (EBR.unpack (ebr_sector_at d ext l)) as [ebr|] eqn:Eu; [|discriminate].
  destruct (bool_decide (EBR.signature ebr = [x55; xaa])) eqn:Es; [|discriminate].
  destruct (bool_decide (EBR.next_ebr ebr <> zeros 16)) eqn:En; [|discriminate].
  cbn [andb] in Hnext.
  destruct (MBRTable.read_mbr_partition (EBR.next_ebr ebr) 0) as [[p|]|] eqn:Ep;
    try discriminate.
  apply bool_decide_eq_true_1 in Es, En, Hnext.
  exists ebr, p. auto.
Qed.

(** The traversal has no cycle detection.  When the EBR reads reach the
    parser's own file and the chain runs into a cycle (every visited EBR
    is well-formed and points back into the visited set),
    [read_ebr_partition] never returns and never raises an MBRError:
    whatever the recursion limit, it ends with the interpreter's
    recursion error. *)
Lemma read_ebr_partition_cycle env self d ext visited :
  global_fp env = Some (MBRTable.fp self) ->
  cyclic_chain d ext visited = true ->
  forall depth lba num w,
    steady w (MBRTable.fp self) d ->
    lba ∈ visited ->
    (MBRTable.read_ebr_partition env depth self ext lba num w).1
    = Raise (recursion_error env).
Proof.
  intros Hg Hcyc. induction depth as [|depth IH]; intros lba num w Hst Hin.
  - reflexivity.
  - destruct (cyclic_chain_step _ _ _ _ Hcyc Hin)
      as (Hoff & ebr & p & Hun & Hsig & Hnz & Hp & Hin').
    destruct (ebr_fetch env self w d ext lba Hg Hst Hoff) as (w' & Hst' & _ & _ & Hk).
    cbn [MBRTable.read_ebr_partition]. rewrite Hk.
    unfold lift at 1. unfold bind at 1. rewrite Hun.
    rewrite bool_decide_eq_false_2 by (intros Hne; now apply Hne).
    destruct (unpack_EBR_inv _ _ Hun) as [Hl1 _].
    pose proof (read_mbr_partition_16 (EBR.partition ebr) num Hl1) as Hok.
    destruct (MBRTable.read_mbr_partition (EBR.partition ebr) num) as [part|] eqn:Epart;
      [|destruct Hok].
    unfold lift at 1. unfold bind at 1.
    rewrite bool_decide_eq_true_2 by exact Hnz.
    unfold lift at 1. unfold bind at 1. rewrite Hp.
    specialize (IH (MBRPartition.lba p) (num + 1) w' Hst' Hin').
    unfold bind.
    destruct (MBRTable.read_ebr_partition env depth self ext (MBRPartition.lba p) (num + 1) w')
      as [[more|e] w''].
    + discriminate.
    + cbn [fst] in IH |- *. exact IH.
Qed.

(** Whatever the disk, the interpreter and the binding of [fp], the only
    MBRError the traversal can raise is the signature one. *)
Lemma fp_seek_Raise h off w e w' :
  fp_seek h off w = (Raise e, w') -> isinstance_MBRError e = false.
Proof.
  unfold fp_seek. destruct (files w !! h); [|intros [= <- _]; reflexivity].
  destruct (off <? 0); [intros [= <- _]; reflexivity|].
  destruct (max_off <? off); [intros [= <- _]; reflexivity|discriminate].
Qed.

Lemma fp_read_Raise h n w e w' :
  fp_read h n w = (Raise e, w') -> isinstance_MBRError e = false.
Proof.
  unfold fp_read. destruct (files w !! h) as [f|]; [|intros [= <- _]; reflexivity].
  destruct (f_bad f (f_pos f)); [intros [= <- _]; reflexivity|discriminate].
Qed.

Lemma load_global_fp_Raise env w e w' :
  load_global_fp env w = (Raise e, w') -> isinstance_MBRError e = false.
Proof.
  unfold load_global_fp. destruct (global_fp env); [discriminate|].
  intros [= <- _]. reflexivity.
Qed.

Lemma unpack_EBR_Raise data e :
  EBR.unpack data = Raise e -> isinstance_MBRError e = false.
Proof.
  unfold EBR.unpack. case_bool_decide; [discriminate|]. intros [= <-]. reflexivity.
Qed.

Lemma read_mbr_partition_Raise partstr num e :
  MBRTable.read_mbr_partition partstr num = Raise e -> isinstance_MBRError e = false.
Proof.
  unfold MBRTable.read_mbr_partition, MBRPartition.unpack.
  case_bool_decide.
  - destruct (_ =? 0); discriminate.
  - intros [= <-]. reflexivity.
Qed.

Lemma read_ebr_partition_MBRError env depth self ext :
  forall lba num w e w',
    MBRTable.read_ebr_partition env depth self ext lba num w = (Raise e, w') ->
    isinstance_MBRError e = true -> e = MBRError "Bad EBR signature".
Proof.
  induction depth as [|depth IH]; intros lba num w e w' H He.
  - injection H as <- _. unfold recursion_error in He. destruct (py3 env); discriminate.
  - cbn [MBRTable.read_ebr_partition] in H.
    apply bind_inv_Raise in H as [H | (_ & w1 & _ & H)].
    { apply fp_seek_Raise in H. congruence. }
    apply bind_inv_Raise in H as [H | (gfp & w2 & _ & H)].
    { apply load_global_fp_Raise in H. congruence. }
    apply bind_inv_Raise in H as [H | (data & w3 & _ & H)].
    { apply fp_read_Raise in H. congruence. }
    apply bind_inv_Raise in H as [H | (ebr & w4 & _ & H)].
    { injection H as H _. apply unpack_EBR_Raise in H. congruence. }
    case_bool_decide.
    { injection H as <- _. reflexivity. }
    apply bind_inv_Raise in H as [H | (part & w5 & _ & H)].
    { injection H as H _. apply read_mbr_partition_Raise in H. congruence. }
    case_bool_decide; [|discriminate].
    apply bind_inv_Raise in H as [H | (pn & w6 & _ & H)].
    { injection H as H _. apply read_mbr_partition_Raise in H. congruence. }
    destruct pn as [p|].
    + apply bind_inv_Raise in H as [H | (more & w7 & _ & H)].
      * eapply IH; eassumption.
      * discriminate.
    + injection H as <- _. discriminate.
Qed.

(** C1, the claim as stated fails: on the three-node chain whose third EBR
    points back to the first, the problem is not reported as
    MBRError("EBR cycle detected"); the [try] block ends with a
    RecursionError, which [__init__] does not catch. *)
Lemma C1_cycle_not_reported :
  let self := MBRTable.mk "disk.img" 0%nat None None in
  let w := Image.disk 0%nat Image.cycle3 in
  cyclic_chain Image.cycle3 1 [0; 1; 2] = true
  /\ (MBRTable.init_try (Image.script 0%nat) self w).1.2
     = Raise (RecursionError "maximum recursion depth exceeded")
  /\ (MBRTable.init_try (Image.script 0%nat) self w).1.2
     <> Raise (MBRError "EBR cycle detected")
  /\ (MBRTable.init (Image.script 0%nat) 0%nat "disk.img" w).1.2
     = Raise (RecursionError "maximum recursion depth exceeded").
Proof.
  vm_compute. repeat split. discriminate.
Qed.


(** ** Terminated EBR chains *)

Lemma slot_entry_Ok partstr num :
  length partstr = 16%nat ->
  MBRTable.read_mbr_partition partstr num = Ok (slot_entry partstr num).
Proof.
  intros H. unfold slot_entry.
  pose proof (read_mbr_partition_16 partstr num H) as Hok.
  destruct (MBRTable.read_mbr_partition partstr num); [reflexivity|destruct Hok].
Qed.

Lemma ebr_next_Some d ext lba lba' ebr :
  EBR.unpack (ebr_sector_at d ext lba) = Ok ebr ->
  ebr_next d ext lba = Some lba' ->
  EBR.next_ebr ebr <> zeros 16
  /\ exists p, MBRTable.read_mbr_partition (EBR.next_ebr ebr) 0 = Ok (Some p)
       /\ MBRPartition.lba p = lba'.
Proof.
  intros Hun. unfold ebr_next. rewrite Hun.
  destruct (bool_decide (EBR.signature ebr = [x55; xaa])); [|discriminate].
  destruct (bool_decide (EBR.next_ebr ebr <> zeros 16)) eqn:En; [|discriminate].
  cbn [andb].
  destruct (MBRTable.read_mbr_partition (EBR.next_ebr ebr) 0) as [[p|]|]; try discriminate.
  intros [= <-]. apply bool_decide_eq_true_1 in En. eauto.
Qed.

(** In script mode a terminated chain of [nodes] is read node by node:
    one entry per node, numbered from [num] on in chain order ([None] for
    a descriptor of type 0), one seek to [(ext + lba) * 512] and one
    512-byte read per node. *)
Lemma read_ebr_partition_chain env self d ext :
  global_fp env = Some (MBRTable.fp self) ->
  forall nodes depth num w,
    ebr_chain d ext nodes = true ->
    (length nodes <= depth)%nat ->
    steady w (MBRTable.fp self) d ->
    exists w',
      MBRTable.read_ebr_partition env depth self ext (chain_start nodes) num w
      = (Ok (chain_entries num nodes), w')
      /\ steady w' (MBRTable.fp self) d
      /\ stdout w' = stdout w
      /\ io_log w' = io_log w ++ chain_io (MBRTable.fp self) ext nodes.
Proof.
  intros Hg. induction nodes as [|[lba desc] rest IH]; intros depth num w Hch Hlen Hst.
  - discriminate.
  - destruct depth as [|depth]; [cbn in Hlen; lia|].
    cbn [ebr_chain] in Hch.
    apply andb_prop in Hch as [Hrange Hch].
    apply andb_prop in Hrange as [H0 H1]. apply Z.leb_le in H0, H1.
    destruct (EBR.unpack (ebr_sector_at d ext lba)) as [ebr|] eqn:Hun; [|discriminate].
    apply andb_prop in Hch as [Hsd Hrest].
    apply andb_prop in Hsd as [Hsig Hdesc].
    apply bool_decide_eq_true_1 in Hsig, Hdesc.
    destruct (ebr_fetch env self w d ext lba Hg Hst ltac:(lia)) as (w1 & Hst1 & Hso1 & Hlog1 & Hk).
    cbn [chain_start MBRTable.read_ebr_partition]. rewrite Hk.
    unfold lift at 1. unfold bind at 1. rewrite Hun.
    rewrite bool_decide_eq_false_2 by (intros Hne; now apply Hne).
    destruct (unpack_EBR_inv _ _ Hun) as [Hl1 Hl2].
    unfold lift at 1. unfold bind at 1.
    rewrite (slot_entry_Ok _ num Hl1). rewrite Hdesc.
    destruct rest as [|[lba' desc'] rest'].
    + apply bool_decide_eq_true_1 in Hrest.
      rewrite bool_decide_eq_false_2 by (intros Hne; now apply Hne).
      exists w1. repeat split; assumption.
    + apply andb_prop in Hrest as [Hnext Hrest].
      apply bool_decide_eq_true_1 in Hnext.
      destruct (ebr_next_Some _ _ _ _ _ Hun Hnext) as (Hnz & p & Hp & Hlba).
      rewrite bool_decide_eq_true_2 by exact Hnz.
      unfold lift at 1. unfold bind at 1. rewrite Hp.
      destruct (IH depth (num + 1) w1 Hrest ltac:(cbn in Hlen |- *; lia) Hst1)
        as (w2 & Hrun & Hst2 & Hso2 & Hlog2).
      cbn [chain_start] in Hrun. rewrite Hlba.
      rewrite (bind_Ok _ _ _ _ _ Hrun).
      exists w2. repeat split; try assumption.
      * congruence.
      * rewrite Hlog2, Hlog1. rewrite <- app_assoc. reflexivity.
Qed.

Lemma chain_entries_length num nodes :
  length (chain_entries num nodes) = length nodes.
Proof.
  revert num. induction nodes as [|[lba desc] rest IH]; intros num; cbn; [reflexivity|].
  now rewrite IH.
Qed.

Lemma slot_entry_logical desc num :
  logical_desc desc = true ->
  exists p, slot_entry desc num = Some p
    /\ MBRPartition.index p = num
    /\ MBRPartition.active p = (0x80 <=? unpack_uint (slice 0 1 desc))
    /\ MBRPartition.type p = unpack_uint (slice 4 1 desc).
Proof.
  unfold logical_desc. intros [Hlen Hty]%andb_prop.
  apply bool_decide_eq_true_1 in Hlen. apply negb_true_iff in Hty.
  unfold slot_entry, MBRTable.read_mbr_partition, MBRPartition.unpack.
  rewrite bool_decide_eq_true_2 by exact Hlen.
  cbn [MBRPartition.type]. rewrite Hty.
  eexists. split; [reflexivity|]. repeat split.
Qed.

(** With logical descriptors throughout, the entries carry the numbers
    [num], [num + 1], ... in chain order. *)
Lemma chain_entries_index num nodes :
  forallb (fun node => logical_desc node.2) nodes = true ->
  map (option_map MBRPartition.index) (chain_entries num nodes)
  = map Some (seqZ num (Z.of_nat (length nodes))).
Proof.
  revert num. induction nodes as [|[lba desc] rest IH]; intros num Hall.
  - reflexivity.
  - cbn [forallb] in Hall. apply andb_prop in Hall as [Hd Hrest].
    cbn [chain_entries length map].
    rewrite Nat2Z.inj_succ, seqZ_cons by lia.
    cbn [map]. f_equal.
    + destruct (slot_entry_logical desc num Hd) as (p & -> & Hi & _). cbn. now rewrite Hi.
    + rewrite IH by exact Hrest. do 2 f_equal; lia.
Qed.


(** ** The primary slots *)

Lemma unpack_MBRHeader_inv data h :
  MBRHeader.unpack data = Ok h ->
  length (MBRHeader.partition1 h) = 16%nat
  /\ length (MBRHeader.partition2 h) = 16%nat
  /\ length (MBRHeader.partition3 h) = 16%nat
  /\ length (MBRHeader.partition4 h) = 16%nat.
Proof.
  unfold MBRHeader.unpack. case_bool_decide as Hlen; [|discriminate].
  intros [= <-]. cbn. repeat split; apply length_slice_le; lia.
Qed.

(** [read_mbr_partitions] on a header that [struct.unpack] produced: the
    entries of slots 1 to 3, then whatever the EBR traversal returns for the
    first extended one among them. *)
Lemma read_mbr_partitions_eq env self data h w :
  MBRHeader.unpack data = Ok h ->
  MBRTable.mbrheader self = Some h ->
  MBRTable.read_mbr_partitions env self w =
    match find is_extended (primary_entries h) with
    | Some ep =>
        (let* logical := MBRTable.read_ebr_partition env (recursion_limit env) self
                           (MBRPartition.lba ep) 0 5 in
         ret (map Some (primary_entries h) ++ logical)) w
    | None => (Ok (map Some (primary_entries h)), w)
    end.
Proof.
  intros Hun Hself.
  destruct (unpack_MBRHeader_inv _ _ Hun) as (H1 & H2 & H3 & _).
  unfold MBRTable.read_mbr_partitions, MBRTable.get_mbrheader. rewrite Hself.
  rewrite (bind_Ok (ret h) _ w h w eq_refl).
  change (py_range 1 4) with [1; 2; 3].
  cbn [for_]. unfold lift, bind, ret. cbn [MBRHeader.getattr_partition Z.eqb Pos.eqb].
  rewrite (slot_entry_Ok _ 1 H1), (slot_entry_Ok _ 2 H2), (slot_entry_Ok _ 3 H3).
  unfold primary_entries. fold is_extended.
  destruct (slot_entry (MBRHeader.partition1 h) 1),
           (slot_entry (MBRHeader.partition2 h) 2),
           (slot_entry (MBRHeader.partition3 h) 3); cbn [omap list_omap id app];
    match goal with
    | |- context [find is_extended ?l] => destruct (find is_extended l); reflexivity
    end.
Qed.

Lemma read_mbr_partition_index partstr num p :
  MBRTable.read_mbr_partition partstr num = Ok (Some p) -> MBRPartition.index p = num.
Proof.
  unfold MBRTable.read_mbr_partition, MBRPartition.unpack.
  case_bool_decide; [|discriminate].
  cbn [MBRPartition.type]. destruct (_ =? 0); [discriminate|].
  intros Hs.
  apply (f_equal (fun r => match r with
                           | Ok (Some q) => MBRPartition.index q
                           | _ => num
                           end)) in Hs.
  symmetry. exact Hs.
Qed.

Lemma slot_entry_index partstr num p :
  slot_entry partstr num = Some p -> MBRPartition.index p = num.
Proof.
  unfold slot_entry.
  destruct (MBRTable.read_mbr_partition partstr num) as [o|] eqn:E; [|discriminate].
  intros ->. now apply read_mbr_partition_index in E.
Qed.

Lemma primary_entries_index h p :
  p ∈ primary_entries h ->
  MBRPartition.index p = 1 \/ MBRPartition.index p = 2 \/ MBRPartition.index p = 3.
Proof.
  unfold primary_entries.
  destruct (slot_entry (MBRHeader.partition1 h) 1) as [p1|] eqn:E1;
  destruct (slot_entry (MBRHeader.partition2 h) 2) as [p2|] eqn:E2;
  destruct (slot_entry (MBRHeader.partition3 h) 3) as [p3|] eqn:E3;
  cbn [omap list_omap id]; intros Hin;
  repeat (apply elem_of_cons in Hin as [->|Hin]);
  try (apply elem_of_nil in Hin; destruct Hin);
  eauto using slot_entry_index.
Qed.

Lemma read_ebr_partition_index env depth self ext :
  forall lba num w parts w' p,
    MBRTable.read_ebr_partition env depth self ext lba num w = (Ok parts, w') ->
    Some p ∈ parts -> num <= MBRPartition.index p.
Proof.
  induction depth as [|depth IH]; intros lba num w parts w' p H Hin.
  - discriminate.
  - cbn [MBRTable.read_ebr_partition] in H.
    apply bind_inv_Ok in H as (_ & w1 & _ & H).
    apply bind_inv_Ok in H as (gfp & w2 & _ & H).
    apply bind_inv_Ok in H as (data & w3 & _ & H).
    apply bind_inv_Ok in H as (ebr & w4 & _ & H).
    case_bool_decide; [discriminate|].
    apply bind_inv_Ok in H as (part & w5 & Hpart & H).
    assert (Hhead : part = Some p -> num <= MBRPartition.index p).
    { intros ->. unfold lift in Hpart.
      assert (Hp : MBRTable.read_mbr_partition (EBR.partition ebr) num = Ok (Some p))
        by congruence.
      apply read_mbr_partition_index in Hp. lia. }
    case_bool_decide.
    + apply bind_inv_Ok in H as (pn & w6 & _ & H).
      destruct pn as [q|]; [|discriminate].
      apply bind_inv_Ok in H as (more & w7 & Hmore & H).
      injection H as <- _.
      apply elem_of_cons in Hin as [Hin|Hin].
      * apply Hhead. congruence.
      * specialize (IH _ _ _ _ _ p Hmore Hin). lia.
    + injection H as <- _. apply elem_of_cons in Hin as [Hin|Hin].
      * apply Hhead. congruence.
      * apply elem_of_nil in Hin. destruct Hin.
Qed.

(** No decode ever produces an entry numbered 4: the primary loop stops at
    slot 3 and the logical partitions start at 5. *)
Lemma read_mbr_partitions_never_4 env self data h w parts w' p :
  MBRHeader.unpack data = Ok h ->
  MBRTable.mbrheader self = Some h ->
  MBRTable.read_mbr_partitions env self w = (Ok parts, w') ->
  Some p ∈ parts -> MBRPartition.index p <> 4.
Proof.
  intros Hun Hself Hrun Hin.
  rewrite (read_mbr_partitions_eq env self data h w Hun Hself) in Hrun.
  assert (Hprim : Some p ∈ map Some (primary_entries h) -> MBRPartition.index p <> 4).
  { intros Hp. apply list_elem_of_fmap in Hp as (q & [= <-] & Hq).
    apply primary_entries_index in Hq. lia. }
  destruct (find is_extended (primary_entries h)) as [ep|].
  - apply bind_inv_Ok in Hrun as (logical & w1 & Hlog & Hret).
    injection Hret as <- _.
    apply elem_of_app in Hin as [Hin|Hin]; [now apply Hprim|].
    pose proof (read_ebr_partition_index _ _ _ _ _ _ _ _ _ p Hlog Hin). lia.
  - injection Hrun as <- _. now apply Hprim.
Qed.

(** ** Evaluation on the empty chain *)

(** C2, the defect: [read_ebr_partition] puts the result of
    [read_mbr_partition] into its list without the [if part] test that the
    primary loop has.  On an extended partition whose only EBR is signed,
    describes no logical partition and has an all-zero next-EBR descriptor
    (N = 0), the traversal stops after one step but the decode returns the
    primary entry followed by a [None] placeholder, and the report that
    [get_info] prints next stops with an AttributeError on it. *)
Theorem C2_empty_chain_yields_placeholder :
  let out := MBRTable.init (Image.script 0%nat) 0%nat "disk.img"
               (Image.disk 0%nat Image.chain0) in
  ebr_chain Image.chain0 1 [(0, zeros 16)] = true
  /\ logical_desc (zeros 16) = false
  /\ out.1.2 = Ok tt
  /\ option_map (fun i => map (option_map MBRPartition.index) (MBRInfo.partitions i))
       (MBRTable.info out.1.1) = Some [Some 1; None]
  /\ io_log out.2 = [EvSeek 0%nat 0; EvRead 0%nat 0 512;
                      EvSeek 0%nat 512; EvRead 0%nat 512 512]
  /\ (get_info (Image.script 0%nat) 0%nat "disk.img" (Image.disk 0%nat Image.chain0)).1
     = Raise (AttributeError "'NoneType' object has no attribute 'index'").
Proof.
  vm_compute. repeat split.
Qed.


(** ** The GPT entry array *)

Lemma slice_app_length (s tail : bytes) n :
  length s = n -> slice 0 n (s ++ tail) = s.
Proof. intros H. unfold slice. rewrite drop_0. now apply take_app_length'. Qed.

Lemma read_gpt_partitions_body_step env self hdr i acc w f s tail :
  GPTHeader.part_entry_size hdr = 128 ->
  files w !! GPTTable.fp self = Some f ->
  (forall p, f_bad f p = false) ->
  drop (Z.to_nat (f_pos f)) (f_data f) = s ++ tail ->
  readable_slot env s = true ->
  exists out w',
    GPTTable.read_gpt_partitions_body env self hdr i acc w = (Ok out, w')
    /\ files w' !! GPTTable.fp self = Some (set_pos (f_pos f + 128) f)
    /\ (if bool_decide (slice 0 16 s = zeros 16) then out = acc
        else exists e, out = acc ++ [e] /\ entry_of_slot e (i + 1, s)).
Proof.
  intros Hsz Hf Hbad Hdrop Hrd.
  apply andb_prop in Hrd as [Hlen Hname]. apply bool_decide_eq_true_1 in Hlen.
  unfold GPTTable.read_gpt_partitions_body. rewrite Hsz.
  pose proof (fp_read_Ok _ 128 _ _ Hf (Hbad _)) as Hread.
  change (Z.to_nat 128) with 128%nat in Hread.
  assert (Hdata : slice (Z.to_nat (f_pos f)) 128 (f_data f) = s).
  { unfold slice. rewrite Hdrop. now apply take_app_length'. }
  rewrite Hdata, Hlen in Hread. change (Z.of_nat 128) with 128 in Hread.
  rewrite (bind_Ok _ _ _ _ _ Hread).
  rewrite Hlen. change (Z.of_nat 128 <? 128) with false. cbv iota.
  assert (Hun : GPTPartition.unpack s (i + 1) =
                Ok {| GPTPartition.guid := VBytes (slice 0 16 s);
                      GPTPartition.uid := VBytes (slice 16 16 s);
                      GPTPartition.first_lba := unpack_uint (slice 32 8 s);
                      GPTPartition.last_lba := unpack_uint (slice 40 8 s);
                      GPTPartition.flags := unpack_uint (slice 48 8 s);
                      GPTPartition.name := VBytes (slice 56 72 s);
                      GPTPartition.index := i + 1;
                      GPTPartition.type := "" |}).
  { unfold GPTPartition.unpack. now rewrite bool_decide_eq_true_2 by exact Hlen. }
  unfold lift at 1. unfold bind at 1. rewrite Hun.
  cbn [GPTPartition.guid GPTPartition.uid GPTPartition.name as_bytes].
  destruct (bool_decide (slice 0 16 s = zeros 16)) eqn:Ez.
  - do 2 eexists. split; [reflexivity|]. split; [|reflexivity].
    rewrite files_log_io. apply files_set_file_eq.
  - cbn [orb] in Hname.
    pose proof (uuid_str_upper_Ok (slice 0 16 s) ltac:(apply length_slice_le; lia)) as Hg.
    pose proof (uuid_str_upper_Ok (slice 16 16 s) ltac:(apply length_slice_le; lia)) as Hu.
    destruct (uuid_str_upper (slice 0 16 s)) as [g|] eqn:Eg; [|destruct Hg].
    destruct (uuid_str_upper (slice 16 16 s)) as [u|] eqn:Eu; [|destruct Hu].
    destruct (decode_utf16 env (slice 56 72 s)) as [cs|] eqn:Ed; [|discriminate].
    unfold lift, bind, ret.
    do 2 eexists. split; [reflexivity|]. split.
    + rewrite files_log_io. apply files_set_file_eq.
    + eexists. split; [reflexivity|].
      unfold entry_of_slot. cbn [fst snd].
      rewrite Eg. repeat split.
Qed.

Lemma read_gpt_partitions_loop env self hdr :
  GPTHeader.part_entry_size hdr = 128 ->
  forall slots i acc w f tail,
    files w !! GPTTable.fp self = Some f ->
    (forall p, f_bad f p = false) ->
    0 <= f_pos f ->
    drop (Z.to_nat (f_pos f)) (f_data f) = concat slots ++ tail ->
    forallb (readable_slot env) slots = true ->
    exists parts w',
      for_ (seqZ i (Z.of_nat (length slots)))
        (GPTTable.read_gpt_partitions_body env self hdr) acc w = (Ok (acc ++ parts), w')
      /\ Forall2 entry_of_slot parts (used_slots (i + 1) slots).
Proof.
  intros Hsz. induction slots as [|s rest IH]; intros i acc w f tail Hf Hbad Hpos Hdrop Hrd.
  - exists [], w. split; [|constructor]. cbn. now rewrite app_nil_r.
  - cbn [forallb] in Hrd. apply andb_prop in Hrd as [Hs Hrest].
    cbn [concat] in Hdrop. rewrite <- app_assoc in Hdrop.
    destruct (read_gpt_partitions_body_step env self hdr i acc w f s _ Hsz Hf Hbad Hdrop Hs)
      as (out & w1 & Hstep & Hf1 & Hout).
    assert (Hlen : length s = 128%nat).
    { apply andb_prop in Hs as [Hl _]. now apply bool_decide_eq_true_1 in Hl. }
    assert (Hdrop1 : drop (Z.to_nat (f_pos (set_pos (f_pos f + 128) f)))
                       (f_data (set_pos (f_pos f + 128) f)) = concat rest ++ tail).
    { cbn [f_pos f_data set_pos].
      rewrite Z2Nat.inj_add by lia. change (Z.to_nat 128) with 128%nat.
      rewrite <- drop_drop, Hdrop.
      now apply drop_app_length'. }
    destruct (IH (i + 1) out w1 _ tail Hf1 Hbad ltac:(cbn; lia) Hdrop1 Hrest)
      as (parts & w2 & Hloop & Hrel).
    cbn [length]. rewrite Nat2Z.inj_succ, seqZ_cons by lia.
    rewrite Z.pred_succ, <- Z.add_1_r.
    cbn [for_]. rewrite (bind_Ok _ _ _ _ _ Hstep).
    cbn [used_slots].
    destruct (bool_decide (slice 0 16 s = zeros 16)).
    + subst out. exists parts, w2. split; assumption.
    + destruct Hout as (e & -> & He).
      exists (e :: parts), w2. split.
      * rewrite Hloop. now rewrite <- app_assoc.
      * constructor; assumption.
Qed.

Lemma entry_of_slot_indices parts used :
  Forall2 entry_of_slot parts used ->
  map GPTPartition.index parts = map fst used.
Proof.
  induction 1 as [|part us parts used Hhd _ IH]; [reflexivity|].
  cbn [map]. destruct Hhd as [-> _]. now rewrite IH.
Qed.

(** An entry whose type GUID is all zero is left out and the scan goes on
    with the next slot, every entry kept carrying the 1-based position of
    its slot.  For every array of readable 128-byte slots that starts
    within the image the reader returns exactly the slots in use, in array
    order, each with its own position as index. *)
Lemma read_gpt_partitions_used_slots env self hdr lba_size w f slots tail :
  GPTTable.gptheader self = Some hdr ->
  files w !! GPTTable.fp self = Some f ->
  (forall p, f_bad f p = false) ->
  0 <= GPTHeader.part_entry_start_lba hdr * lba_size <= max_off ->
  (Z.to_nat (GPTHeader.part_entry_start_lba hdr * lba_size) <= length (f_data f))%nat ->
  GPTHeader.part_entry_size hdr = 128 ->
  GPTHeader.num_part_entries hdr = Z.of_nat (length slots) ->
  drop (Z.to_nat (GPTHeader.part_entry_start_lba hdr * lba_size)) (f_data f)
    = concat slots ++ tail ->
  forallb (readable_slot env) slots = true ->
  exists parts,
    (GPTTable.read_gpt_partitions env self lba_size w).1 = Ok parts
    /\ Forall2 entry_of_slot parts (used_slots 1 slots)
    /\ map GPTPartition.index parts = map fst (used_slots 1 slots).
Proof.
  intros Hself Hf Hbad Hoff _ Hsz Hnum Hdrop Hrd.
  unfold GPTTable.read_gpt_partitions, GPTTable.get_gptheader. rewrite Hself.
  rewrite (bind_Ok (ret hdr) _ w hdr w eq_refl).
  rewrite (bind_Ok _ _ _ _ _ (fp_seek_in_Ok env _ _ _ _ Hf Hoff)).
  unfold py_range. rewrite Z.sub_0_r, Hnum.
  set (off := GPTHeader.part_entry_start_lba hdr * lba_size) in *.
  set (w1 := log_io (EvSeek (GPTTable.fp self) off)
               (set_file (GPTTable.fp self) (set_pos off f) w)).
  assert (Hf1 : files w1 !! GPTTable.fp self = Some (set_pos off f)).
  { unfold w1. rewrite files_log_io. apply files_set_file_eq. }
  destruct (read_gpt_partitions_loop env self hdr Hsz slots 0 [] w1 (set_pos off f) tail
              Hf1 Hbad ltac:(cbn; lia) Hdrop Hrd)
    as (parts & w' & Hloop & Hrel).
  exists parts. rewrite Hloop. repeat split.
  - exact Hrel.
  - now apply entry_of_slot_indices.
Qed.

(** The table of the claim: 128 declared entries of which only the first
    and the fiftieth are in use; two entries come out, numbered 1 and 50. *)
Lemma gpt_sparse_used_slots :
  exists parts,
    (GPTTable.read_gpt_partitions (Image.script 0%nat)
       (Image.parser_after_header Image.gpt_sparse) 512
       (Image.disk 0%nat Image.gpt_sparse)).1 = Ok parts
    /\ length Image.sparse_entries = 128%nat
    /\ length parts = 2%nat
    /\ map GPTPartition.index parts = [1; 50].
Proof.
  assert (Hh : exists hdr,
             GPTTable.gptheader (Image.parser_after_header Image.gpt_sparse) = Some hdr
             /\ GPTHeader.part_entry_start_lba hdr = 2
             /\ GPTHeader.part_entry_size hdr = 128
             /\ GPTHeader.num_part_entries hdr = 128).
  { vm_compute. eexists. repeat split. }
  destruct Hh as (hdr & Hh & Hstart & Hsize & Hnum).
  destruct (read_gpt_partitions_used_slots (Image.script 0%nat)
              (Image.parser_after_header Image.gpt_sparse) hdr 512
              (Image.disk 0%nat Image.gpt_sparse) (Image.regular Image.gpt_sparse)
              Image.sparse_entries [])
    as (parts & Hrun & Hrel & Hidx).
  - exact Hh.
  - reflexivity.
  - reflexivity.
  - rewrite Hstart. vm_compute. split; discriminate.
  - rewrite Hstart. apply Nat.leb_le. vm_compute. reflexivity.
  - exact Hsize.
  - rewrite Hnum. reflexivity.
  - rewrite Hstart. vm_compute. reflexivity.
  - vm_compute. reflexivity.
  - exists parts. split; [exact Hrun|]. split; [reflexivity|].
    assert (Hi : map GPTPartition.index parts = [1; 50]).
    { rewrite Hidx. vm_compute. reflexivity. }
    split; [|exact Hi].
    rewrite <- (length_map GPTPartition.index), Hi. reflexivity.
Defined.


(** ** The MBR reader and the device block size *)

Lemma blind_ret {A} (a : A) : blind (ret a).
Proof. intros b w. reflexivity. Qed.

Lemma blind_raise {A} e : blind (@raise A e).
Proof. intros b w. reflexivity. Qed.

Lemma blind_lift {A} (r : result A) : blind (lift r).
Proof. intros b w. reflexivity. Qed.

Lemma blind_bind {A B} (c : M A) (k : A -> M B) :
  blind c -> (forall a, blind (k a)) -> blind (bind c k).
Proof.
  intros Hc Hk b w. unfold bind. rewrite (Hc b w).
  destruct (c w) as [[a|e] w1]; cbn [fst snd].
  - apply Hk.
  - reflexivity.
Qed.

Lemma blind_print_line l : blind (print_line l).
Proof. intros b w. reflexivity. Qed.

Lemma reblock_lookup b w h :
  files (reblock b w) !! h = reblock_file b <$> (files w !! h).
Proof. unfold reblock; cbn [files]. apply lookup_fmap. Qed.

Lemma reblock_set_file b h f w :
  set_file h (reblock_file b f) (reblock b w) = reblock b (set_file h f w).
Proof.
  unfold set_file, reblock; cbn [files stdout io_log].
  f_equal. symmetry. apply fmap_insert.
Qed.

Lemma blind_fp_tell h : blind (fp_tell h).
Proof.
  intros b w. unfold fp_tell. rewrite reblock_lookup.
  destruct (files w !! h) as [f|]; reflexivity.
Qed.

Lemma blind_fp_seek h off : blind (fp_seek h off).
Proof.
  intros b w. unfold fp_seek. rewrite reblock_lookup.
  destruct (files w !! h) as [f|]; cbn [fmap option_fmap option_map]; [|reflexivity].
  destruct (off <? 0); [reflexivity|].
  destruct (max_off <? off); [reflexivity|].
  cbn [fst snd]. f_equal.
  change (set_pos off (reblock_file b f)) with (reblock_file b (set_pos off f)).
  unfold log_io. cbn [files stdout io_log]. now rewrite reblock_set_file.
Qed.

Lemma blind_fp_read h n : blind (fp_read h n).
Proof.
  intros b w. unfold fp_read. rewrite reblock_lookup.
  destruct (files w !! h) as [f|]; cbn [fmap option_fmap option_map]; [|reflexivity].
  cbn [f_bad f_pos f_data reblock_file].
  destruct (f_bad f (f_pos f)); [reflexivity|].
  cbn [fst snd]. f_equal.
  match goal with
  | |- context [set_pos ?p (reblock_file b f)] =>
      change (set_pos p (reblock_file b f)) with (reblock_file b (set_pos p f))
  end.
  unfold log_io. cbn [files stdout io_log]. now rewrite reblock_set_file.
Qed.

Lemma blind_load_global_fp env : blind (load_global_fp env).
Proof. unfold load_global_fp. destruct (global_fp env); [apply blind_ret|apply blind_raise]. Qed.

Lemma blind_for {A S} (xs : list A) (body : A -> S -> M S) :
  (forall x s, blind (body x s)) -> forall s, blind (for_ xs body s).
Proof.
  intros Hbody. induction xs as [|x xs IH]; intros s; cbn [for_].
  - apply blind_ret.
  - apply blind_bind; [apply Hbody|]. intros s'. apply IH.
Qed.

Lemma blind_check_disk_file h : blind (check_disk_file h).
Proof.
  intros b w. unfold check_disk_file. rewrite (blind_fp_tell h b w).
  destruct (fp_tell h w) as [[p|e] w1]; reflexivity.
Qed.

Create HintDb blind discriminated.
#[local] Hint Resolve blind_ret blind_raise blind_lift blind_print_line blind_fp_tell
  blind_fp_seek blind_fp_read blind_load_global_fp blind_check_disk_file : blind.

(** Walks down a chain of binds, loops and branches. *)
Ltac blind_walk :=
  repeat first
    [ solve [auto with blind]
    | apply blind_bind; [|intro]
    | apply blind_for; intros
    | case_bool_decide
    | match goal with
      | |- blind (match ?x with _ => _ end) => destruct x
      end ].

Lemma blind_read_mbr_header self : blind (MBRTable.read_mbr_header self).
Proof. unfold MBRTable.read_mbr_header. blind_walk. Qed.

Lemma blind_read_ebr_partition env self ext depth :
  forall lba num, blind (MBRTable.read_ebr_partition env depth self ext lba num).
Proof.
  induction depth as [|depth IH]; intros lba num; cbn [MBRTable.read_ebr_partition].
  - apply blind_raise.
  - pose proof IH as IH'. blind_walk.
Qed.

Lemma blind_read_mbr_partitions env self : blind (MBRTable.read_mbr_partitions env self).
Proof.
  pose proof (blind_read_ebr_partition env self) as Hebr.
  unfold MBRTable.read_mbr_partitions, MBRTable.get_mbrheader. blind_walk.
Qed.

Lemma MBRTable_init_try_blind env self b w :
  MBRTable.init_try env self (reblock b w) =
  ((MBRTable.init_try env self w).1, reblock b (MBRTable.init_try env self w).2).
Proof.
  unfold MBRTable.init_try.
  rewrite (blind_read_mbr_header self b w).
  destruct (MBRTable.read_mbr_header self w) as [[h|e] w1]; cbn [fst snd]; [|reflexivity].
  rewrite (blind_read_mbr_partitions env _ b w1).
  destruct (MBRTable.read_mbr_partitions env _ w1) as [[ps|e] w2]; reflexivity.
Qed.

(** Decoding the MBR on a device that reports another block size gives the
    same object, the same outcome, the same output and the same I/O log. *)
Lemma MBRTable_init_blind env fp name b w :
  MBRTable.init env fp name (reblock b w) =
  ((MBRTable.init env fp name w).1, reblock b (MBRTable.init env fp name w).2).
Proof.
  unfold MBRTable.init. cbn [MBRTable.fp].
  rewrite (blind_check_disk_file fp b w).
  destruct (check_disk_file fp w) as [[u|e] w1]; cbn [fst snd]; [|reflexivity].
  rewrite (blind_fp_seek fp 0 b w1).
  destruct (fp_seek fp 0 w1) as [[u'|e] w2]; cbn [fst snd]; [|reflexivity].
  rewrite MBRTable_init_try_blind.
  destruct (MBRTable.init_try env _ w2) as [[self [u''|e]] w3]; cbn [fst snd]; [reflexivity|].
  unfold MBRTable.init_except.
  destruct (isinstance_MBRMissing e); [reflexivity|].
  destruct (isinstance_MBRError e); reflexivity.
Qed.


(** ** What the readers add to the I/O log *)

Lemma logs_ret {A} P (a : A) : logs P (ret a).
Proof. intros w. exists []. split; [now rewrite app_nil_r|constructor]. Qed.

Lemma logs_raise {A} P e : logs P (@raise A e).
Proof. intros w. exists []. split; [now rewrite app_nil_r|constructor]. Qed.

Lemma logs_lift {A} P (r : result A) : logs P (lift r).
Proof. intros w. exists []. split; [now rewrite app_nil_r|constructor]. Qed.

Lemma logs_print_line P l : logs P (print_line l).
Proof. intros w. exists []. split; [cbn; now rewrite app_nil_r|constructor]. Qed.

Lemma logs_bind {A B} P (c : M A) (k : A -> M B) :
  logs P c -> (forall a, logs P (k a)) -> logs P (bind c k).
Proof.
  intros Hc Hk w. unfold bind.
  destruct (Hc w) as (evs1 & Hlog1 & HP1).
  destruct (c w) as [[a|e] w1]; cbn [snd] in Hlog1.
  - destruct (Hk a w1) as (evs2 & Hlog2 & HP2).
    exists (evs1 ++ evs2). split.
    + rewrite Hlog2, Hlog1. now rewrite app_assoc.
    + now apply Forall_app.
  - exists evs1. split; assumption.
Qed.

Lemma logs_for {A S} P (xs : list A) (body : A -> S -> M S) :
  (forall x s, logs P (body x s)) -> forall s, logs P (for_ xs body s).
Proof.
  intros Hbody. induction xs as [|x xs IH]; intros s; cbn [for_].
  - apply logs_ret.
  - apply logs_bind; [apply Hbody|]. intros s'. apply IH.
Qed.

Lemma logs_fp_seek (P : io_event -> Prop) h off : P (EvSeek h off) -> logs P (fp_seek h off).
Proof.
  intros HP w. unfold fp_seek.
  destruct (files w !! h) as [f|].
  - exists [EvSeek h off]. split; [|repeat constructor; exact HP].
    destruct (off <? 0); [reflexivity|]. destruct (max_off <? off); reflexivity.
  - exists []. split; [now rewrite app_nil_r|constructor].
Qed.

Lemma logs_fp_read (P : io_event -> Prop) h n :
  (forall pos, P (EvRead h pos n)) -> logs P (fp_read h n).
Proof.
  intros HP w. unfold fp_read.
  destruct (files w !! h) as [f|].
  - exists [EvRead h (f_pos f) n]. split; [|repeat constructor; apply HP].
    destruct (f_bad f (f_pos f)); reflexivity.
  - exists []. split; [now rewrite app_nil_r|constructor].
Qed.

Lemma logs_load_global_fp P env : logs P (load_global_fp env).
Proof. unfold load_global_fp. destruct (global_fp env); [apply logs_ret|apply logs_raise]. Qed.

(** On an open file a seek is logged whatever its outcome. *)
Lemma fp_seek_open_log h off w f :
  files w !! h = Some f ->
  io_log (fp_seek h off w).2 = io_log w ++ [EvSeek h off]
  /\ is_Some (files (fp_seek h off w).2 !! h).
Proof.
  intros Hf. unfold fp_seek. rewrite Hf.
  destruct (off <? 0); [split; [reflexivity|cbn; rewrite Hf; eauto]|].
  destruct (max_off <? off); [split; [reflexivity|cbn; rewrite Hf; eauto]|].
  split; [reflexivity|]. cbn [snd]. rewrite files_log_io, files_set_file_eq. eauto.
Qed.

Create HintDb logs discriminated.
#[local] Hint Resolve logs_ret logs_raise logs_lift logs_print_line logs_load_global_fp : logs.

Ltac logs_walk :=
  repeat first
    [ solve [auto with logs]
    | apply logs_bind; [|intro]
    | apply logs_for; intros
    | case_bool_decide
    | match goal with
      | |- logs _ (match ?x with _ => _ end) => destruct x
      | |- logs _ (if ?x then _ else _) => destruct x
      end ].

(** Every seek of the EBR traversal goes to [self.fp] at a 512-byte sector
    counted from [extended_lba], and every read asks for 512 bytes. *)
Lemma read_ebr_partition_logs env self ext depth :
  forall lba num,
    logs (ebr_event (MBRTable.fp self) ext)
      (MBRTable.read_ebr_partition env depth self ext lba num).
Proof.
  induction depth as [|depth IH]; intros lba num; cbn [MBRTable.read_ebr_partition].
  - apply logs_raise.
  - assert (Hseek : logs (ebr_event (MBRTable.fp self) ext)
                      (fp_seek (MBRTable.fp self) ((ext + lba) * 512))).
    { apply logs_fp_seek. split; [reflexivity|]. now exists lba. }
    assert (Hread : forall gfp, logs (ebr_event (MBRTable.fp self) ext) (fp_read gfp 512)).
    { intros gfp. apply logs_fp_read. intros pos. reflexivity. }
    logs_walk.
Qed.

(** The first event of a traversal step is the seek to
    [(extended_lba + lba) * 512] on [self.fp]. *)
Lemma read_ebr_partition_first_seek env self ext depth lba num w :
  is_Some (files w !! MBRTable.fp self) ->
  exists evs,
    io_log (MBRTable.read_ebr_partition env (S depth) self ext lba num w).2
    = io_log w ++ EvSeek (MBRTable.fp self) ((ext + lba) * 512) :: evs.
Proof.
  intros [f Hf].
  destruct (read_ebr_partition_logs env self ext (S depth) lba num w) as (evs & Hlog & _).
  cbn [MBRTable.read_ebr_partition] in Hlog |- *.
  unfold bind at 1 in Hlog. unfold bind at 1.
  destruct (fp_seek_open_log _ ((ext + lba) * 512) _ _ Hf) as [Hseek _].
  destruct (fp_seek (MBRTable.fp self) ((ext + lba) * 512) w) as [[u|e] w1]; cbn [snd] in Hseek.
  - match goal with
    | |- context [io_log (?k w1).2] =>
        assert (Hk : exists evs2, io_log (k w1).2 = io_log w1 ++ evs2)
    end.
    { match goal with
      | |- context [io_log (?k w1).2] =>
          assert (Hl : logs (fun _ => True) k); [|destruct (Hl w1) as (evs2 & H2 & _); eauto]
      end.
      apply logs_bind; [apply logs_load_global_fp|]. intros gfp.
      apply logs_bind; [apply logs_fp_read; intros pos; exact I|]. intros data.
      apply logs_bind; [apply logs_lift|]. intros ebr.
      case_bool_decide; [apply logs_raise|].
      apply logs_bind; [apply logs_lift|]. intros part.
      case_bool_decide; [|apply logs_ret].
      apply logs_bind; [apply logs_lift|]. intros [p|]; [|apply logs_raise].
      apply logs_bind; [|intros more; apply logs_ret].
      intros w2. destruct (read_ebr_partition_logs env self ext depth (MBRPartition.lba p) (num + 1) w2)
        as (evs3 & H3 & _).
      exists evs3. split; [exact H3|]. apply Forall_forall. intros; exact I. }
    destruct Hk as (evs2 & Hk). exists evs2.
    rewrite Hk, Hseek. now rewrite <- app_assoc.
  - exists []. cbn [snd]. exact Hseek.
Qed.

Lemma logs_weaken {A} (P Q : io_event -> Prop) (c : M A) :
  (forall e, P e -> Q e) -> logs P c -> logs Q c.
Proof.
  intros HPQ Hc w. destruct (Hc w) as (evs & Hlog & HP).
  exists evs. split; [exact Hlog|]. eapply Forall_impl; eauto.
Qed.

Lemma logs_any_fp_seek h off : logs any_event (fp_seek h off).
Proof. apply logs_fp_seek. exact I. Qed.

Lemma logs_any_fp_read h n : logs any_event (fp_read h n).
Proof. apply logs_fp_read. intros; exact I. Qed.

Lemma logs_any_fp_seek_in env h off : logs any_event (fp_seek_in env h off).
Proof. intros w. rewrite fp_seek_in_world. apply logs_any_fp_seek. Qed.

#[local] Hint Resolve logs_any_fp_seek logs_any_fp_seek_in logs_any_fp_read : logs.

Lemma logs_read_gpt_partitions env self lba_size :
  logs any_event (GPTTable.read_gpt_partitions env self lba_size).
Proof.
  unfold GPTTable.read_gpt_partitions, GPTTable.get_gptheader,
    GPTTable.read_gpt_partitions_body.
  logs_walk.
Qed.

Lemma read_gpt_header_first_seek self lba_size w :
  is_Some (files w !! GPTTable.fp self) ->
  exists evs,
    io_log (GPTTable.read_gpt_header self lba_size w).2
    = io_log w ++ EvSeek (GPTTable.fp self) (1 * lba_size) :: evs.
Proof.
  intros [f Hf]. unfold GPTTable.read_gpt_header.
  destruct (fp_seek_open_log _ (1 * lba_size) _ _ Hf) as [Hseek _].
  destruct (fp_seek (GPTTable.fp self) (1 * lba_size) w) as [[u|e] w1]; cbn [snd] in Hseek.
  - match goal with
    | |- context [io_log (?k w1).2] => assert (Hl : logs any_event k)
    end.
    { apply logs_bind; [apply logs_any_fp_read|]. intros data.
      apply logs_bind; [apply logs_lift|]. intros header.
      case_bool_decide; [apply logs_raise|].
      destruct (Qltb _ _); [apply logs_raise|].
      destruct (_ <? 92); [apply logs_raise|].
      apply logs_bind; [apply logs_lift|]. intros g. apply logs_ret. }
    destruct (Hl w1) as (evs & Hk & _). exists evs.
    rewrite Hk, Hseek. now rewrite <- app_assoc.
  - exists []. destruct e; cbn [snd]; exact Hseek.
Qed.

Lemma logs_read_disklabel_partitions self lba_size :
  logs any_event (DisklabelTable.read_disklabel_partitions self lba_size).
Proof.
  unfold DisklabelTable.read_disklabel_partitions, DisklabelTable.get_header.
  logs_walk.
Qed.

Lemma read_disklabel_header_first_seek self lba_size w :
  is_Some (files w !! DisklabelTable.fp self) ->
  exists evs,
    io_log (DisklabelTable.read_disklabel_header self lba_size w).2
    = io_log w ++ EvSeek (DisklabelTable.fp self) (1 * lba_size) :: evs.
Proof.
  intros [f Hf]. unfold DisklabelTable.read_disklabel_header.
  destruct (fp_seek_open_log _ (1 * lba_size) _ _ Hf) as [Hseek _].
  destruct (fp_seek (DisklabelTable.fp self) (1 * lba_size) w) as [[u|e] w1]; cbn [snd] in Hseek.
  - match goal with
    | |- context [io_log (?k w1).2] => assert (Hl : logs any_event k)
    end.
    { apply logs_bind; [apply logs_any_fp_read|]. intros data.
      apply logs_bind; [apply logs_lift|]. intros hdr.
      destruct (_ || _); [apply logs_raise|apply logs_ret]. }
    destruct (Hl w1) as (evs & Hk & _). exists evs.
    rewrite Hk, Hseek. now rewrite <- app_assoc.
  - exists []. destruct e; cbn [snd]; exact Hseek.
Qed.


(** ** The constructors on an open file *)

Lemma max_off_pos : 0 <= 0 <= max_off.
Proof. unfold max_off. lia. Qed.

Lemma check_disk_file_open h w f :
  files w !! h = Some f -> check_disk_file h w = (Ok tt, w).
Proof. intros Hf. unfold check_disk_file, fp_tell. now rewrite Hf. Qed.

(** The world in which the [try] block of a constructor starts: the file
    rewound by [seek(0)]. *)
Lemma MBRTable_init_open env fp name w f :
  files w !! fp = Some f ->
  MBRTable.init env fp name w =
    match MBRTable.init_try env (MBRTable.mk name fp None None)
            (log_io (EvSeek fp 0) (set_file fp (set_pos 0 f) w)) with
    | (self, Ok _, w3) => (self, Ok tt, w3)
    | (self, Raise e, w3) => MBRTable.init_except self e w3
    end.
Proof.
  intros Hf. unfold MBRTable.init. cbn [MBRTable.fp].
  rewrite (check_disk_file_open _ _ _ Hf).
  now rewrite (fp_seek_Ok _ _ _ _ Hf max_off_pos).
Qed.

Lemma query_blocksize_rewound fp f w :
  query_blocksize fp (log_io (EvSeek fp 0) (set_file fp (set_pos 0 f) w))
  = (Ok (default 512 (f_blksz f)), log_io (EvSeek fp 0) (set_file fp (set_pos 0 f) w)).
Proof.
  unfold query_blocksize. rewrite files_log_io, files_set_file_eq. reflexivity.
Qed.

Lemma GPTTable_init_open env fp name w f :
  files w !! fp = Some f ->
  GPTTable.init env fp name w =
    match GPTTable.init_try env (GPTTable.mk name fp None None) (default 512 (f_blksz f))
            (log_io (EvSeek fp 0) (set_file fp (set_pos 0 f) w)) with
    | (self, Ok _, w3) => (self, Ok tt, w3)
    | (self, Raise e, w3) => GPTTable.init_except self e w3
    end.
Proof.
  intros Hf. unfold GPTTable.init. cbn [GPTTable.fp].
  rewrite (check_disk_file_open _ _ _ Hf).
  rewrite (fp_seek_Ok _ _ _ _ Hf max_off_pos).
  now rewrite query_blocksize_rewound.
Qed.

Lemma DisklabelTable_init_open fp name w f :
  files w !! fp = Some f ->
  DisklabelTable.init fp name w =
    match DisklabelTable.init_try (DisklabelTable.mk fp name None None None)
            (default 512 (f_blksz f))
            (log_io (EvSeek fp 0) (set_file fp (set_pos 0 f) w)) with
    | (self, Ok _, w3) => (self, Ok tt, w3)
    | (self, Raise e, w3) => DisklabelTable.init_except self e w3
    end.
Proof.
  intros Hf. unfold DisklabelTable.init. cbn [DisklabelTable.fp].
  rewrite (check_disk_file_open _ _ _ Hf).
  rewrite (fp_seek_Ok _ _ _ _ Hf max_off_pos).
  now rewrite query_blocksize_rewound.
Qed.

Lemma MBRTable_init_except_log self e w :
  io_log (MBRTable.init_except self e w).2 = io_log w.
Proof.
  unfold MBRTable.init_except.
  destruct (isinstance_MBRMissing e); [reflexivity|].
  destruct (isinstance_MBRError e); reflexivity.
Qed.

Lemma GPTTable_init_except_log self e w :
  io_log (GPTTable.init_except self e w).2 = io_log w.
Proof.
  unfold GPTTable.init_except.
  destruct (isinstance_GPTMissing e); [reflexivity|].
  destruct (isinstance_GPTError e); reflexivity.
Qed.

Lemma DisklabelTable_init_except_log self e w :
  io_log (DisklabelTable.init_except self e w).2 = io_log w.
Proof.
  unfold DisklabelTable.init_except.
  destruct (isinstance_DisklabelMissing e); [reflexivity|].
  destruct (isinstance_DisklabelError e); reflexivity.
Qed.

Lemma GPTTable_init_try_first_seek env self bs w :
  is_Some (files w !! GPTTable.fp self) ->
  exists evs,
    io_log (GPTTable.init_try env self bs w).2
    = io_log w ++ EvSeek (GPTTable.fp self) (1 * bs) :: evs.
Proof.
  intros Hopen. unfold GPTTable.init_try.
  destruct (read_gpt_header_first_seek self bs w Hopen) as (evs & Hlog).
  destruct (GPTTable.read_gpt_header self bs w) as [[h|e] w1]; cbn [snd] in Hlog.
  - destruct (logs_read_gpt_partitions env (GPTTable.set_gptheader h self) bs w1)
      as (evs2 & Hlog2 & _).
    destruct (GPTTable.read_gpt_partitions env _ bs w1) as [[ps|e] w2];
      cbn [snd] in Hlog2 |- *; exists (evs ++ evs2); rewrite Hlog2, Hlog;
      now rewrite <- app_assoc.
  - exists evs. exact Hlog.
Qed.

Lemma DisklabelTable_init_try_first_seek self bs w :
  is_Some (files w !! DisklabelTable.fp self) ->
  exists evs,
    io_log (DisklabelTable.init_try self bs w).2
    = io_log w ++ EvSeek (DisklabelTable.fp self) (1 * bs) :: evs.
Proof.
  intros Hopen. unfold DisklabelTable.init_try.
  destruct (read_disklabel_header_first_seek self bs w Hopen) as (evs & Hlog).
  destruct (DisklabelTable.read_disklabel_header self bs w) as [[h|e] w1]; cbn [snd] in Hlog.
  - destruct (logs_read_disklabel_partitions (DisklabelTable.set_header h self) bs w1)
      as (evs2 & Hlog2 & _).
    destruct (DisklabelTable.read_disklabel_partitions _ bs w1) as [[ps|e] w2];
      cbn [snd] in Hlog2 |- *; exists (evs ++ evs2); rewrite Hlog2, Hlog;
      now rewrite <- app_assoc.
  - exists evs. exact Hlog.
Qed.

(** The GPT and the disklabel constructors seek first to 0 and then to one
    block, the block being what the device reports, or 512. *)
Lemma GPTTable_init_seeks env fp name w f :
  files w !! fp = Some f ->
  exists evs,
    io_log (GPTTable.init env fp name w).2
    = io_log w ++ EvSeek fp 0 :: EvSeek fp (1 * default 512 (f_blksz f)) :: evs.
Proof.
  intros Hf. rewrite (GPTTable_init_open env fp name w f Hf).
  set (w0 := log_io (EvSeek fp 0) (set_file fp (set_pos 0 f) w)).
  destruct (GPTTable_init_try_first_seek env (GPTTable.mk name fp None None)
              (default 512 (f_blksz f)) w0) as (evs & Hlog).
  { unfold w0. rewrite files_log_io, files_set_file_eq. eauto. }
  exists evs.
  destruct (GPTTable.init_try env _ _ w0) as [[self [u|e]] w3]; cbn [snd] in Hlog |- *.
  - rewrite Hlog. unfold w0. cbn [io_log log_io set_file]. now rewrite <- app_assoc.
  - rewrite GPTTable_init_except_log, Hlog. unfold w0. cbn [io_log log_io set_file].
    now rewrite <- app_assoc.
Qed.

Lemma DisklabelTable_init_seeks fp name w f :
  files w !! fp = Some f ->
  exists evs,
    io_log (DisklabelTable.init fp name w).2
    = io_log w ++ EvSeek fp 0 :: EvSeek fp (1 * default 512 (f_blksz f)) :: evs.
Proof.
  intros Hf. rewrite (DisklabelTable_init_open fp name w f Hf).
  set (w0 := log_io (EvSeek fp 0) (set_file fp (set_pos 0 f) w)).
  destruct (DisklabelTable_init_try_first_seek (DisklabelTable.mk fp name None None None)
              (default 512 (f_blksz f)) w0) as (evs & Hlog).
  { unfold w0. rewrite files_log_io, files_set_file_eq. eauto. }
  exists evs.
  destruct (DisklabelTable.init_try _ _ w0) as [[self [u|e]] w3]; cbn [snd] in Hlog |- *.
  - rewrite Hlog. unfold w0. cbn [io_log log_io set_file]. now rewrite <- app_assoc.
  - rewrite DisklabelTable_init_except_log, Hlog. unfold w0. cbn [io_log log_io set_file].
    now rewrite <- app_assoc.
Qed.


(** ** Publication of [info] *)

Lemma MBRTable_init_try_spec env self w :
  MBRTable.info self = None ->
  match (MBRTable.init_try env self w).1.2 with
  | Raise _ => MBRTable.info (MBRTable.init_try env self w).1.1 = None
  | Ok _ =>
      exists h w1 ps,
        MBRTable.read_mbr_header self w = (Ok h, w1)
        /\ MBRTable.read_mbr_partitions env (MBRTable.set_mbrheader h self) w1
           = (Ok ps, (MBRTable.init_try env self w).2)
        /\ MBRTable.info (MBRTable.init_try env self w).1.1 = Some (MBRInfo.mk 512 h ps)
  end.
Proof.
  intros Hnone. unfold MBRTable.init_try.
  destruct (MBRTable.read_mbr_header self w) as [[h|e] w1] eqn:Eh; cbn [fst snd]; [|exact Hnone].
  destruct (MBRTable.read_mbr_partitions env (MBRTable.set_mbrheader h self) w1)
    as [[ps|e] w2] eqn:Ep; cbn [fst snd].
  - exists h, w1, ps. repeat split. exact Ep.
  - exact Hnone.
Qed.

Lemma GPTTable_init_try_spec env self bs w :
  GPTTable.info self = None ->
  match (GPTTable.init_try env self bs w).1.2 with
  | Raise _ => GPTTable.info (GPTTable.init_try env self bs w).1.1 = None
  | Ok _ =>
      exists h w1 ps,
        GPTTable.read_gpt_header self bs w = (Ok h, w1)
        /\ GPTTable.read_gpt_partitions env (GPTTable.set_gptheader h self) bs w1
           = (Ok ps, (GPTTable.init_try env self bs w).2)
        /\ GPTTable.info (GPTTable.init_try env self bs w).1.1
           = Some (GPTTable.make_info bs h ps)
  end.
Proof.
  intros Hnone. unfold GPTTable.init_try.
  destruct (GPTTable.read_gpt_header self bs w) as [[h|e] w1] eqn:Eh; cbn [fst snd]; [|exact Hnone].
  destruct (GPTTable.read_gpt_partitions env (GPTTable.set_gptheader h self) bs w1)
    as [[ps|e] w2] eqn:Ep; cbn [fst snd].
  - exists h, w1, ps. repeat split. exact Ep.
  - exact Hnone.
Qed.

Lemma DisklabelTable_init_try_spec self bs w :
  DisklabelTable.info self = None ->
  match (DisklabelTable.init_try self bs w).1.2 with
  | Raise _ => DisklabelTable.info (DisklabelTable.init_try self bs w).1.1 = None
  | Ok _ =>
      exists h w1 ps,
        DisklabelTable.read_disklabel_header self bs w = (Ok h, w1)
        /\ DisklabelTable.read_disklabel_partitions (DisklabelTable.set_header h self) bs w1
           = (Ok ps, (DisklabelTable.init_try self bs w).2)
        /\ DisklabelTable.info (DisklabelTable.init_try self bs w).1.1
           = Some (DisklabelInfo.mk 512 h ps)
  end.
Proof.
  intros Hnone. unfold DisklabelTable.init_try.
  destruct (DisklabelTable.read_disklabel_header self bs w) as [[h|e] w1] eqn:Eh; cbn [fst snd];
    [|exact Hnone].
  destruct (DisklabelTable.read_disklabel_partitions (DisklabelTable.set_header h self) bs w1)
    as [[ps|e] w2] eqn:Ep; cbn [fst snd].
  - exists h, w1, ps. repeat split. exact Ep.
  - exact Hnone.
Qed.

Lemma MBRTable_init_except_info self e w :
  MBRTable.info (MBRTable.init_except self e w).1.1 = MBRTable.info self.
Proof.
  unfold MBRTable.init_except.
  destruct (isinstance_MBRMissing e); [reflexivity|].
  destruct (isinstance_MBRError e); reflexivity.
Qed.

Lemma GPTTable_init_except_info self e w :
  GPTTable.info (GPTTable.init_except self e w).1.1 = GPTTable.info self.
Proof.
  unfold GPTTable.init_except.
  destruct (isinstance_GPTMissing e); [reflexivity|].
  destruct (isinstance_GPTError e); reflexivity.
Qed.

Lemma DisklabelTable_init_except_info self e w :
  DisklabelTable.info (DisklabelTable.init_except self e w).1.1 = DisklabelTable.info self.
Proof.
  unfold DisklabelTable.init_except.
  destruct (isinstance_DisklabelMissing e); [reflexivity|].
  destruct (isinstance_DisklabelError e); reflexivity.
Qed.

(** [info] is populated only by a [try] block that ran to its end. *)
Lemma MBRTable_init_info env fp name w i :
  MBRTable.info (MBRTable.init env fp name w).1.1 = Some i ->
  (MBRTable.init env fp name w).1.2 = Ok tt
  /\ exists w0,
       MBRTable.init_try env (MBRTable.mk name fp None None) w0
       = ((MBRTable.init env fp name w).1.1, Ok tt, (MBRTable.init env fp name w).2).
Proof.
  unfold MBRTable.init. cbn [MBRTable.fp].
  destruct (check_disk_file fp w) as [[u|e] w1]; cbn [fst snd]; [|discriminate].
  destruct (fp_seek fp 0 w1) as [[u'|e] w2]; cbn [fst snd]; [|discriminate].
  pose proof (MBRTable_init_try_spec env (MBRTable.mk name fp None None) w2 eq_refl) as Hspec.
  destruct (MBRTable.init_try env (MBRTable.mk name fp None None) w2)
    as [[self [[]|e]] w3] eqn:Etry; cbn [fst snd] in Hspec |- *.
  - intros _. split; [reflexivity|]. exists w2. exact Etry.
  - rewrite MBRTable_init_except_info, Hspec. discriminate.
Qed.

Lemma GPTTable_init_info env fp name w i :
  GPTTable.info (GPTTable.init env fp name w).1.1 = Some i ->
  (GPTTable.init env fp name w).1.2 = Ok tt
  /\ exists bs w0,
       GPTTable.init_try env (GPTTable.mk name fp None None) bs w0
       = ((GPTTable.init env fp name w).1.1, Ok tt, (GPTTable.init env fp name w).2).
Proof.
  unfold GPTTable.init. cbn [GPTTable.fp].
  destruct (check_disk_file fp w) as [[u|e] w1]; cbn [fst snd]; [|discriminate].
  destruct (fp_seek fp 0 w1) as [[u'|e] w2]; cbn [fst snd]; [|discriminate].
  destruct (query_blocksize fp w2) as [[bs|e] w3]; cbn [fst snd]; [|discriminate].
  pose proof (GPTTable_init_try_spec env (GPTTable.mk name fp None None) bs w3 eq_refl) as Hspec.
  destruct (GPTTable.init_try env (GPTTable.mk name fp None None) bs w3)
    as [[self [[]|e]] w4] eqn:Etry; cbn [fst snd] in Hspec |- *.
  - intros _. split; [reflexivity|]. exists bs, w3. exact Etry.
  - rewrite GPTTable_init_except_info, Hspec. discriminate.
Qed.

Lemma DisklabelTable_init_info fp name w i :
  DisklabelTable.info (DisklabelTable.init fp name w).1.1 = Some i ->
  (DisklabelTable.init fp name w).1.2 = Ok tt
  /\ exists bs w0,
       DisklabelTable.init_try (DisklabelTable.mk fp name None None None) bs w0
       = ((DisklabelTable.init fp name w).1.1, Ok tt, (DisklabelTable.init fp name w).2).
Proof.
  unfold DisklabelTable.init. cbn [DisklabelTable.fp].
  destruct (check_disk_file fp w) as [[u|e] w1]; cbn [fst snd]; [|discriminate].
  destruct (fp_seek fp 0 w1) as [[u'|e] w2]; cbn [fst snd]; [|discriminate].
  destruct (query_blocksize fp w2) as [[bs|e] w3]; cbn [fst snd]; [|discriminate].
  pose proof (DisklabelTable_init_try_spec (DisklabelTable.mk fp name None None None) bs w3 eq_refl)
    as Hspec.
  destruct (DisklabelTable.init_try (DisklabelTable.mk fp name None None None) bs w3)
    as [[self [[]|e]] w4] eqn:Etry; cbn [fst snd] in Hspec |- *.
  - intros _. split; [reflexivity|]. exists bs, w3. exact Etry.
  - rewrite DisklabelTable_init_except_info, Hspec. discriminate.
Qed.

(** C9: for each of the three parsers the [info] field is published in one
    step.  Inside the [try] block, any exception leaves [info] at None and
    a normal end means that the header and then all the partitions were
    read, [info] holding exactly those two results; and a constructor whose
    object has [info] populated returned normally after a [try] block that
    ran to its end. *)
Theorem C9_info_published_atomically env fp name w :
  (forall self w0, MBRTable.info self = None ->
     match (MBRTable.init_try env self w0).1.2 with
     | Raise _ => MBRTable.info (MBRTable.init_try env self w0).1.1 = None
     | Ok _ =>
         exists h w1 ps,
           MBRTable.read_mbr_header self w0 = (Ok h, w1)
           /\ MBRTable.read_mbr_partitions env (MBRTable.set_mbrheader h self) w1
              = (Ok ps, (MBRTable.init_try env self w0).2)
           /\ MBRTable.info (MBRTable.init_try env self w0).1.1 = Some (MBRInfo.mk 512 h ps)
     end)
  /\ (forall i, MBRTable.info (MBRTable.init env fp name w).1.1 = Some i ->
        (MBRTable.init env fp name w).1.2 = Ok tt
        /\ exists w0,
             MBRTable.init_try env (MBRTable.mk name fp None None) w0
             = ((MBRTable.init env fp name w).1.1, Ok tt, (MBRTable.init env fp name w).2))
  /\ (forall self bs w0, GPTTable.info self = None ->
        match (GPTTable.init_try env self bs w0).1.2 with
        | Raise _ => GPTTable.info (GPTTable.init_try env self bs w0).1.1 = None
        | Ok _ =>
            exists h w1 ps,
              GPTTable.read_gpt_header self bs w0 = (Ok h, w1)
              /\ GPTTable.read_gpt_partitions env (GPTTable.set_gptheader h self) bs w1
                 = (Ok ps, (GPTTable.init_try env self bs w0).2)
              /\ GPTTable.info (GPTTable.init_try env self bs w0).1.1
                 = Some (GPTTable.make_info bs h ps)
        end)
  /\ (forall i, GPTTable.info (GPTTable.init env fp name w).1.1 = Some i ->
        (GPTTable.init env fp name w).1.2 = Ok tt
        /\ exists bs w0,
             GPTTable.init_try env (GPTTable.mk name fp None None) bs w0
             = ((GPTTable.init env fp name w).1.1, Ok tt, (GPTTable.init env fp name w).2))
  /\ (forall self bs w0, DisklabelTable.info self = None ->
        match (DisklabelTable.init_try self bs w0).1.2 with
        | Raise _ => DisklabelTable.info (DisklabelTable.init_try self bs w0).1.1 = None
        | Ok _ =>
            exists h w1 ps,
              DisklabelTable.read_disklabel_header self bs w0 = (Ok h, w1)
              /\ DisklabelTable.read_disklabel_partitions (DisklabelTable.set_header h self) bs w1
                 = (Ok ps, (DisklabelTable.init_try self bs w0).2)
              /\ DisklabelTable.info (DisklabelTable.init_try self bs w0).1.1
                 = Some (DisklabelInfo.mk 512 h ps)
        end)
  /\ (forall i, DisklabelTable.info (DisklabelTable.init fp name w).1.1 = Some i ->
        (DisklabelTable.init fp name w).1.2 = Ok tt
        /\ exists bs w0,
             DisklabelTable.init_try (DisklabelTable.mk fp name None None None) bs w0
             = ((DisklabelTable.init fp name w).1.1, Ok tt, (DisklabelTable.init fp name w).2)).
Proof.
  split; [intros; now apply MBRTable_init_try_spec|].
  split; [intros; now apply MBRTable_init_info with i|].
  split; [intros; now apply GPTTable_init_try_spec|].
  split; [intros; now apply GPTTable_init_info with i|].
  split; [intros; now apply DisklabelTable_init_try_spec|].
  intros; now apply DisklabelTable_init_info with i.
Qed.

Lemma C9_info_published_atomically_witness :
  (MBRTable.init (Image.script 0%nat) 0%nat "disk.img" (Image.disk 0%nat Image.chain3)).1.2
    = Ok tt
  /\ MBRTable.info
       (MBRTable.init (Image.script 0%nat) 0%nat "disk.img" (Image.disk 0%nat Image.cycle3)).1.1
     = None.
Proof.
  destruct (C9_info_published_atomically (Image.script 0%nat) 0%nat "disk.img"
              (Image.disk 0%nat Image.chain3)) as (_ & Hinit & _).
  destruct (MBRTable.info
              (MBRTable.init (Image.script 0%nat) 0%nat "disk.img"
                 (Image.disk 0%nat Image.chain3)).1.1) as [i|] eqn:Ei.
  - split; [exact (proj1 (Hinit i eq_refl))|]. vm_compute. reflexivity.
  - vm_compute in Ei. discriminate.
Defined.

(** ** Sector size *)

Lemma MBRTable_info_lba_size env fp name w i :
  MBRTable.info (MBRTable.init env fp name w).1.1 = Some i -> MBRInfo.lba_size i = 512.
Proof.
  intros Hi. destruct (MBRTable_init_info _ _ _ _ _ Hi) as (_ & w0 & Etry).
  pose proof (MBRTable_init_try_spec env (MBRTable.mk name fp None None) w0 eq_refl) as Hspec.
  rewrite Etry in Hspec. cbn [fst snd] in Hspec.
  destruct Hspec as (h & w1 & ps & _ & _ & Hinfo).
  assert (Heq : i = MBRInfo.mk 512 h ps) by congruence.
  now rewrite Heq.
Qed.

Lemma GPTTable_info_lba_size env fp name w f i :
  files w !! fp = Some f ->
  GPTTable.info (GPTTable.init env fp name w).1.1 = Some i ->
  GPTInfo.lba_size i = default 512 (f_blksz f).
Proof.
  intros Hf. rewrite (GPTTable_init_open env fp name w f Hf).
  set (w0 := log_io (EvSeek fp 0) (set_file fp (set_pos 0 f) w)).
  set (bs := default 512 (f_blksz f)).
  pose proof (GPTTable_init_try_spec env (GPTTable.mk name fp None None) bs w0 eq_refl) as Hspec.
  destruct (GPTTable.init_try env (GPTTable.mk name fp None None) bs w0)
    as [[self [[]|e]] w3]; cbn [fst snd] in Hspec |- *.
  - destruct Hspec as (h & w1 & ps & _ & _ & Hinfo). intros Hi.
    assert (Heq : i = GPTTable.make_info bs h ps) by congruence.
    now rewrite Heq.
  - rewrite GPTTable_init_except_info, Hspec. discriminate.
Qed.

(** C10: the MBR parser works with 512-byte sectors whatever the device
    reports.  Its whole run (object, outcome, output, I/O log) is the same
    on a device reporting any other block size; a populated [info] carries
    [lba_size = 512]; every seek of the EBR traversal is on [self.fp] at a
    512-byte sector counted from [extended_lba], the first one of each step
    at [(extended_lba + lba) * 512].  The GPT and the disklabel parsers
    instead seek to one block of the size the device reports, 512 when the
    query fails, and the GPT result reports that size. *)
Theorem C10_mbr_sector_size_fixed env fp name w b :
  MBRTable.init env fp name (reblock b w)
  = ((MBRTable.init env fp name w).1, reblock b (MBRTable.init env fp name w).2)
  /\ (forall i, MBRTable.info (MBRTable.init env fp name w).1.1 = Some i ->
        MBRInfo.lba_size i = 512)
  /\ (forall self depth extended_lba lba num,
        logs (ebr_event (MBRTable.fp self) extended_lba)
          (MBRTable.read_ebr_partition env depth self extended_lba lba num)
        /\ (is_Some (files w !! MBRTable.fp self) ->
            exists evs,
              io_log (MBRTable.read_ebr_partition env (S depth) self extended_lba lba num w).2
              = io_log w ++ EvSeek (MBRTable.fp self) ((extended_lba + lba) * 512) :: evs))
  /\ (forall f, files w !! fp = Some f ->
        (exists evs,
            io_log (GPTTable.init env fp name w).2
            = io_log w ++ EvSeek fp 0 :: EvSeek fp (1 * default 512 (f_blksz f)) :: evs)
        /\ (forall i, GPTTable.info (GPTTable.init env fp name w).1.1 = Some i ->
              GPTInfo.lba_size i = default 512 (f_blksz f))
        /\ (exists evs,
              io_log (DisklabelTable.init fp name w).2
              = io_log w ++ EvSeek fp 0 :: EvSeek fp (1 * default 512 (f_blksz f)) :: evs)).
Proof.
  split; [apply MBRTable_init_blind|].
  split; [intros i; apply MBRTable_info_lba_size|].
  split.
  - intros self depth ext lba num. split.
    + apply read_ebr_partition_logs.
    + apply read_ebr_partition_first_seek.
  - intros f Hf. split; [now apply GPTTable_init_seeks|].
    split; [intros i; now apply GPTTable_info_lba_size|].
    now apply DisklabelTable_init_seeks.
Qed.

(** The same image behind a device with 4096-byte blocks: the MBR decode
    is unchanged, while the GPT reader looks for its header at offset 4096
    and no longer finds the table that sits at offset 512. *)
Lemma C10_mbr_sector_size_fixed_witness :
  (MBRTable.init (Image.script 0%nat) 0%nat "disk.img"
     (reblock (Some 4096) (Image.disk 0%nat Image.chain3))).1
  = (MBRTable.init (Image.script 0%nat) 0%nat "disk.img" (Image.disk 0%nat Image.chain3)).1
  /\ reblock (Some 4096) (Image.disk 0%nat Image.gpt_efi) = Image.disk_4k 0%nat Image.gpt_efi
  /\ is_Some (GPTTable.info (GPTTable.init (Image.script 0%nat) 0%nat "disk.img"
                               (Image.disk 0%nat Image.gpt_efi)).1.1)
  /\ GPTTable.info (GPTTable.init (Image.script 0%nat) 0%nat "disk.img"
                      (Image.disk_4k 0%nat Image.gpt_efi)).1.1 = None.
Proof.
  split.
  - rewrite (proj1 (C10_mbr_sector_size_fixed (Image.script 0%nat) 0%nat "disk.img"
                      (Image.disk 0%nat Image.chain3) (Some 4096))).
    reflexivity.
  - split; [vm_compute; reflexivity|].
    split; [vm_compute; eauto|]. vm_compute. reflexivity.
Defined.


(** ** What the caller sees of a failed decode *)

(** C8, as amended: the caller-visible outcome of each scheme is two-way,
    not three-way.  Whenever the [try] block of a constructor raises the
    scheme's own exception, be it XMissing (signature mismatch) or XError
    (a later structural failure: bad GPT revision, undersized header,
    truncated entry, bad EBR signature), the constructor returns normally
    with [info = None]; the reason carried by the exception is dropped, the
    only trace of an XError being the fixed line "Error reading MBR!" or
    "Error reading GPT!" on standard output (nothing at all for the
    disklabel); and [get_info] goes on to decode the other schemes. *)
Theorem C8_scheme_errors_swallowed env fp name w f :
  files w !! fp = Some f ->
  let w0 := log_io (EvSeek fp 0) (set_file fp (set_pos 0 f) w) in
  let bs := default 512 (f_blksz f) in
  (forall self e w1,
      MBRTable.init_try env (MBRTable.mk name fp None None) w0 = (self, Raise e, w1) ->
      isinstance_MBRError e = true ->
      let w2 := if isinstance_MBRMissing e then w1 else (print "Error reading MBR!" w1).2 in
      MBRTable.info self = None
      /\ MBRTable.new env fp name w = (Ok self, w2)
      /\ get_info env fp name w
         = (let* _ := MBRTable_pprint self in
            let* g := GPTTable.new env fp name in
            let* _ := GPTTable_pprint g in
            let* d := DisklabelTable.new fp name in
            let* _ := DisklabelTable_pprint d in
            let* _ := print "" in
            ret (self, g, d)) w2)
  /\ (forall self e w1,
        GPTTable.init_try env (GPTTable.mk name fp None None) bs w0 = (self, Raise e, w1) ->
        isinstance_GPTError e = true ->
        GPTTable.info self = None
        /\ GPTTable.new env fp name w
           = (Ok self, if isinstance_GPTMissing e then w1
                       else (print "Error reading GPT!" w1).2))
  /\ (forall self e w1,
        DisklabelTable.init_try (DisklabelTable.mk fp name None None None) bs w0
        = (self, Raise e, w1) ->
        isinstance_DisklabelError e = true ->
        DisklabelTable.info self = None
        /\ DisklabelTable.new fp name w = (Ok self, w1)).
Proof.
  intros Hf w0 bs. split; [|split].
  - intros self e w1 Htry He w2.
    pose proof (MBRTable_init_try_spec env (MBRTable.mk name fp None None) w0 eq_refl) as Hspec.
    rewrite Htry in Hspec. cbn [fst snd] in Hspec.
    assert (Hnew : MBRTable.new env fp name w = (Ok self, w2)).
    { unfold MBRTable.new. rewrite (MBRTable_init_open env fp name w f Hf).
      fold w0. rewrite Htry. unfold MBRTable.init_except, w2.
      destruct (isinstance_MBRMissing e); [reflexivity|]. now rewrite He. }
    split; [exact Hspec|]. split; [exact Hnew|].
    unfold get_info. now rewrite (bind_Ok _ _ _ _ _ Hnew).
  - intros self e w1 Htry He.
    pose proof (GPTTable_init_try_spec env (GPTTable.mk name fp None None) bs w0 eq_refl) as Hspec.
    rewrite Htry in Hspec. cbn [fst snd] in Hspec.
    split; [exact Hspec|].
    unfold GPTTable.new. rewrite (GPTTable_init_open env fp name w f Hf).
    fold w0 bs. rewrite Htry. unfold GPTTable.init_except.
    destruct (isinstance_GPTMissing e); [reflexivity|]. now rewrite He.
  - intros self e w1 Htry He.
    pose proof (DisklabelTable_init_try_spec (DisklabelTable.mk fp name None None None) bs w0 eq_refl)
      as Hspec.
    rewrite Htry in Hspec. cbn [fst snd] in Hspec.
    split; [exact Hspec|].
    unfold DisklabelTable.new. rewrite (DisklabelTable_init_open fp name w f Hf).
    fold w0 bs. rewrite Htry. unfold DisklabelTable.init_except.
    destruct (isinstance_DisklabelMissing e); [reflexivity|]. now rewrite He.
Qed.

(** An MBR whose extended partition starts with a sector that is not an
    EBR, next to a valid GPT: the MBR constructor returns an object with
    [info = None] and [get_info] still decodes the GPT. *)
Lemma C8_scheme_errors_swallowed_witness :
  (exists m, (MBRTable.new (Image.script 0%nat) 0%nat "disk.img"
                (Image.disk 0%nat Image.hybrid_bad_ebr)).1 = Ok m
             /\ MBRTable.info m = None)
  /\ match (get_info (Image.script 0%nat) 0%nat "disk.img"
              (Image.disk 0%nat Image.hybrid_bad_ebr)).1 with
     | Ok (m, g, d) =>
         MBRTable.info m = None
         /\ option_map (fun i => map GPTPartition.index (GPTInfo.partitions i)) (GPTTable.info g)
            = Some [1]
         /\ DisklabelTable.info d = None
     | Raise _ => False
     end.
Proof.
  split.
  - destruct (C8_scheme_errors_swallowed (Image.script 0%nat) 0%nat "disk.img"
                (Image.disk 0%nat Image.hybrid_bad_ebr)
                (Image.regular Image.hybrid_bad_ebr) eq_refl) as (Hmbr & _ & _).
    edestruct Hmbr as (Hinfo & Hnew & _).
    + vm_compute. reflexivity.
    + reflexivity.
    + eexists. rewrite Hnew. split; [reflexivity|exact Hinfo].
  - vm_compute. repeat split.
Defined.

(** C8, the claim as stated fails: a GPT whose signature matches but whose
    revision is 0.0 (corrupt) and a disk with no GPT at all (absent) give
    the caller the very same object, [info = None], and the reason
    "Bad GPT revision: 0.0" appears nowhere, neither in the object nor on
    standard output. *)
Lemma C8_corrupt_looks_absent :
  let fresh := GPTTable.mk "disk.img" 0%nat None None in
  let corrupt := GPTTable.new (Image.script 0%nat) 0%nat "disk.img"
                   (Image.disk 0%nat Image.gpt_bad_revision) in
  let absent := GPTTable.new (Image.script 0%nat) 0%nat "disk.img"
                  (Image.disk 0%nat Image.blank_disk) in
  (GPTTable.read_gpt_header fresh 512 (Image.disk 0%nat Image.gpt_bad_revision)).1
    = Raise (GPTError "Bad GPT revision: 0.0")
  /\ (GPTTable.read_gpt_header fresh 512 (Image.disk 0%nat Image.blank_disk)).1
     = Raise (GPTMissing "Bad GPT signature")
  /\ corrupt.1 = Ok fresh
  /\ absent.1 = Ok fresh
  /\ stdout corrupt.2 = [Line "Error reading GPT!"].
Proof.
  vm_compute. repeat split.
Qed.

(** ** Further consequences *)

(** In script mode, an MBR whose first extended entry among slots 1 to 3
    starts a terminated chain of [nodes] decodes to the primary entries
    followed by one entry per node, numbered from 5 on. *)
Lemma read_mbr_partitions_chain env self data h w d ep nodes :
  MBRHeader.unpack data = Ok h ->
  MBRTable.mbrheader self = Some h ->
  global_fp env = Some (MBRTable.fp self) ->
  steady w (MBRTable.fp self) d ->
  find is_extended (primary_entries h) = Some ep ->
  ebr_chain d (MBRPartition.lba ep) nodes = true ->
  chain_start nodes = 0 ->
  (length nodes <= recursion_limit env)%nat ->
  exists w',
    MBRTable.read_mbr_partitions env self w
    = (Ok (map Some (primary_entries h) ++ chain_entries 5 nodes), w')
    /\ io_log w' = io_log w ++ chain_io (MBRTable.fp self) (MBRPartition.lba ep) nodes.
Proof.
  intros Hun Hself Hg Hst Hfind Hch Hstart Hlen.
  rewrite (read_mbr_partitions_eq env self data h w Hun Hself), Hfind.
  destruct (read_ebr_partition_chain env self d (MBRPartition.lba ep) Hg nodes
              (recursion_limit env) 5 w Hch Hlen Hst) as (w' & Hrun & _ & _ & Hlog).
  rewrite Hstart in Hrun. exists w'. split; [|exact Hlog].
  now rewrite (bind_Ok _ _ _ _ _ Hrun).
Qed.

(** The chain of three logical partitions of [Image.chain3]. *)
Lemma chain3_decodes :
  exists w',
    MBRTable.read_ebr_partition (Image.script 0%nat) 990
      (MBRTable.mk "disk.img" 0%nat None None) 1 0 5 (Image.disk 0%nat Image.chain3)
    = (Ok (chain_entries 5 [(0, Image.slot 0 0x83 1 1);
                            (2, Image.slot 0x80 0x07 1 1);
                            (4, Image.slot 0 0x82 1 1)]), w')
    /\ io_log w' = [EvSeek 0%nat 512; EvRead 0%nat 512 512;
                    EvSeek 0%nat 1536; EvRead 0%nat 1536 512;
                    EvSeek 0%nat 2560; EvRead 0%nat 2560 512].
Proof.
  destruct (read_ebr_partition_chain (Image.script 0%nat)
              (MBRTable.mk "disk.img" 0%nat None None) Image.chain3 1 eq_refl
              [(0, Image.slot 0 0x83 1 1); (2, Image.slot 0x80 0x07 1 1);
               (4, Image.slot 0 0x82 1 1)]
              990%nat 5 (Image.disk 0%nat Image.chain3))
    as (w' & Hrun & _ & _ & Hlog).
  - vm_compute. reflexivity.
  - cbn. lia.
  - exists (Image.regular Image.chain3). repeat split.
  - exists w'. split; [exact Hrun|exact Hlog].
Qed.

(** With the module imported and no global [fp], every traversal step on
    an open file stops at the read with a NameError, right after its seek. *)
Lemma read_ebr_partition_unbound_global env self ext depth lba num w f :
  global_fp env = None ->
  files w !! MBRTable.fp self = Some f ->
  0 <= (ext + lba) * 512 <= max_off ->
  (MBRTable.read_ebr_partition env (S depth) self ext lba num w).1
  = Raise (NameError "name 'fp' is not defined").
Proof.
  intros Hg Hf Hoff. cbn [MBRTable.read_ebr_partition].
  rewrite (bind_Ok _ _ _ _ _ (fp_seek_Ok _ _ _ _ Hf Hoff)).
  unfold load_global_fp. rewrite Hg. reflexivity.
Qed.

Lemma split1_head_absent c s : c ∉ s -> split1_head [c] s = s.
Proof.
  induction s as [|x s IH]; intros Hnin; [reflexivity|].
  cbn [split1_head]. apply not_elem_of_cons in Hnin as [Hne Hnin].
  rewrite bool_decide_eq_false_2.
  - now rewrite IH.
  - intros [k Hk]. cbn in Hk. congruence.
Qed.

(** On Python 3 a decoded name without the digit 0 is kept whole, NUL
    padding included. *)
Lemma py3_name_kept_whole env decoded :
  py3 env = true -> 48 ∉ decoded ->
  split1_head (split_literal env) decoded = decoded.
Proof.
  intros Hpy Hnin. unfold split_literal. rewrite Hpy.
  change (text "0") with [48]. now apply split1_head_absent.
Qed.

(** On Python 2 the name is cut at its first NUL. *)
Lemma py2_name_cut env name rest :
  py3 env = false -> 0 ∉ name ->
  split1_head (split_literal env) (name ++ 0 :: rest) = name.
Proof.
  intros Hpy Hnin. unfold split_literal. rewrite Hpy.
  induction name as [|x name IH]; cbn [app split1_head].
  - rewrite bool_decide_eq_true_2; [reflexivity|]. now exists rest.
  - apply not_elem_of_cons in Hnin as [Hne Hnin].
    rewrite bool_decide_eq_false_2.
    + now rewrite IH.
    + intros [k Hk]. cbn in Hk. congruence.
Qed.

(** * Further properties of the readers *)

(** ** The record decoders against the format tables *)

Ltac decodes_as_tac unpack :=
  intros data; unfold struct_unpack, unpack;
  match goal with
  | |- context [bool_decide (length data = calcsize ?f)] =>
      let n := eval vm_compute in (calcsize f) in
      change (calcsize f) with n
  end;
  case_bool_decide; [eexists; split; reflexivity | vm_compute; reflexivity].

(** [struct.calcsize] of the seven format tables. *)
Lemma calcsize_formats :
  map (fun fmt => calcsize (map fst fmt))
    [MBR_FORMAT; MBR_PARTITION_FORMAT; EBR_FORMAT; GPT_HEADER_FORMAT;
     GPT_PARTITION_FORMAT; DISKLABEL_HEADER_FORMAT; DISKLABEL_PARTITION_FORMAT]
  = [512; 16; 512; 92; 128; 148; 16]%nat.
Proof. vm_compute. reflexivity. Qed.

(** X1: The seven record decoders read every field at the offset and with the
    width that the module's format tables imply, and fail exactly when
    [struct.unpack] fails, with the same message. *)
Theorem decoders_follow_format_tables :
  decodes_as MBR_FORMAT "MBRHeader" MBRHeader.unpack MBRHeader_fields
  /\ (forall num, decodes_as MBR_PARTITION_FORMAT "MBRPartition"
                    (fun data => MBRPartition.unpack data num) MBRPartition_fields)
  /\ decodes_as EBR_FORMAT "EBR" EBR.unpack EBR_fields
  /\ decodes_as GPT_HEADER_FORMAT "GPTHeader" GPTHeader.unpack GPTHeader_fields
  /\ (forall i, decodes_as GPT_PARTITION_FORMAT "GPTPartition"
                  (fun data => GPTPartition.unpack data i) GPTPartition_fields)
  /\ (forall sz, decodes_as DISKLABEL_HEADER_FORMAT "DisklabelHeader"
                   (fun data => DisklabelHeader.unpack data sz) DisklabelHeader_fields)
  /\ (forall num ts, decodes_as DISKLABEL_PARTITION_FORMAT "DisklabelPartition"
                       (fun data => DisklabelPartition.unpack data num ts)
                       DisklabelPartition_fields).
Proof.
  repeat split; intros.
  - decodes_as_tac MBRHeader.unpack.
  - decodes_as_tac MBRPartition.unpack.
  - decodes_as_tac EBR.unpack.
  - decodes_as_tac GPTHeader.unpack.
  - decodes_as_tac GPTPartition.unpack.
  - decodes_as_tac DisklabelHeader.unpack.
  - decodes_as_tac DisklabelPartition.unpack.
Qed.

(** ** Ranges of the decoded fields *)

Lemma byte_val_range b : 0 <= byte_val b < 256.
Proof. unfold byte_val. pose proof (Byte.to_N_bounded b). lia. Qed.

Lemma unpack_uint_range bs : 0 <= unpack_uint bs < 256 ^ Z.of_nat (length bs).
Proof.
  induction bs as [|b bs IH].
  - cbn. lia.
  - cbn [unpack_uint length]. rewrite Nat2Z.inj_succ, Z.pow_succ_r by lia.
    pose proof (byte_val_range b). nia.
Qed.

Lemma length_slice_bound off len (bs : bytes) : (length (slice off len bs) <= len)%nat.
Proof. unfold slice. rewrite length_take. lia. Qed.

Lemma unpack_uint_slice_range off len (bs : bytes) :
  0 <= unpack_uint (slice off len bs) < 256 ^ Z.of_nat len.
Proof.
  pose proof (unpack_uint_range (slice off len bs)) as [H0 H1].
  pose proof (length_slice_bound off len bs) as Hl.
  split; [exact H0|]. eapply Z.lt_le_trans; [exact H1|].
  apply Z.pow_le_mono_r; lia.
Qed.

Lemma unpack_pascal_length bs : (length (unpack_pascal bs) <= length bs - 1)%nat.
Proof.
  destruct bs as [|n rest]; cbn [unpack_pascal length]; [lia|].
  rewrite length_take. lia.
Qed.

(** What [read_mbr_partition] returns for a non-empty slot, field by field. *)
Lemma read_mbr_partition_Some partstr num p :
  MBRTable.read_mbr_partition partstr num = Ok (Some p) ->
  length partstr = 16%nat
  /\ MBRPartition.status p = unpack_uint (slice 0 1 partstr)
  /\ MBRPartition.chs_first p = unpack_pascal (slice 1 3 partstr)
  /\ MBRPartition.type p = unpack_uint (slice 4 1 partstr)
  /\ MBRPartition.chs_last p = unpack_pascal (slice 5 3 partstr)
  /\ MBRPartition.lba p = unpack_uint (slice 8 4 partstr)
  /\ MBRPartition.sectors p = unpack_uint (slice 12 4 partstr)
  /\ MBRPartition.index p = num
  /\ MBRPartition.active p = (0x80 <=? unpack_uint (slice 0 1 partstr))
  /\ MBRPartition.type_str p
     = default "Unknown" (MBR_PARTITION_TYPE !! unpack_uint (slice 4 1 partstr))
  /\ unpack_uint (slice 4 1 partstr) <> 0.
Proof.
  unfold MBRTable.read_mbr_partition, MBRPartition.unpack.
  case_bool_decide as Hlen; [|discriminate].
  cbn [MBRPartition.type MBRPartition.status].
  destruct (unpack_uint (slice 4 1 partstr) =? 0) eqn:Ety; [discriminate|].
  apply Z.eqb_neq in Ety.
  intros Hs.
  assert (Hp : forall {A} (f : MBRPartition.t -> A) (d : A),
             match MBRTable.read_mbr_partition partstr num with
             | Ok (Some q) => f q
             | _ => d
             end = f p).
  { intros A f d. unfold MBRTable.read_mbr_partition, MBRPartition.unpack.
    rewrite bool_decide_eq_true_2 by exact Hlen.
    cbn [MBRPartition.type MBRPartition.status].
    destruct (unpack_uint (slice 4 1 partstr) =? 0) eqn:Ety'; [apply Z.eqb_eq in Ety'; lia|].
    exact (f_equal (fun r => match r with Ok (Some q) => f q | _ => d end) Hs). }
  unfold MBRTable.read_mbr_partition, MBRPartition.unpack in Hp.
  rewrite bool_decide_eq_true_2 in Hp by exact Hlen.
  cbn [MBRPartition.type MBRPartition.status] in Hp.
  destruct (unpack_uint (slice 4 1 partstr) =? 0) eqn:Ety'; [apply Z.eqb_eq in Ety'; lia|].
  split; [exact Hlen|].
  split; [symmetry; exact (Hp _ MBRPartition.status 0)|].
  split; [symmetry; exact (Hp _ MBRPartition.chs_first [])|].
  split; [symmetry; exact (Hp _ MBRPartition.type 0)|].
  split; [symmetry; exact (Hp _ MBRPartition.chs_last [])|].
  split; [symmetry; exact (Hp _ MBRPartition.lba 0)|].
  split; [symmetry; exact (Hp _ MBRPartition.sectors 0)|].
  split; [symmetry; exact (Hp _ MBRPartition.index 0)|].
  split; [symmetry; exact (Hp _ MBRPartition.active false)|].
  split; [symmetry; exact (Hp _ MBRPartition.type_str "")|].
  exact Ety.
Qed.

(** X2: Every entry that [read_mbr_partition] returns has a type code in
    1..255, a status byte in 0..255 of which bit 7 is the active flag, an
    LBA and a sector count below 2^32, CHS strings of at most two bytes,
    and the index it was asked for. *)
Theorem mbr_entry_ranges partstr num p :
  MBRTable.read_mbr_partition partstr num = Ok (Some p) ->
  1 <= MBRPartition.type p <= 255
  /\ 0 <= MBRPartition.status p <= 255
  /\ (MBRPartition.active p = true <-> 128 <= MBRPartition.status p)
  /\ 0 <= MBRPartition.lba p < 2 ^ 32
  /\ 0 <= MBRPartition.sectors p < 2 ^ 32
  /\ (length (MBRPartition.chs_first p) <= 2)%nat
  /\ (length (MBRPartition.chs_last p) <= 2)%nat
  /\ MBRPartition.index p = num.
Proof.
  intros H. apply read_mbr_partition_Some in H
    as (Hlen & Hst & Hc1 & Hty & Hc2 & Hlba & Hsec & Hidx & Hact & _ & Hnz).
  pose proof (unpack_uint_slice_range 0 1 partstr) as R0.
  pose proof (unpack_uint_slice_range 4 1 partstr) as R4.
  pose proof (unpack_uint_slice_range 8 4 partstr) as R8.
  pose proof (unpack_uint_slice_range 12 4 partstr) as R12.
  change (256 ^ Z.of_nat 1) with 256 in *.
  change (256 ^ Z.of_nat 4) with (2 ^ 32) in *.
  rewrite Hst, Hty, Hlba, Hsec, Hact, Hc1, Hc2.
  split; [lia|]. split; [lia|]. split.
  { rewrite Z.leb_le. reflexivity. }
  split; [lia|]. split; [lia|]. split.
  { pose proof (unpack_pascal_length (slice 1 3 partstr)).
    pose proof (length_slice_bound 1 3 partstr). lia. }
  split; [|exact Hidx].
  pose proof (unpack_pascal_length (slice 5 3 partstr)).
  pose proof (length_slice_bound 5 3 partstr). lia.
Qed.

Lemma mbr_entry_ranges_witness :
  exists p, MBRTable.read_mbr_partition Image.fourth_slot 4 = Ok (Some p)
            /\ 1 <= MBRPartition.type p <= 255
            /\ 0 <= MBRPartition.lba p < 2 ^ 32.
Proof.
  assert (H : exists p, MBRTable.read_mbr_partition Image.fourth_slot 4 = Ok (Some p)).
  { vm_compute. eauto. }
  destruct H as [p Hp]. exists p. split; [exact Hp|].
  pose proof (mbr_entry_ranges Image.fourth_slot 4 p Hp) as (Hty & _ & _ & Hlba & _).
  split; assumption.
Defined.

(** ** The MBR constructor, case by case *)

Lemma slice_slice_0 a n m (bs : bytes) :
  (a + n <= m)%nat -> slice a n (slice 0 m bs) = slice a n bs.
Proof.
  intros H. unfold slice. rewrite !drop_0.
  rewrite !take_drop_commute, take_take. do 2 f_equal. lia.
Qed.

Lemma length_slice_0 m (bs : bytes) :
  length (slice 0 m bs) = Nat.min m (length bs).
Proof. unfold slice. rewrite drop_0. apply length_take. Qed.

(** [__init__] on an open, readable file, up to the call of
    [read_mbr_partitions]: a struct.error when sector 0 is not whole, an
    object without [info] when the signature is wrong. *)
Lemma MBRTable_init_read env fp name w f :
  files w !! fp = Some f ->
  (forall p, f_bad f p = false) ->
  exists w1,
    steady w1 fp (f_data f)
    /\ stdout w1 = stdout w
    /\ io_log w1 = io_log w ++ [EvSeek fp 0; EvRead fp 0 512]
    /\ MBRTable.init env fp name w =
       match MBRHeader.unpack (slice 0 512 (f_data f)) with
       | Raise e => (MBRTable.mk name fp None None, Raise e, w1)
       | Ok h =>
           if bool_decide (MBRHeader.signature h <> [x55; xaa])
           then (MBRTable.mk name fp None None, Ok tt, w1)
           else
             match MBRTable.read_mbr_partitions env (MBRTable.mk name fp None (Some h)) w1 with
             | (Ok ps, w2) =>
                 (MBRTable.mk name fp (Some (MBRInfo.mk 512 h ps)) (Some h), Ok tt, w2)
             | (Raise e, w2) =>
                 MBRTable.init_except (MBRTable.mk name fp None (Some h)) e w2
             end
       end.
Proof.
  intros Hf Hbad.
  set (w0 := log_io (EvSeek fp 0) (set_file fp (set_pos 0 f) w)).
  assert (Hf0 : files w0 !! fp = Some (set_pos 0 f)).
  { unfold w0. rewrite files_log_io. apply files_set_file_eq. }
  pose proof (fp_read_Ok fp 512 w0 _ Hf0 (Hbad _)) as Hread.
  cbn [f_pos f_data set_pos] in Hread. rewrite set_pos_set_pos in Hread.
  change (Z.to_nat 0) with 0%nat in Hread. change (Z.to_nat 512) with 512%nat in Hread.
  eexists. split; [|split; [|split]].
  4: { rewrite (MBRTable_init_open env fp name w f Hf). fold w0.
       unfold MBRTable.init_try, MBRTable.read_mbr_header. cbn [MBRTable.fp].
       rewrite (bind_Ok _ _ _ _ _ Hread).
       unfold lift at 1. unfold bind at 1.
       destruct (MBRHeader.unpack (slice 0 512 (f_data f))) as [h|e] eqn:Eun.
       - case_bool_decide.
         + reflexivity.
         + unfold ret. unfold MBRTable.set_mbrheader, MBRTable.set_info.
           cbn [MBRTable.filename MBRTable.fp MBRTable.info MBRTable.mbrheader].
           destruct (MBRTable.read_mbr_partitions env _ _) as [[ps|e] w2]; reflexivity.
       - revert Eun. unfold MBRHeader.unpack. case_bool_decide; [discriminate|].
         intros [= <-]. reflexivity. }
  - eexists. split; [rewrite files_log_io; apply files_set_file_eq|].
    split; [reflexivity|exact Hbad].
  - reflexivity.
  - unfold w0. cbn [io_log log_io set_file]. now rewrite <- app_assoc.
Qed.

(** X3: A file that ends inside sector 0 (the empty file included) makes the
    constructor, and [get_info] with it, end with struct.error: the error
    is not one of the MBR exceptions, so nothing catches it and the GPT and
    disklabel readers are never started. *)
Theorem short_image_raises env fp name w f :
  files w !! fp = Some f ->
  (forall p, f_bad f p = false) ->
  (length (f_data f) < 512)%nat ->
  (MBRTable.init env fp name w).1.2
    = Raise (struct_error "unpack requires a buffer of 512 bytes")
  /\ MBRTable.info (MBRTable.init env fp name w).1.1 = None
  /\ (get_info env fp name w).1
     = Raise (struct_error "unpack requires a buffer of 512 bytes")
  /\ stdout (get_info env fp name w).2 = stdout w
  /\ io_log (get_info env fp name w).2 = io_log w ++ [EvSeek fp 0; EvRead fp 0 512].
Proof.
  intros Hf Hbad Hlen.
  destruct (MBRTable_init_read env fp name w f Hf Hbad) as (w1 & _ & Hso & Hlog & Hinit).
  assert (Hun : MBRHeader.unpack (slice 0 512 (f_data f))
                = Raise (struct_error "unpack requires a buffer of 512 bytes")).
  { unfold MBRHeader.unpack. rewrite bool_decide_eq_false_2; [reflexivity|].
    rewrite length_slice_0. lia. }
  rewrite Hun in Hinit.
  assert (Hget : get_info env fp name w
                 = (Raise (struct_error "unpack requires a buffer of 512 bytes"), w1)).
  { unfold get_info. apply bind_Raise. unfold MBRTable.new. now rewrite Hinit. }
  rewrite Hinit, Hget. cbn [fst snd MBRTable.info]. repeat split; assumption.
Qed.

Lemma short_image_raises_witness :
  (get_info (Image.script 0%nat) 0%nat "disk.img" (Image.disk 0%nat Sample.stub)).1
  = Raise (struct_error "unpack requires a buffer of 512 bytes").
Proof.
  refine (proj1 (proj2 (proj2 (short_image_raises (Image.script 0%nat) 0%nat "disk.img"
                                 (Image.disk 0%nat Sample.stub) (Image.regular Sample.stub)
                                 _ _ _)))).
  - reflexivity.
  - reflexivity.
  - vm_compute. lia.
Defined.

(** X4: When sector 0 is whole and its last two bytes are not 55 AA, the
    constructor returns normally with [info] unset, prints nothing, and
    has only rewound the file and read that one sector. *)
Theorem unsigned_sector_is_absent env fp name w f :
  files w !! fp = Some f ->
  (forall p, f_bad f p = false) ->
  (512 <= length (f_data f))%nat ->
  slice 510 2 (f_data f) <> [x55; xaa] ->
  (MBRTable.init env fp name w).1 = (MBRTable.mk name fp None None, Ok tt)
  /\ stdout (MBRTable.init env fp name w).2 = stdout w
  /\ io_log (MBRTable.init env fp name w).2 = io_log w ++ [EvSeek fp 0; EvRead fp 0 512].
Proof.
  intros Hf Hbad Hlen Hsig.
  destruct (MBRTable_init_read env fp name w f Hf Hbad) as (w1 & _ & Hso & Hlog & Hinit).
  rewrite Hinit. unfold MBRHeader.unpack.
  rewrite bool_decide_eq_true_2 by (rewrite length_slice_0; lia).
  cbn [MBRHeader.signature]. rewrite slice_slice_0 by lia.
  rewrite bool_decide_eq_true_2 by exact Hsig.
  cbn [fst snd]. repeat split; assumption.
Qed.

Lemma unsigned_sector_is_absent_witness :
  (MBRTable.init (Image.script 0%nat) 0%nat "disk.img"
     (Image.disk 0%nat Sample.unsigned)).1
  = (MBRTable.mk "disk.img" 0%nat None None, Ok tt).
Proof.
  refine (proj1 (unsigned_sector_is_absent (Image.script 0%nat) 0%nat "disk.img"
                   (Image.disk 0%nat Sample.unsigned) (Image.regular Sample.unsigned)
                   _ _ _ _)).
  - reflexivity.
  - reflexivity.
  - vm_compute. lia.
  - vm_compute. discriminate.
Defined.

Lemma MBRTable_init_signed env fp name w f h :
  files w !! fp = Some f ->
  (forall p, f_bad f p = false) ->
  MBRHeader.unpack (slice 0 512 (f_data f)) = Ok h ->
  MBRHeader.signature h = [x55; xaa] ->
  exists w1,
    steady w1 fp (f_data f)
    /\ stdout w1 = stdout w
    /\ io_log w1 = io_log w ++ [EvSeek fp 0; EvRead fp 0 512]
    /\ MBRTable.init env fp name w =
       match find is_extended (primary_entries h) with
       | None =>
           (MBRTable.mk name fp (Some (MBRInfo.mk 512 h (map Some (primary_entries h))))
              (Some h), Ok tt, w1)
       | Some ep =>
           match MBRTable.read_ebr_partition env (recursion_limit env)
                   (MBRTable.mk name fp None (Some h)) (MBRPartition.lba ep) 0 5 w1 with
           | (Ok logical, w2) =>
               (MBRTable.mk name fp
                  (Some (MBRInfo.mk 512 h (map Some (primary_entries h) ++ logical)))
                  (Some h), Ok tt, w2)
           | (Raise e, w2) =>
               MBRTable.init_except (MBRTable.mk name fp None (Some h)) e w2
           end
       end.
Proof.
  intros Hf Hbad Hun Hsig.
  destruct (MBRTable_init_read env fp name w f Hf Hbad) as (w1 & Hst & Hso & Hlog & Hinit).
  exists w1. repeat split; try assumption.
  rewrite Hinit, Hun.
  rewrite bool_decide_eq_false_2 by (intros Hne; now apply Hne).
  rewrite (read_mbr_partitions_eq env (MBRTable.mk name fp None (Some h)) _ h w1 Hun eq_refl).
  destruct (find is_extended (primary_entries h)) as [ep|]; [|reflexivity].
  unfold bind.
  destruct (MBRTable.read_ebr_partition env _ _ _ _ _ w1) as [[logical|e] w2]; reflexivity.
Qed.

Lemma read_mbr_partition_entry partstr num p :
  MBRTable.read_mbr_partition partstr num = Ok (Some p) ->
  MBRPartition.index p = num
  /\ 1 <= MBRPartition.type p <= 255
  /\ (MBRPartition.active p = true <-> 128 <= MBRPartition.status p)
  /\ 0 <= MBRPartition.lba p < 2 ^ 32.
Proof.
  intros H. apply read_mbr_partition_Some in H
    as (_ & Hst & _ & Hty & _ & Hlba & _ & Hidx & Hact & _ & Hnz).
  pose proof (unpack_uint_slice_range 4 1 partstr) as R4.
  pose proof (unpack_uint_slice_range 8 4 partstr) as R8.
  change (256 ^ Z.of_nat 1) with 256 in *.
  change (256 ^ Z.of_nat 4) with (2 ^ 32) in *.
  rewrite Hst, Hty, Hlba, Hact.
  split; [exact Hidx|]. split; [lia|]. split; [|lia].
  rewrite Z.leb_le. reflexivity.
Qed.

Lemma primary_entries_Forall (P : MBRPartition.t -> Prop) h :
  (forall partstr num p,
      MBRTable.read_mbr_partition partstr num = Ok (Some p) -> 1 <= num <= 3 -> P p) ->
  Forall P (primary_entries h).
Proof.
  intros HP. unfold primary_entries.
  assert (Hs : forall partstr num p,
             slot_entry partstr num = Some p -> 1 <= num <= 3 -> P p).
  { intros partstr num p. unfold slot_entry.
    destruct (MBRTable.read_mbr_partition partstr num) as [o|] eqn:E; [|discriminate].
    intros -> Hn. exact (HP partstr num p E Hn). }
  destruct (slot_entry (MBRHeader.partition1 h) 1) as [p1|] eqn:E1;
  destruct (slot_entry (MBRHeader.partition2 h) 2) as [p2|] eqn:E2;
  destruct (slot_entry (MBRHeader.partition3 h) 3) as [p3|] eqn:E3;
  cbn [omap list_omap id]; repeat constructor;
  first [ apply (Hs _ _ _ E1) | apply (Hs _ _ _ E2) | apply (Hs _ _ _ E3) ]; lia.
Qed.

(** X5: A signed MBR without an extended partition among its first three
    slots decodes, whatever the interpreter state, to the non-empty ones of
    those slots in slot order, each with its slot number, a type code in
    1..255 and the active flag set exactly for a status byte of 0x80 or
    more; nothing is printed and only sector 0 is read. *)
Theorem primary_slots_decoded env fp name w f h :
  files w !! fp = Some f ->
  (forall p, f_bad f p = false) ->
  MBRHeader.unpack (slice 0 512 (f_data f)) = Ok h ->
  MBRHeader.signature h = [x55; xaa] ->
  find is_extended (primary_entries h) = None ->
  (MBRTable.init env fp name w).1
  = (MBRTable.mk name fp (Some (MBRInfo.mk 512 h (map Some (primary_entries h)))) (Some h),
     Ok tt)
  /\ primary_entries h
     = omap id [slot_entry (slice 446 16 (f_data f)) 1;
                slot_entry (slice 462 16 (f_data f)) 2;
                slot_entry (slice 478 16 (f_data f)) 3]
  /\ Forall (fun p => 1 <= MBRPartition.index p <= 3
                      /\ 1 <= MBRPartition.type p <= 255
                      /\ (MBRPartition.active p = true <-> 128 <= MBRPartition.status p))
       (primary_entries h)
  /\ stdout (MBRTable.init env fp name w).2 = stdout w
  /\ io_log (MBRTable.init env fp name w).2 = io_log w ++ [EvSeek fp 0; EvRead fp 0 512].
Proof.
  intros Hf Hbad Hun Hsig Hnone.
  destruct (MBRTable_init_signed env fp name w f h Hf Hbad Hun Hsig)
    as (w1 & _ & Hso & Hlog & Hinit).
  rewrite Hnone in Hinit. rewrite Hinit. cbn [fst snd].
  split; [reflexivity|]. split; [|split; [|split; assumption]].
  - revert Hun. unfold MBRHeader.unpack. case_bool_decide as Hlen; [|discriminate].
    intros Hh. unfold primary_entries.
    rewrite length_slice_0 in Hlen.
    assert (H1 : MBRHeader.partition1 h = slice 446 16 (f_data f)).
    { rewrite <- (slice_slice_0 446 16 512) by lia.
      exact (f_equal (fun r => match r with Ok x => MBRHeader.partition1 x | _ => [] end)
               (eq_sym Hh)). }
    assert (H2 : MBRHeader.partition2 h = slice 462 16 (f_data f)).
    { rewrite <- (slice_slice_0 462 16 512) by lia.
      exact (f_equal (fun r => match r with Ok x => MBRHeader.partition2 x | _ => [] end)
               (eq_sym Hh)). }
    assert (H3 : MBRHeader.partition3 h = slice 478 16 (f_data f)).
    { rewrite <- (slice_slice_0 478 16 512) by lia.
      exact (f_equal (fun r => match r with Ok x => MBRHeader.partition3 x | _ => [] end)
               (eq_sym Hh)). }
    now rewrite H1, H2, H3.
  - apply primary_entries_Forall. intros partstr num p Hp Hnum.
    apply read_mbr_partition_entry in Hp as (Hidx & Hty & Hact & _).
    rewrite Hidx. auto.
Qed.

Lemma primary_slots_decoded_witness :
  exists h,
    option_map (fun i => map (option_map MBRPartition.index) (MBRInfo.partitions i))
      (MBRTable.info (MBRTable.init Image.imported 0%nat "disk.img"
                        (Image.disk 0%nat Sample.plain)).1.1)
    = Some [Some 1; Some 3]
    /\ MBRHeader.unpack (slice 0 512 Sample.plain) = Ok h.
Proof.
  assert (Hh : exists h, MBRHeader.unpack (slice 0 512 Sample.plain) = Ok h
                         /\ MBRHeader.signature h = [x55; xaa]
                         /\ find is_extended (primary_entries h) = None
                         /\ map MBRPartition.index (primary_entries h) = [1; 3]).
  { vm_compute. eexists. repeat split. }
  destruct Hh as (h & Hun & Hsig & Hnone & Hidx). exists h. split; [|exact Hun].
  destruct (primary_slots_decoded Image.imported 0%nat "disk.img"
              (Image.disk 0%nat Sample.plain) (Image.regular Sample.plain) h
              eq_refl (fun _ => eq_refl) Hun Hsig Hnone) as (Hinit & _).
  rewrite Hinit. cbn [fst MBRTable.info option_map MBRInfo.partitions].
  rewrite map_map. cbn [option_map]. rewrite <- (map_map MBRPartition.index Some).
  now rewrite Hidx.
Defined.


(** ** The first EBR, case by case *)

Lemma extended_entry_offset h ep :
  find is_extended (primary_entries h) = Some ep ->
  0 <= (MBRPartition.lba ep + 0) * 512 <= max_off.
Proof.
  intros Hfind. apply find_some in Hfind as [Hin _].
  assert (Hall : Forall (fun p => 0 <= MBRPartition.lba p < 2 ^ 32) (primary_entries h)).
  { apply primary_entries_Forall. intros partstr num p Hp _.
    now apply read_mbr_partition_entry in Hp as (_ & _ & _ & Hlba). }
  rewrite Forall_forall in Hall.
  specialize (Hall ep (proj2 (list_elem_of_In _ _) Hin)).
  unfold max_off. lia.
Qed.

(** The constructor up to the first EBR read, in script mode. *)
Lemma MBRTable_init_first_ebr env fp name w f h ep depth :
  files w !! fp = Some f ->
  (forall p, f_bad f p = false) ->
  MBRHeader.unpack (slice 0 512 (f_data f)) = Ok h ->
  MBRHeader.signature h = [x55; xaa] ->
  find is_extended (primary_entries h) = Some ep ->
  global_fp env = Some fp ->
  recursion_limit env = S depth ->
  exists w1 w2,
    steady w2 fp (f_data f)
    /\ stdout w2 = stdout w
    /\ io_log w2 = io_log w ++ [EvSeek fp 0; EvRead fp 0 512;
                                EvSeek fp (MBRPartition.lba ep * 512);
                                EvRead fp (MBRPartition.lba ep * 512) 512]
    /\ (forall B (k : bytes -> M B),
          (let* _ := fp_seek fp ((MBRPartition.lba ep + 0) * 512) in
           let* gfp := load_global_fp env in
           let* data := fp_read gfp 512 in
           k data) w1
          = k (ebr_sector_at (f_data f) (MBRPartition.lba ep) 0) w2)
    /\ MBRTable.init env fp name w =
       match MBRTable.read_ebr_partition env (S depth)
               (MBRTable.mk name fp None (Some h)) (MBRPartition.lba ep) 0 5 w1 with
       | (Ok logical, w3) =>
           (MBRTable.mk name fp
              (Some (MBRInfo.mk 512 h (map Some (primary_entries h) ++ logical)))
              (Some h), Ok tt, w3)
       | (Raise e, w3) =>
           MBRTable.init_except (MBRTable.mk name fp None (Some h)) e w3
       end.
Proof.
  intros Hf Hbad Hun Hsig Hfind Hg Hlim.
  destruct (MBRTable_init_signed env fp name w f h Hf Hbad Hun Hsig)
    as (w1 & Hst & Hso & Hlog & Hinit).
  rewrite Hfind, Hlim in Hinit.
  destruct (ebr_fetch env (MBRTable.mk name fp None (Some h)) w1 (f_data f)
              (MBRPartition.lba ep) 0 Hg Hst (extended_entry_offset h ep Hfind))
    as (w2 & Hst2 & Hso2 & Hlog2 & Hk).
  exists w1, w2. split; [exact Hst2|]. split; [congruence|]. split; [|split].
  - rewrite Hlog2, Hlog, <- app_assoc. cbn [app MBRTable.fp].
    now replace ((MBRPartition.lba ep + 0) * 512) with (MBRPartition.lba ep * 512) by lia.
  - exact Hk.
  - exact Hinit.
Qed.

(** X8: In script mode, when the sector at the start of the first extended
    partition is whole but does not end in 55 AA, the constructor prints
    "Error reading MBR!" and returns normally with [info] unset: the
    primary entries already decoded are dropped with it. *)
Theorem bad_ebr_signature_reported env fp name w f h ep :
  files w !! fp = Some f ->
  (forall p, f_bad f p = false) ->
  MBRHeader.unpack (slice 0 512 (f_data f)) = Ok h ->
  MBRHeader.signature h = [x55; xaa] ->
  find is_extended (primary_entries h) = Some ep ->
  global_fp env = Some fp ->
  recursion_limit env <> 0%nat ->
  length (ebr_sector_at (f_data f) (MBRPartition.lba ep) 0) = 512%nat ->
  slice 510 2 (ebr_sector_at (f_data f) (MBRPartition.lba ep) 0) <> [x55; xaa] ->
  (MBRTable.init env fp name w).1 = (MBRTable.mk name fp None (Some h), Ok tt)
  /\ stdout (MBRTable.init env fp name w).2 = stdout w ++ [Line "Error reading MBR!"]
  /\ io_log (MBRTable.init env fp name w).2
     = io_log w ++ [EvSeek fp 0; EvRead fp 0 512;
                    EvSeek fp (MBRPartition.lba ep * 512);
                    EvRead fp (MBRPartition.lba ep * 512) 512].
Proof.
  intros Hf Hbad Hun Hsig Hfind Hg Hlim Hlen Hebr.
  destruct (recursion_limit env) as [|depth] eqn:Hd; [congruence|].
  destruct (MBRTable_init_first_ebr env fp name w f h ep depth Hf Hbad Hun Hsig Hfind Hg Hd)
    as (w1 & w2 & _ & Hso & Hlog & Hk & Hinit).
  rewrite Hinit. cbn [MBRTable.read_ebr_partition MBRTable.fp]. rewrite Hk.
  unfold lift, bind, EBR.unpack. rewrite bool_decide_eq_true_2 by exact Hlen.
  cbn [EBR.signature]. rewrite bool_decide_eq_true_2 by exact Hebr.
  cbn. rewrite Hso, Hlog. repeat split.
Qed.

Lemma bad_ebr_signature_reported_witness :
  stdout (MBRTable.init (Image.script 0%nat) 0%nat "disk.img"
            (Image.disk 0%nat Image.hybrid_bad_ebr)).2
  = [Line "Error reading MBR!"].
Proof.
  assert (Hh : exists h ep,
             MBRHeader.unpack (slice 0 512 Image.hybrid_bad_ebr) = Ok h
             /\ MBRHeader.signature h = [x55; xaa]
             /\ find is_extended (primary_entries h) = Some ep
             /\ MBRPartition.lba ep = 3).
  { vm_compute. do 2 eexists. repeat split. }
  destruct Hh as (h & ep & Hun & Hsig & Hfind & Hlba).
  destruct (bad_ebr_signature_reported (Image.script 0%nat) 0%nat "disk.img"
              (Image.disk 0%nat Image.hybrid_bad_ebr) (Image.regular Image.hybrid_bad_ebr)
              h ep eq_refl (fun _ => eq_refl) Hun Hsig Hfind eq_refl) as (_ & Hout & _).
  - discriminate.
  - cbn [f_data Image.regular]. rewrite Hlba. vm_compute. reflexivity.
  - cbn [f_data Image.regular]. rewrite Hlba. vm_compute. discriminate.
  - exact Hout.
Defined.






(** X6: In script mode, a signed MBR whose first extended entry among slots 1
    to 3 starts a terminated EBR chain of logical descriptors, with no
    more EBRs than the recursion limit leaves frames for, is decoded to
    the primary entries followed by one entry per EBR, numbered 5, 6, ...
    in chain order whatever the number of primary entries; each EBR costs
    one seek and one 512-byte read, and nothing is printed. *)
Theorem logical_partitions_numbered env fp name w f h ep nodes :
  files w !! fp = Some f ->
  (forall p, f_bad f p = false) ->
  MBRHeader.unpack (slice 0 512 (f_data f)) = Ok h ->
  MBRHeader.signature h = [x55; xaa] ->
  find is_extended (primary_entries h) = Some ep ->
  global_fp env = Some fp ->
  ebr_chain (f_data f) (MBRPartition.lba ep) nodes = true ->
  chain_start nodes = 0 ->
  (length nodes <= recursion_limit env)%nat ->
  forallb (fun node => logical_desc node.2) nodes = true ->
  exists logical,
    (MBRTable.init env fp name w).1
    = (MBRTable.mk name fp
         (Some (MBRInfo.mk 512 h (map Some (primary_entries h) ++ logical))) (Some h),
       Ok tt)
    /\ map (option_map MBRPartition.index) logical
       = map Some (seqZ 5 (Z.of_nat (length nodes)))
    /\ stdout (MBRTable.init env fp name w).2 = stdout w
    /\ io_log (MBRTable.init env fp name w).2
       = io_log w ++ [EvSeek fp 0; EvRead fp 0 512]
           ++ chain_io fp (MBRPartition.lba ep) nodes.
Proof.
  intros Hf Hbad Hun Hsig Hfind Hg Hch Hstart Hlen Hlog.
  destruct (MBRTable_init_signed env fp name w f h Hf Hbad Hun Hsig)
    as (w1 & Hst & Hso & Hlog1 & Hinit).
  rewrite Hfind in Hinit.
  destruct (read_ebr_partition_chain env (MBRTable.mk name fp None (Some h)) (f_data f)
              (MBRPartition.lba ep) Hg nodes (recursion_limit env) 5 w1 Hch Hlen Hst)
    as (w2 & Hrun & _ & Hso2 & Hlog2).
  rewrite Hstart in Hrun. rewrite Hrun in Hinit. rewrite Hinit. cbn [fst snd].
  exists (chain_entries 5 nodes).
  split; [reflexivity|]. split; [now apply chain_entries_index|].
  split; [congruence|].
  rewrite Hlog2, Hlog1, <- app_assoc. reflexivity.
Qed.

Lemma logical_partitions_numbered_witness :
  option_map (fun i => map (option_map MBRPartition.index) (MBRInfo.partitions i))
    (MBRTable.info (MBRTable.init (Image.script 0%nat) 0%nat "disk.img"
                      (Image.disk 0%nat Image.chain3)).1.1)
  = Some [Some 1; Some 2; Some 5; Some 6; Some 7].
Proof.
  assert (Hh : exists h ep,
             MBRHeader.unpack (slice 0 512 Image.chain3) = Ok h
             /\ MBRHeader.signature h = [x55; xaa]
             /\ find is_extended (primary_entries h) = Some ep
             /\ MBRPartition.lba ep = 1
             /\ map MBRPartition.index (primary_entries h) = [1; 2]).
  { vm_compute. do 2 eexists. repeat split. }
  destruct Hh as (h & ep & Hun & Hsig & Hfind & Hlba & Hidx).
  destruct (logical_partitions_numbered (Image.script 0%nat) 0%nat "disk.img"
              (Image.disk 0%nat Image.chain3) (Image.regular Image.chain3) h ep
              [(0, Image.slot 0 0x83 1 1); (2, Image.slot 0x80 0x07 1 1);
               (4, Image.slot 0 0x82 1 1)]
              eq_refl (fun _ => eq_refl) Hun Hsig Hfind eq_refl)
    as (logical & Hinit & Hnum & _).
  - cbn [f_data Image.regular]. rewrite Hlba. vm_compute. reflexivity.
  - reflexivity.
  - cbn. lia.
  - vm_compute. reflexivity.
  - rewrite Hinit. cbn [fst MBRTable.info option_map MBRInfo.partitions].
    rewrite map_app, Hnum, map_map. cbn [option_map].
    rewrite <- (map_map MBRPartition.index Some), Hidx. reflexivity.
Defined.

(** ** Closed files and failing reads *)

Lemma check_disk_file_closed fp w :
  files w !! fp = None ->
  check_disk_file fp w
  = (Raise (DiskException "Please provide a file pointer (sys.stding or result of open function) as first argument, pointing to an existing disk such as /dev/sda."), w).
Proof. intros Hf. unfold check_disk_file, fp_tell. now rewrite Hf. Qed.

(** X12: Handed a closed file, each of the three constructors raises
    DiskException before it seeks, reads or prints anything, and so does
    [get_info]: no scheme is reported as absent. *)
Theorem closed_file_rejected env fp name w :
  files w !! fp = None ->
  let e := DiskException "Please provide a file pointer (sys.stding or result of open function) as first argument, pointing to an existing disk such as /dev/sda." in
  MBRTable.init env fp name w = (MBRTable.mk name fp None None, Raise e, w)
  /\ GPTTable.init env fp name w = (GPTTable.mk name fp None None, Raise e, w)
  /\ DisklabelTable.init fp name w = (DisklabelTable.mk fp name None None None, Raise e, w)
  /\ get_info env fp name w = (Raise e, w).
Proof.
  intros Hf e.
  assert (Hm : MBRTable.init env fp name w = (MBRTable.mk name fp None None, Raise e, w)).
  { unfold MBRTable.init. cbn [MBRTable.fp]. now rewrite (check_disk_file_closed _ _ Hf). }
  split; [exact Hm|]. split; [|split].
  - unfold GPTTable.init. cbn [GPTTable.fp]. now rewrite (check_disk_file_closed _ _ Hf).
  - unfold DisklabelTable.init. cbn [DisklabelTable.fp].
    now rewrite (check_disk_file_closed _ _ Hf).
  - unfold get_info, bind, MBRTable.new. now rewrite Hm.
Qed.

Lemma closed_file_rejected_witness :
  exists msg,
    get_info Image.imported 7%nat "disk.img" (Image.disk 0%nat Image.blank_disk)
    = (Raise (DiskException msg), Image.disk 0%nat Image.blank_disk).
Proof.
  eexists.
  exact (proj2 (proj2 (proj2 (closed_file_rejected Image.imported 7%nat "disk.img"
                                (Image.disk 0%nat Image.blank_disk) eq_refl)))).
Defined.

(** X13: A read error on sector 0 is not turned into a scheme error: the
    IOError leaves the MBR constructor and [get_info], nothing is printed,
    and the GPT and the disklabel are never looked for. *)
Theorem read_error_propagates env fp name w f :
  files w !! fp = Some f ->
  f_bad f 0 = true ->
  (MBRTable.init env fp name w).1
  = (MBRTable.mk name fp None None, Raise (IOError "[Errno 5] Input/output error"))
  /\ (get_info env fp name w).1 = Raise (IOError "[Errno 5] Input/output error")
  /\ stdout (get_info env fp name w).2 = stdout w
  /\ io_log (get_info env fp name w).2 = io_log w ++ [EvSeek fp 0; EvRead fp 0 512].
Proof.
  intros Hf Hbad.
  set (w0 := log_io (EvSeek fp 0) (set_file fp (set_pos 0 f) w)).
  assert (Hf0 : files w0 !! fp = Some (set_pos 0 f)).
  { unfold w0. rewrite files_log_io. apply files_set_file_eq. }
  assert (Hrun : MBRTable.init env fp name w
                 = (MBRTable.mk name fp None None,
                    Raise (IOError "[Errno 5] Input/output error"),
                    log_io (EvRead fp 0 512) w0)).
  { rewrite (MBRTable_init_open env fp name w f Hf). fold w0.
    unfold MBRTable.init_try, MBRTable.read_mbr_header, bind, fp_read.
    cbn [MBRTable.fp]. rewrite Hf0. cbn [f_bad f_pos set_pos]. rewrite Hbad.
    reflexivity. }
  rewrite Hrun. split; [reflexivity|].
  unfold get_info, bind, MBRTable.new. rewrite Hrun. cbn [fst snd].
  split; [reflexivity|]. split; [reflexivity|].
  cbn. now rewrite <- app_assoc.
Qed.

Lemma read_error_propagates_witness :
  let bad := {| f_data := Image.blank_disk; f_pos := 0; f_blksz := None;
                f_bad := fun p => p =? 0 |} in
  (get_info Image.imported 0%nat "disk.img"
     {| files := {[ 0%nat := bad ]}; stdout := []; io_log := [] |}).1
  = Raise (IOError "[Errno 5] Input/output error").
Proof.
  intros bad.
  exact (proj1 (proj2 (read_error_propagates Image.imported 0%nat "disk.img"
                         {| files := {[ 0%nat := bad ]}; stdout := []; io_log := [] |}
                         bad eq_refl eq_refl))).
Defined.


(** ** The GPT constructor, case by case *)

Lemma slice_slice off m a n (bs : bytes) :
  (a + n <= m)%nat -> slice a n (slice off m bs) = slice (off + a) n bs.
Proof.
  intros H. unfold slice.
  rewrite (take_drop_commute _ n a), take_take.
  replace (Nat.min (a + n) m) with (a + n)%nat by lia.
  now rewrite <- take_drop_commute, drop_drop.
Qed.

(** [__init__] on an open, readable file whose header region is whole. *)
Lemma GPTTable_init_whole env fp name w f h :
  files w !! fp = Some f ->
  (forall p, f_bad f p = false) ->
  0 <= default 512 (f_blksz f) <= max_off ->
  GPTHeader.unpack (slice (Z.to_nat (default 512 (f_blksz f))) 92 (f_data f)) = Ok h ->
  let bs := default 512 (f_blksz f) in
  exists g w1,
    uuid_str_upper (as_bytes (GPTHeader.disk_guid h)) = Ok g
    /\ files w1 !! fp = Some (set_pos (bs + 92) f)
    /\ stdout w1 = stdout w
    /\ io_log w1 = io_log w ++ [EvSeek fp 0; EvSeek fp bs; EvRead fp bs 92]
    /\ GPTTable.init env fp name w =
       if bool_decide (GPTHeader.signature h <> b_ "EFI PART")
       then (GPTTable.mk name fp None None, Ok tt, w1)
       else if Qltb (GPTTable.revision h) (inject_Z 1) || (GPTHeader.header_size h <? 92)
       then (GPTTable.mk name fp None None, Ok tt, (print "Error reading GPT!" w1).2)
       else
         let h' := GPTHeader.replace_disk_guid (VStr g) h in
         match GPTTable.read_gpt_partitions env (GPTTable.mk name fp None (Some h')) bs w1 with
         | (Ok ps, w2) =>
             (GPTTable.mk name fp (Some (GPTTable.make_info bs h' ps)) (Some h'), Ok tt, w2)
         | (Raise e, w2) => GPTTable.init_except (GPTTable.mk name fp None (Some h')) e w2
         end.
Proof.
  intros Hf Hbad Hbs Hun bs. fold bs in Hbs, Hun.
  destruct (unpack_GPTHeader_inv _ _ Hun) as [Hlen Hguid].
  assert (Hg : is_Ok (uuid_str_upper (as_bytes (GPTHeader.disk_guid h)))).
  { rewrite Hguid. apply uuid_str_upper_Ok. apply length_slice_le. lia. }
  destruct (uuid_str_upper (as_bytes (GPTHeader.disk_guid h))) as [g|] eqn:Eg; [|destruct Hg].
  set (w0 := log_io (EvSeek fp 0) (set_file fp (set_pos 0 f) w)).
  assert (Hf0 : files w0 !! fp = Some (set_pos 0 f)).
  { unfold w0. rewrite files_log_io. apply files_set_file_eq. }
  set (wa := log_io (EvSeek fp bs) (set_file fp (set_pos bs (set_pos 0 f)) w0)).
  assert (Hfa : files wa !! fp = Some (set_pos bs f)).
  { unfold wa. rewrite files_log_io, files_set_file_eq. now rewrite set_pos_set_pos. }
  pose proof (fp_read_Ok fp 92 wa _ Hfa (Hbad _)) as Hread.
  cbn [f_pos f_data set_pos] in Hread. change (Z.to_nat 92) with 92%nat in Hread.
  rewrite Hlen, set_pos_set_pos in Hread. change (Z.of_nat 92) with 92 in Hread.
  set (w1 := log_io (EvRead fp bs 92) (set_file fp (set_pos (bs + 92) f) wa)) in Hread.
  exists g, w1. split; [reflexivity|]. split; [|split; [|split]].
  - unfold w1. rewrite files_log_io. apply files_set_file_eq.
  - reflexivity.
  - unfold w1, wa, w0. cbn [io_log log_io set_file]. now rewrite <- !app_assoc.
  - rewrite (GPTTable_init_open env fp name w f Hf). fold bs w0.
    unfold GPTTable.init_try, GPTTable.read_gpt_header. cbn [GPTTable.fp].
    rewrite Z.mul_1_l, (fp_seek_Ok _ _ _ _ Hf0 Hbs). fold wa.
    rewrite (bind_Ok _ _ _ _ _ Hread).
    unfold lift at 1. unfold bind at 1. rewrite Hun.
    case_bool_decide; [reflexivity|].
    destruct (Qltb _ _); [reflexivity|].
    destruct (_ <? 92); [reflexivity|].
    cbn [orb]. unfold bind at 1. unfold lift at 1. rewrite Eg.
    unfold ret. cbn [GPTTable.set_gptheader GPTTable.filename GPTTable.fp GPTTable.info].
    destruct (GPTTable.read_gpt_partitions env _ bs w1) as [[ps|e] w2]; reflexivity.
Qed.

(** X15: A device or image whose second block does not start with "EFI PART"
    has no GPT as far as the constructor is concerned: it returns with
    [info] unset and prints nothing, after one seek to the block and one
    92-byte read; revision, sizes and the entry array are not looked at. *)
Theorem gpt_unsigned_is_silent env fp name w f :
  files w !! fp = Some f ->
  (forall p, f_bad f p = false) ->
  let bs := default 512 (f_blksz f) in
  0 <= bs <= max_off ->
  (Z.to_nat bs + 92 <= length (f_data f))%nat ->
  slice (Z.to_nat bs) 8 (f_data f) <> b_ "EFI PART" ->
  (GPTTable.init env fp name w).1 = (GPTTable.mk name fp None None, Ok tt)
  /\ stdout (GPTTable.init env fp name w).2 = stdout w
  /\ io_log (GPTTable.init env fp name w).2
     = io_log w ++ [EvSeek fp 0; EvSeek fp bs; EvRead fp bs 92].
Proof.
  intros Hf Hbad bs Hbs Hlen Hsig.
  assert (Hun : exists h, GPTHeader.unpack (slice (Z.to_nat bs) 92 (f_data f)) = Ok h
                          /\ GPTHeader.signature h = slice 0 8 (slice (Z.to_nat bs) 92 (f_data f))).
  { unfold GPTHeader.unpack.
    rewrite bool_decide_eq_true_2 by (apply length_slice_le; lia).
    eexists. split; reflexivity. }
  destruct Hun as (h & Hun & Hs).
  rewrite slice_slice, Nat.add_0_r in Hs by lia.
  destruct (GPTTable_init_whole env fp name w f h Hf Hbad Hbs Hun)
    as (g & w1 & _ & _ & Hso & Hlog & Hinit).
  rewrite Hinit, bool_decide_eq_true_2 by (now rewrite Hs).
  repeat split; assumption.
Qed.

Lemma gpt_unsigned_is_silent_witness :
  (GPTTable.init Image.imported 0%nat "disk.img" (Image.disk 0%nat Image.blank_disk)).1
  = (GPTTable.mk "disk.img" 0%nat None None, Ok tt).
Proof.
  refine (proj1 (gpt_unsigned_is_silent Image.imported 0%nat "disk.img"
                   (Image.disk 0%nat Image.blank_disk) (Image.regular Image.blank_disk)
                   eq_refl (fun _ => eq_refl) _ _ _)).
  - vm_compute. split; discriminate.
  - apply Nat.leb_le. vm_compute. reflexivity.
  - vm_compute. discriminate.
Defined.




(** ** What the constructors print *)

Lemma quiet_ret {A} (a : A) : quiet (ret a).
Proof. intros w. reflexivity. Qed.

Lemma quiet_raise {A} e : quiet (@raise A e).
Proof. intros w. reflexivity. Qed.

Lemma quiet_lift {A} (r : result A) : quiet (lift r).
Proof. intros w. reflexivity. Qed.

Lemma quiet_bind {A B} (c : M A) (k : A -> M B) :
  quiet c -> (forall a, quiet (k a)) -> quiet (bind c k).
Proof.
  intros Hc Hk w. unfold bind. specialize (Hc w).
  destruct (c w) as [[a|e] w1]; cbn [snd] in Hc |- *.
  - now rewrite Hk.
  - exact Hc.
Qed.

Lemma quiet_for {A S} (xs : list A) (body : A -> S -> M S) :
  (forall x s, quiet (body x s)) -> forall s, quiet (for_ xs body s).
Proof.
  intros Hbody. induction xs as [|x xs IH]; intros s; cbn [for_].
  - apply quiet_ret.
  - apply quiet_bind; [apply Hbody|]. intros s'. apply IH.
Qed.

Lemma quiet_fp_tell h : quiet (fp_tell h).
Proof. intros w. unfold fp_tell. destruct (files w !! h); reflexivity. Qed.

Lemma quiet_fp_seek h off : quiet (fp_seek h off).
Proof.
  intros w. unfold fp_seek. destruct (files w !! h); [|reflexivity].
  destruct (off <? 0); [reflexivity|]. destruct (max_off <? off); reflexivity.
Qed.

Lemma quiet_fp_seek_in env h off : quiet (fp_seek_in env h off).
Proof. intros w. rewrite fp_seek_in_world. apply quiet_fp_seek. Qed.

Lemma quiet_fp_read h n : quiet (fp_read h n).
Proof.
  intros w. unfold fp_read. destruct (files w !! h) as [f|]; [|reflexivity].
  destruct (f_bad f (f_pos f)); reflexivity.
Qed.

Lemma quiet_load_global_fp env : quiet (load_global_fp env).
Proof. unfold load_global_fp. destruct (global_fp env); [apply quiet_ret|apply quiet_raise]. Qed.

Lemma quiet_check_disk_file h : quiet (check_disk_file h).
Proof.
  intros w. unfold check_disk_file. pose proof (quiet_fp_tell h w) as Ht.
  destruct (fp_tell h w) as [[p|e] w1]; exact Ht.
Qed.

Lemma quiet_query_blocksize h : quiet (query_blocksize h).
Proof. intros w. unfold query_blocksize. destruct (files w !! h); reflexivity. Qed.

Create HintDb quiet discriminated.
#[local] Hint Resolve quiet_ret quiet_raise quiet_lift quiet_fp_tell quiet_fp_seek
  quiet_fp_seek_in quiet_fp_read quiet_load_global_fp quiet_check_disk_file quiet_query_blocksize : quiet.

Ltac quiet_walk :=
  repeat first
    [ solve [auto with quiet]
    | apply quiet_bind; [|intro]
    | apply quiet_for; intros
    | case_bool_decide
    | match goal with
      | |- quiet (match ?x with _ => _ end) => destruct x
      | |- quiet (if ?x then _ else _) => destruct x
      end ].

Lemma quiet_read_mbr_header self : quiet (MBRTable.read_mbr_header self).
Proof. unfold MBRTable.read_mbr_header. quiet_walk. Qed.

Lemma quiet_read_ebr_partition env self ext depth :
  forall lba num, quiet (MBRTable.read_ebr_partition env depth self ext lba num).
Proof.
  induction depth as [|depth IH]; intros lba num; cbn [MBRTable.read_ebr_partition].
  - apply quiet_raise.
  - pose proof IH as IH'. quiet_walk.
Qed.

Lemma quiet_read_mbr_partitions env self : quiet (MBRTable.read_mbr_partitions env self).
Proof.
  pose proof (quiet_read_ebr_partition env self) as Hebr.
  unfold MBRTable.read_mbr_partitions, MBRTable.get_mbrheader. quiet_walk.
Qed.

Lemma quiet_read_gpt_header self bs : quiet (GPTTable.read_gpt_header self bs).
Proof.
  intros w. unfold GPTTable.read_gpt_header.
  pose proof (quiet_fp_seek (GPTTable.fp self) (1 * bs) w) as Hs.
  destruct (fp_seek (GPTTable.fp self) (1 * bs) w) as [[u|e] w1]; cbn [snd] in Hs.
  - rewrite <- Hs. revert w1 Hs. intros w1 _. revert w1.
    change (quiet (let* data := fp_read (GPTTable.fp self) 92 in
                   let* header := lift (GPTHeader.unpack data) in
                   if bool_decide (GPTHeader.signature header <> b_ "EFI PART")
                   then raise (GPTMissing "Bad GPT signature")
                   else if Qltb (GPTTable.revision header) (inject_Z 1)
                   then raise (GPTError ("Bad GPT revision: "
                                         +:+ pretty (GPTHeader.revision_major header)
                                         +:+ "." +:+ pretty (GPTHeader.revision_minor header)))
                   else if GPTHeader.header_size header <? 92
                   then raise (GPTError ("Bad GPT header size: "
                                         +:+ pretty (GPTHeader.header_size header)))
                   else
                     let* g := lift (uuid_str_upper (as_bytes (GPTHeader.disk_guid header))) in
                     ret (GPTHeader.replace_disk_guid (VStr g) header))).
    quiet_walk.
  - destruct e; exact Hs.
Qed.

Lemma quiet_read_gpt_partitions_body env self hdr i acc :
  quiet (GPTTable.read_gpt_partitions_body env self hdr i acc).
Proof. unfold GPTTable.read_gpt_partitions_body. quiet_walk. Qed.

Lemma quiet_read_gpt_partitions env self bs : quiet (GPTTable.read_gpt_partitions env self bs).
Proof.
  unfold GPTTable.read_gpt_partitions, GPTTable.get_gptheader.
  pose proof (quiet_read_gpt_partitions_body env self) as Hbody.
  quiet_walk.
Qed.

Lemma quiet_read_disklabel_header self bs : quiet (DisklabelTable.read_disklabel_header self bs).
Proof.
  intros w. unfold DisklabelTable.read_disklabel_header.
  pose proof (quiet_fp_seek (DisklabelTable.fp self) (1 * bs) w) as Hs.
  destruct (fp_seek (DisklabelTable.fp self) (1 * bs) w) as [[u|e] w1]; cbn [snd] in Hs.
  - rewrite <- Hs. revert w1 Hs. intros w1 _. revert w1.
    change (quiet (let* data := fp_read (DisklabelTable.fp self) 148 in
                   let* hdr := lift (DisklabelHeader.unpack data 0x94) in
                   if bool_decide (DisklabelHeader.signature1 hdr <> [x57; x45; x56; x82])
                      || bool_decide (DisklabelHeader.signature2 hdr <> [x57; x45; x56; x82])
                   then raise (DisklabelMissing "Bad Disklabel signature")
                   else ret hdr)).
    quiet_walk.
  - destruct e; exact Hs.
Qed.

Lemma quiet_read_disklabel_partitions self bs :
  quiet (DisklabelTable.read_disklabel_partitions self bs).
Proof.
  unfold DisklabelTable.read_disklabel_partitions, DisklabelTable.get_header. quiet_walk.
Qed.

(** X14: No decoder prints.  Whatever the file holds, the MBR and the GPT
    constructors add at most one line to the output, their "Error reading"
    line, and only when they return normally with [info] unset; the
    disklabel constructor never prints. *)
Theorem constructors_print_at_most_one_line env fp name w :
  let m := MBRTable.init env fp name w in
  let g := GPTTable.init env fp name w in
  let d := DisklabelTable.init fp name w in
  (stdout m.2 = stdout w
   \/ (stdout m.2 = stdout w ++ [Line "Error reading MBR!"]
       /\ m.1.2 = Ok tt /\ MBRTable.info m.1.1 = None))
  /\ (stdout g.2 = stdout w
      \/ (stdout g.2 = stdout w ++ [Line "Error reading GPT!"]
          /\ g.1.2 = Ok tt /\ GPTTable.info g.1.1 = None))
  /\ stdout d.2 = stdout w.
Proof.
  intros m g d. split; [|split].
  - subst m. unfold MBRTable.init. cbn [MBRTable.fp].
    pose proof (quiet_check_disk_file fp w) as H1.
    destruct (check_disk_file fp w) as [[u|e] w1]; cbn [snd] in H1 |- *; [|now left].
    pose proof (quiet_fp_seek fp 0 w1) as H2.
    destruct (fp_seek fp 0 w1) as [[u'|e] w2]; cbn [snd] in H2 |- *; [|left; congruence].
    pose proof (MBRTable_init_try_spec env (MBRTable.mk name fp None None) w2 eq_refl) as Hspec.
    assert (H3 : stdout (MBRTable.init_try env (MBRTable.mk name fp None None) w2).2
                 = stdout w2).
    { unfold MBRTable.init_try.
      pose proof (quiet_read_mbr_header (MBRTable.mk name fp None None) w2) as Hh.
      destruct (MBRTable.read_mbr_header _ w2) as [[h|e] wa]; cbn [snd] in Hh |- *;
        [|exact Hh].
      pose proof (quiet_read_mbr_partitions env
                    (MBRTable.set_mbrheader h (MBRTable.mk name fp None None)) wa) as Hp.
      destruct (MBRTable.read_mbr_partitions env _ wa) as [[ps|e] wb]; cbn [snd] in Hp |- *;
        congruence. }
    destruct (MBRTable.init_try env _ w2) as [[self [u''|e]] w3]; cbn [fst snd] in *.
    + left. congruence.
    + unfold MBRTable.init_except.
      destruct (isinstance_MBRMissing e); [left; cbn; congruence|].
      destruct (isinstance_MBRError e); [|left; cbn; congruence].
      right. cbn. split; [congruence|]. split; [reflexivity|exact Hspec].
  - subst g. unfold GPTTable.init. cbn [GPTTable.fp].
    pose proof (quiet_check_disk_file fp w) as H1.
    destruct (check_disk_file fp w) as [[u|e] w1]; cbn [snd] in H1 |- *; [|now left].
    pose proof (quiet_fp_seek fp 0 w1) as H2.
    destruct (fp_seek fp 0 w1) as [[u'|e] w2]; cbn [snd] in H2 |- *; [|left; congruence].
    pose proof (quiet_query_blocksize fp w2) as Hq.
    destruct (query_blocksize fp w2) as [[bs|e] wq]; cbn [snd] in Hq |- *;
      [|left; congruence].
    pose proof (GPTTable_init_try_spec env (GPTTable.mk name fp None None) bs wq eq_refl)
      as Hspec.
    assert (H3 : stdout (GPTTable.init_try env (GPTTable.mk name fp None None) bs wq).2
                 = stdout wq).
    { unfold GPTTable.init_try.
      pose proof (quiet_read_gpt_header (GPTTable.mk name fp None None) bs wq) as Hh.
      destruct (GPTTable.read_gpt_header _ bs wq) as [[h|e] wa]; cbn [snd] in Hh |- *;
        [|exact Hh].
      pose proof (quiet_read_gpt_partitions env
                    (GPTTable.set_gptheader h (GPTTable.mk name fp None None)) bs wa) as Hp.
      destruct (GPTTable.read_gpt_partitions env _ bs wa) as [[ps|e] wb]; cbn [snd] in Hp |- *;
        congruence. }
    destruct (GPTTable.init_try env _ bs wq) as [[self [u''|e]] w3]; cbn [fst snd] in *.
    + left. congruence.
    + unfold GPTTable.init_except.
      destruct (isinstance_GPTMissing e); [left; cbn; congruence|].
      destruct (isinstance_GPTError e); [|left; cbn; congruence].
      right. cbn. split; [congruence|]. split; [reflexivity|exact Hspec].
  - subst d. unfold DisklabelTable.init. cbn [DisklabelTable.fp].
    pose proof (quiet_check_disk_file fp w) as H1.
    destruct (check_disk_file fp w) as [[u|e] w1]; cbn [snd] in H1 |- *; [|assumption].
    pose proof (quiet_fp_seek fp 0 w1) as H2.
    destruct (fp_seek fp 0 w1) as [[u'|e] w2]; cbn [snd] in H2 |- *; [|congruence].
    pose proof (quiet_query_blocksize fp w2) as Hq.
    destruct (query_blocksize fp w2) as [[bs|e] wq]; cbn [snd] in Hq |- *; [|congruence].
    assert (H3 : stdout (DisklabelTable.init_try (DisklabelTable.mk fp name None None None)
                           bs wq).2 = stdout wq).
    { unfold DisklabelTable.init_try.
      pose proof (quiet_read_disklabel_header (DisklabelTable.mk fp name None None None) bs wq)
        as Hh.
      destruct (DisklabelTable.read_disklabel_header _ bs wq) as [[h|e] wa];
        cbn [snd] in Hh |- *; [|exact Hh].
      pose proof (quiet_read_disklabel_partitions
                    (DisklabelTable.set_header h (DisklabelTable.mk fp name None None None))
                    bs wa) as Hp.
      destruct (DisklabelTable.read_disklabel_partitions _ bs wa) as [[ps|e] wb];
        cbn [snd] in Hp |- *; congruence. }
    destruct (DisklabelTable.init_try _ bs wq) as [[self [u''|e]] w3]; cbn [fst snd] in *.
    + congruence.
    + unfold DisklabelTable.init_except.
      destruct (isinstance_DisklabelMissing e); [cbn; congruence|].
      destruct (isinstance_DisklabelError e); cbn; congruence.
Qed.


(** ** The GPT entry array: entry sizes and truncation *)

Lemma GPTHeader_unpack_nonneg data h :
  GPTHeader.unpack data = Ok h ->
  0 <= GPTHeader.revision_major h /\ 0 <= GPTHeader.revision_minor h.
Proof.
  unfold GPTHeader.unpack. case_bool_decide; [|discriminate].
  intros [= <-]. cbn. split; apply unpack_uint_nonneg.
Qed.

(** A major revision number of 1 or more passes the revision test. *)
Lemma revision_major_passes data h :
  GPTHeader.unpack data = Ok h ->
  1 <= GPTHeader.revision_major h ->
  Qltb (GPTTable.revision h) (inject_Z 1) = false.
Proof.
  intros Hun Hmaj. destruct (GPTHeader_unpack_nonneg _ _ Hun) as [H0 H1].
  destruct (Qltb (GPTTable.revision h) (inject_Z 1)) eqn:Eq; [|reflexivity].
  apply Qltb_lt, revision_lt_1 in Eq; [lia|assumption..].
Qed.

(** [__init__] on a header that passes the three checks. *)
Lemma GPTTable_init_valid env fp name w f h :
  files w !! fp = Some f ->
  (forall p, f_bad f p = false) ->
  0 <= default 512 (f_blksz f) <= max_off ->
  GPTHeader.unpack (slice (Z.to_nat (default 512 (f_blksz f))) 92 (f_data f)) = Ok h ->
  GPTHeader.signature h = b_ "EFI PART" ->
  Qltb (GPTTable.revision h) (inject_Z 1) = false ->
  92 <= GPTHeader.header_size h ->
  let bs := default 512 (f_blksz f) in
  exists g w1,
    uuid_str_upper (as_bytes (GPTHeader.disk_guid h)) = Ok g
    /\ files w1 !! fp = Some (set_pos (bs + 92) f)
    /\ stdout w1 = stdout w
    /\ GPTTable.init env fp name w =
       let h' := GPTHeader.replace_disk_guid (VStr g) h in
       match GPTTable.read_gpt_partitions env (GPTTable.mk name fp None (Some h')) bs w1 with
       | (Ok ps, w2) =>
           (GPTTable.mk name fp (Some (GPTTable.make_info bs h' ps)) (Some h'), Ok tt, w2)
       | (Raise e, w2) => GPTTable.init_except (GPTTable.mk name fp None (Some h')) e w2
       end.
Proof.
  intros Hf Hbad Hbs Hun Hsig Hrev Hsz bs.
  destruct (GPTTable_init_whole env fp name w f h Hf Hbad Hbs Hun)
    as (g & w1 & Hg & Hf1 & Hso & _ & Hinit).
  exists g, w1. split; [exact Hg|]. split; [exact Hf1|]. split; [exact Hso|].
  rewrite Hinit. rewrite bool_decide_eq_false_2 by (intros Hne; now apply Hne).
  rewrite Hrev.
  destruct (GPTHeader.header_size h <? 92) eqn:Es; [apply Z.ltb_lt in Es; lia|].
  reflexivity.
Qed.

Lemma read_gpt_partitions_first env self h bs w f :
  GPTTable.gptheader self = Some h ->
  files w !! GPTTable.fp self = Some f ->
  (forall p, f_bad f p = false) ->
  0 <= GPTHeader.part_entry_start_lba h * bs <= max_off ->
  0 < GPTHeader.num_part_entries h ->
  exists w1 w2,
    GPTTable.read_gpt_partitions env self bs w
    = (let* parts := GPTTable.read_gpt_partitions_body env self h 0 [] in
       for_ (seqZ 1 (GPTHeader.num_part_entries h - 1))
         (GPTTable.read_gpt_partitions_body env self h) parts) w1
    /\ fp_read (GPTTable.fp self) (GPTHeader.part_entry_size h) w1
       = (Ok (slice (Z.to_nat (GPTHeader.part_entry_start_lba h * bs))
                (Z.to_nat (GPTHeader.part_entry_size h)) (f_data f)), w2).
Proof.
  intros Hself Hf Hbad Hoff Hnum.
  set (off := GPTHeader.part_entry_start_lba h * bs) in *.
  set (w1 := log_io (EvSeek (GPTTable.fp self) off)
               (set_file (GPTTable.fp self) (set_pos off f) w)).
  assert (Hf1 : files w1 !! GPTTable.fp self = Some (set_pos off f)).
  { unfold w1. rewrite files_log_io. apply files_set_file_eq. }
  pose proof (fp_read_Ok _ (GPTHeader.part_entry_size h) _ _ Hf1 (Hbad _)) as Hread.
  cbn [f_pos f_data set_pos] in Hread.
  exists w1. eexists. split; [|exact Hread].
  unfold GPTTable.read_gpt_partitions, GPTTable.get_gptheader. rewrite Hself.
  rewrite (bind_Ok (ret h) _ w h w eq_refl).
  rewrite (bind_Ok _ _ _ _ _ (fp_seek_in_Ok env _ _ _ _ Hf Hoff)). fold w1.
  unfold py_range. rewrite Z.sub_0_r, seqZ_cons by lia.
  cbn [for_]. now rewrite <- Z.sub_1_r.
Qed.



(** X19: A header that passes the three checks and declares entries
    narrower than 128 bytes, with an entry array that starts within the
    image, is reported as a damaged GPT: the first read is short, the
    constructor prints "Error reading GPT!" and returns with [info]
    unset. *)
Theorem gpt_narrow_entries_reported env fp name w f h :
  files w !! fp = Some f ->
  (forall p, f_bad f p = false) ->
  let bs := default 512 (f_blksz f) in
  0 <= bs <= max_off ->
  GPTHeader.unpack (slice (Z.to_nat bs) 92 (f_data f)) = Ok h ->
  GPTHeader.signature h = b_ "EFI PART" ->
  Qltb (GPTTable.revision h) (inject_Z 1) = false ->
  92 <= GPTHeader.header_size h ->
  0 < GPTHeader.num_part_entries h ->
  GPTHeader.part_entry_size h < 128 ->
  0 <= GPTHeader.part_entry_start_lba h * bs <= max_off ->
  (Z.to_nat (GPTHeader.part_entry_start_lba h * bs) <= length (f_data f))%nat ->
  (GPTTable.init env fp name w).1.2 = Ok tt
  /\ GPTTable.info (GPTTable.init env fp name w).1.1 = None
  /\ stdout (GPTTable.init env fp name w).2 = stdout w ++ [Line "Error reading GPT!"].
Proof.
  intros Hf Hbad bs Hbs Hun Hsig Hrev Hsz Hnum Hnarrow Hoff Hin.
  destruct (GPTTable_init_valid env fp name w f h Hf Hbad Hbs Hun Hsig Hrev Hsz)
    as (g & w1 & _ & Hf1 & Hso & Hinit).
  fold bs in Hf1, Hinit. cbv zeta in Hinit.
  set (h' := GPTHeader.replace_disk_guid (VStr g) h) in *.
  set (self := GPTTable.mk name fp None (Some h')) in *.
  pose proof (quiet_read_gpt_partitions env self bs w1) as Hq.
  destruct (read_gpt_partitions_first env self h' bs w1 _ eq_refl Hf1 Hbad Hoff Hnum)
    as (wa & wb & Hrun & Hread).
  cbn [f_data set_pos GPTHeader.part_entry_size GPTHeader.replace_disk_guid h'] in Hread.
  change (GPTHeader.part_entry_start_lba h') with (GPTHeader.part_entry_start_lba h) in Hread.
  assert (Hres : (GPTTable.read_gpt_partitions env self bs w1).1
                 = Raise (GPTError "Short GPT partition entry #1")).
  { rewrite Hrun. unfold GPTTable.read_gpt_partitions_body at 1.
    cbn [GPTHeader.part_entry_size GPTHeader.replace_disk_guid h'].
    unfold bind at 1. unfold bind at 1. rewrite Hread.
    set (data := slice _ _ (f_data f)).
    assert (Hd : (length data < 128)%nat).
    { unfold data, slice. rewrite length_take. lia. }
    destruct (Z.of_nat (length data) <? 128) eqn:E; [|apply Z.ltb_ge in E; lia].
    reflexivity. }
  rewrite Hinit.
  destruct (GPTTable.read_gpt_partitions env self bs w1) as [[ps|e] w2];
    cbn [fst snd] in Hres, Hq; [discriminate|].
  injection Hres as ->. cbn. repeat split. congruence.
Qed.

Lemma gpt_narrow_entries_reported_witness :
  stdout (GPTTable.init Image.imported 0%nat "disk.img"
            (Image.disk 0%nat Sample.gpt_narrow_entries)).2
  = [Line "Error reading GPT!"].
Proof.
  assert (Hh : exists h,
             GPTHeader.unpack (slice 512 92 Sample.gpt_narrow_entries) = Ok h
             /\ GPTHeader.signature h = b_ "EFI PART"
             /\ GPTHeader.revision_major h = 1
             /\ GPTHeader.header_size h = 92
             /\ GPTHeader.num_part_entries h = 1
             /\ GPTHeader.part_entry_size h = 64
             /\ GPTHeader.part_entry_start_lba h = 2).
  { vm_compute. eexists. repeat split. }
  destruct Hh as (h & Hun & Hsig & Hmaj & Hsz & Hnum & Hes & Hst).
  refine (proj2 (proj2 (gpt_narrow_entries_reported Image.imported 0%nat "disk.img"
                   (Image.disk 0%nat Sample.gpt_narrow_entries)
                   (Image.regular Sample.gpt_narrow_entries) h
                   eq_refl (fun _ => eq_refl) _ Hun Hsig _ _ _ _ _ _))).
  - vm_compute. split; discriminate.
  - apply (revision_major_passes _ _ Hun). rewrite Hmaj. lia.
  - rewrite Hsz. lia.
  - rewrite Hnum. lia.
  - rewrite Hes. lia.
  - rewrite Hst. vm_compute. split; discriminate.
  - rewrite Hst. apply Nat.leb_le. vm_compute. reflexivity.
Defined.


Lemma for_app {A S} (xs ys : list A) (body : A -> S -> M S) s w :
  for_ (xs ++ ys) body s w = (let* s' := for_ xs body s in for_ ys body s') w.
Proof.
  revert s w. induction xs as [|x xs IH]; intros s w; cbn [app for_].
  - reflexivity.
  - unfold bind. destruct (body x s w) as [[s'|e] w1]; [|reflexivity].
    rewrite IH. reflexivity.
Qed.






(** ** The disklabel constructor *)

Lemma DisklabelHeader_unpack_size data sz hdr :
  DisklabelHeader.unpack data sz = Ok hdr ->
  length data = 148%nat
  /\ DisklabelHeader.size hdr = sz
  /\ DisklabelHeader.signature1 hdr = slice 0 4 data
  /\ DisklabelHeader.signature2 hdr = slice 132 4 data
  /\ DisklabelHeader.slices_total hdr = unpack_uint (slice 138 2 data).
Proof.
  unfold DisklabelHeader.unpack. case_bool_decide as Hlen; [|discriminate].
  intros [= <-]. repeat split. exact Hlen.
Qed.

(** [__init__] on an open, readable file whose header region is whole. *)
Lemma DisklabelTable_init_whole fp name w f hdr :
  files w !! fp = Some f ->
  (forall p, f_bad f p = false) ->
  0 <= default 512 (f_blksz f) <= max_off ->
  DisklabelHeader.unpack (slice (Z.to_nat (default 512 (f_blksz f))) 148 (f_data f)) 0x94
  = Ok hdr ->
  let bs := default 512 (f_blksz f) in
  exists w1,
    files w1 !! fp = Some (set_pos (bs + 148) f)
    /\ stdout w1 = stdout w
    /\ io_log w1 = io_log w ++ [EvSeek fp 0; EvSeek fp bs; EvRead fp bs 148]
    /\ DisklabelTable.init fp name w =
       if bool_decide (DisklabelHeader.signature1 hdr <> [x57; x45; x56; x82])
          || bool_decide (DisklabelHeader.signature2 hdr <> [x57; x45; x56; x82])
       then (DisklabelTable.mk fp name None None None, Ok tt, w1)
       else
         match DisklabelTable.read_disklabel_partitions
                 (DisklabelTable.mk fp name None (Some hdr) None) bs w1 with
         | (Ok ps, w2) =>
             (DisklabelTable.mk fp name (Some (DisklabelInfo.mk 512 hdr ps)) (Some hdr)
                (Some ps), Ok tt, w2)
         | (Raise e, w2) =>
             DisklabelTable.init_except (DisklabelTable.mk fp name None (Some hdr) None) e w2
         end.
Proof.
  intros Hf Hbad Hbs Hun bs. fold bs in Hbs, Hun.
  destruct (DisklabelHeader_unpack_size _ _ _ Hun) as (Hlen & _).
  set (w0 := log_io (EvSeek fp 0) (set_file fp (set_pos 0 f) w)).
  assert (Hf0 : files w0 !! fp = Some (set_pos 0 f)).
  { unfold w0. rewrite files_log_io. apply files_set_file_eq. }
  set (wa := log_io (EvSeek fp bs) (set_file fp (set_pos bs (set_pos 0 f)) w0)).
  assert (Hfa : files wa !! fp = Some (set_pos bs f)).
  { unfold wa. rewrite files_log_io, files_set_file_eq. now rewrite set_pos_set_pos. }
  pose proof (fp_read_Ok fp 148 wa _ Hfa (Hbad _)) as Hread.
  cbn [f_pos f_data set_pos] in Hread. change (Z.to_nat 148) with 148%nat in Hread.
  rewrite Hlen, set_pos_set_pos in Hread. change (Z.of_nat 148) with 148 in Hread.
  set (w1 := log_io (EvRead fp bs 148) (set_file fp (set_pos (bs + 148) f) wa)) in Hread.
  exists w1. split; [|split; [|split]].
  - unfold w1. rewrite files_log_io. apply files_set_file_eq.
  - reflexivity.
  - unfold w1, wa, w0. cbn [io_log log_io set_file]. now rewrite <- !app_assoc.
  - rewrite (DisklabelTable_init_open fp name w f Hf). fold bs w0.
    unfold DisklabelTable.init_try, DisklabelTable.read_disklabel_header.
    cbn [DisklabelTable.fp].
    rewrite Z.mul_1_l, (fp_seek_Ok _ _ _ _ Hf0 Hbs). fold wa.
    rewrite (bind_Ok _ _ _ _ _ Hread).
    unfold lift at 1. unfold bind at 1. rewrite Hun.
    destruct (bool_decide (DisklabelHeader.signature1 hdr <> [x57; x45; x56; x82])
              || bool_decide (DisklabelHeader.signature2 hdr <> [x57; x45; x56; x82]));
      [reflexivity|].
    unfold ret.
    cbn [DisklabelTable.set_header DisklabelTable.filename DisklabelTable.fp
         DisklabelTable.info DisklabelTable.partitions].
    destruct (DisklabelTable.read_disklabel_partitions _ bs w1) as [[ps|e] w2]; reflexivity.
Qed.

(** X21: A device or image whose second block does not carry the disklabel
    magic at both offset 0 and offset 132 has no disklabel as far as the
    constructor is concerned: [info] stays unset and nothing is printed. *)
Theorem disklabel_unsigned_is_silent fp name w f :
  files w !! fp = Some f ->
  (forall p, f_bad f p = false) ->
  let bs := default 512 (f_blksz f) in
  0 <= bs <= max_off ->
  (Z.to_nat bs + 148 <= length (f_data f))%nat ->
  slice (Z.to_nat bs) 4 (f_data f) <> [x57; x45; x56; x82]
  \/ slice (Z.to_nat bs + 132) 4 (f_data f) <> [x57; x45; x56; x82] ->
  (DisklabelTable.init fp name w).1 = (DisklabelTable.mk fp name None None None, Ok tt)
  /\ stdout (DisklabelTable.init fp name w).2 = stdout w
  /\ io_log (DisklabelTable.init fp name w).2
     = io_log w ++ [EvSeek fp 0; EvSeek fp bs; EvRead fp bs 148].
Proof.
  intros Hf Hbad bs Hbs Hlen Hsig.
  assert (Hun : exists hdr,
             DisklabelHeader.unpack (slice (Z.to_nat bs) 148 (f_data f)) 0x94 = Ok hdr).
  { unfold DisklabelHeader.unpack.
    rewrite bool_decide_eq_true_2 by (apply length_slice_le; lia). eauto. }
  destruct Hun as (hdr & Hun).
  destruct (DisklabelHeader_unpack_size _ _ _ Hun) as (_ & _ & H1 & H2 & _).
  rewrite slice_slice, Nat.add_0_r in H1 by lia. rewrite slice_slice in H2 by lia.
  destruct (DisklabelTable_init_whole fp name w f hdr Hf Hbad Hbs Hun)
    as (w1 & _ & Hso & Hlog & Hinit).
  rewrite Hinit, H1, H2.
  assert (Hor : bool_decide (slice (Z.to_nat bs) 4 (f_data f) <> [x57; x45; x56; x82])
                || bool_decide (slice (Z.to_nat bs + 132) 4 (f_data f)
                                <> [x57; x45; x56; x82]) = true).
  { destruct Hsig as [Hs|Hs].
    - now rewrite bool_decide_eq_true_2.
    - rewrite (bool_decide_eq_true_2 _ Hs). apply orb_true_r. }
  rewrite Hor. repeat split; assumption.
Qed.

Lemma disklabel_unsigned_is_silent_witness :
  (DisklabelTable.init 0%nat "disk.img" (Image.disk 0%nat Image.chain3)).1
  = (DisklabelTable.mk 0%nat "disk.img" None None None, Ok tt).
Proof.
  refine (proj1 (disklabel_unsigned_is_silent 0%nat "disk.img"
                   (Image.disk 0%nat Image.chain3) (Image.regular Image.chain3)
                   eq_refl (fun _ => eq_refl) _ _ _)).
  - vm_compute. split; discriminate.
  - apply Nat.leb_le. vm_compute. reflexivity.
  - left. vm_compute. discriminate.
Defined.

Lemma disklabel_entry_Some partstr num p :
  disklabel_entry partstr num = Some p ->
  DisklabelPartition.index p = num
  /\ DisklabelPartition.type p = unpack_uint (slice 12 1 partstr)
  /\ DisklabelPartition.type p <> 0
  /\ DisklabelPartition.type_str p
     = default "Unknown" (DISKLABEL_PARTITION_TYPE !! DisklabelPartition.type p)
  /\ DisklabelPartition.sectors_total p = unpack_uint (slice 0 4 partstr)
  /\ DisklabelPartition.first_sector p = unpack_uint (slice 4 4 partstr).
Proof.
  unfold disklabel_entry, DisklabelPartition.unpack.
  case_bool_decide as Hlen; [|discriminate].
  cbn [DisklabelPartition.type].
  destruct (unpack_uint (slice 12 1 partstr) =? 0) eqn:Ety; [discriminate|].
  apply Z.eqb_neq in Ety.
  destruct (DISKLABEL_PARTITION_TYPE !! unpack_uint (slice 12 1 partstr)) as [s|] eqn:El;
    intros Hp; apply (inj Some) in Hp; subst p;
    cbn [DisklabelPartition.index DisklabelPartition.type DisklabelPartition.type_str
         DisklabelPartition.sectors_total DisklabelPartition.first_sector
         DisklabelPartition.replace_type_str];
    rewrite ?El; repeat split; assumption.
Qed.

(** The loop of [read_disklabel_partitions] over slots that lie within
    the file. *)
Lemma read_disklabel_partitions_loop self hdr bs (d : bytes) :
  forall nums acc w,
    (exists f, files w !! DisklabelTable.fp self = Some f /\ f_data f = d
               /\ forall p, f_bad f p = false) ->
    Forall (fun num =>
              0 <= bs + DisklabelHeader.size hdr + num * 0x10 <= max_off
              /\ (Z.to_nat (bs + DisklabelHeader.size hdr + num * 0x10) + 16 <= length d)%nat)
      nums ->
    exists w',
      for_ nums
        (fun num parts =>
           let* _ := fp_seek (DisklabelTable.fp self)
                       (bs + DisklabelHeader.size hdr + num * 0x10) in
           let* partstr := fp_read (DisklabelTable.fp self) 0x10 in
           let* part := lift (DisklabelPartition.unpack partstr num "Unknown") in
           if DisklabelPartition.type part =? 0 then ret parts
           else
             match DISKLABEL_PARTITION_TYPE !! DisklabelPartition.type part with
             | Some ptype => ret (parts ++ [DisklabelPartition.replace_type_str ptype part])
             | None => ret (parts ++ [part])
             end) acc w
      = (Ok (acc ++ omap (fun num =>
                            disklabel_entry
                              (slice (Z.to_nat (bs + DisklabelHeader.size hdr + num * 0x10))
                                 16 d) num) nums), w').
Proof.
  induction nums as [|num nums IH]; intros acc w Hst Hall.
  - exists w. cbn. now rewrite app_nil_r.
  - apply Forall_cons in Hall as [[Hoff Hin] Hall].
    destruct Hst as (f & Hf & Hd & Hbad).
    set (off := bs + DisklabelHeader.size hdr + num * 0x10) in *.
    set (h := DisklabelTable.fp self) in *.
    set (wa := log_io (EvSeek h off) (set_file h (set_pos off f) w)).
    assert (Hfa : files wa !! h = Some (set_pos off f)).
    { unfold wa. rewrite files_log_io. apply files_set_file_eq. }
    pose proof (fp_read_Ok h 0x10 wa _ Hfa (Hbad _)) as Hread.
    cbn [f_pos f_data set_pos] in Hread. rewrite Hd in Hread.
    change (Z.to_nat 16) with 16%nat in Hread.
    set (partstr := slice (Z.to_nat off) 16 d) in *.
    assert (Hlen : length partstr = 16%nat) by (apply length_slice_le; lia).
    match type of Hread with _ = (_, ?x) => set (wb := x) in Hread end.
    assert (Hstb : exists f', files wb !! h = Some f' /\ f_data f' = d
                              /\ forall p, f_bad f' p = false).
    { eexists. split; [unfold wb; rewrite files_log_io; apply files_set_file_eq|].
      split; [exact Hd|exact Hbad]. }
    set (acc' := match disklabel_entry partstr num with
                 | Some p => acc ++ [p]
                 | None => acc
                 end).
    destruct (IH acc' wb Hstb Hall) as (w' & Hloop).
    exists w'. cbn [for_]. rewrite (bind_Ok _ _ w acc' wb).
    + rewrite Hloop. f_equal. f_equal. cbn [omap list_omap].
      change (slice (Z.to_nat (bs + DisklabelHeader.size hdr + num * 16)) 16 d) with partstr.
      unfold acc'. destruct (disklabel_entry partstr num); [|reflexivity].
      now rewrite <- app_assoc.
    + rewrite (bind_Ok _ _ _ _ _ (fp_seek_Ok _ _ _ _ Hf Hoff)). fold wa.
      rewrite (bind_Ok _ _ _ _ _ Hread).
      unfold acc', disklabel_entry, lift, bind, ret, DisklabelPartition.unpack.
      rewrite bool_decide_eq_true_2 by exact Hlen.
      cbn [DisklabelPartition.type].
      destruct (unpack_uint (slice 12 1 partstr) =? 0); [reflexivity|].
      destruct (DISKLABEL_PARTITION_TYPE !! unpack_uint (slice 12 1 partstr)); reflexivity.
Qed.


Lemma DisklabelTable_init_decoded fp name w f hdr :
  files w !! fp = Some f ->
  (forall p, f_bad f p = false) ->
  let bs := default 512 (f_blksz f) in
  0 <= bs ->
  DisklabelHeader.unpack (slice (Z.to_nat bs) 148 (f_data f)) 0x94 = Ok hdr ->
  DisklabelHeader.signature1 hdr = [x57; x45; x56; x82] ->
  DisklabelHeader.signature2 hdr = [x57; x45; x56; x82] ->
  (Z.to_nat bs + 148 + 16 * Z.to_nat (DisklabelHeader.slices_total hdr)
   <= length (f_data f))%nat ->
  Z.of_nat (length (f_data f)) <= max_off ->
  let parts := omap (fun num => disklabel_entry (disklabel_slot (f_data f) bs num) num)
                 (seqZ 0 (DisklabelHeader.slices_total hdr)) in
  (DisklabelTable.init fp name w).1
  = (DisklabelTable.mk fp name (Some (DisklabelInfo.mk 512 hdr parts)) (Some hdr) (Some parts),
     Ok tt)
  /\ stdout (DisklabelTable.init fp name w).2 = stdout w.
Proof.
  intros Hf Hbad bs Hbs Hun Hs1 Hs2 Hlen Hmax parts.
  destruct (DisklabelHeader_unpack_size _ _ _ Hun) as (_ & Hsz & _).
  assert (Hbs' : 0 <= bs <= max_off) by lia.
  destruct (DisklabelTable_init_whole fp name w f hdr Hf Hbad Hbs' Hun)
    as (w1 & Hf1 & Hso & _ & Hinit).
  fold bs in Hf1, Hinit.
  rewrite Hs1, Hs2 in Hinit.
  rewrite !bool_decide_eq_false_2 in Hinit by (intros Hne; now apply Hne).
  cbn [orb] in Hinit.
  set (self := DisklabelTable.mk fp name None (Some hdr) None) in *.
  pose proof (quiet_read_disklabel_partitions self bs w1) as Hq.
  assert (Hrun : exists w2, DisklabelTable.read_disklabel_partitions self bs w1
                            = (Ok parts, w2)).
  { unfold DisklabelTable.read_disklabel_partitions, DisklabelTable.get_header.
    cbn [DisklabelTable.header self].
    rewrite (bind_Ok (ret hdr) _ w1 hdr w1 eq_refl).
    unfold py_range. rewrite Z.sub_0_r.
    destruct (read_disklabel_partitions_loop self hdr bs (f_data f)
                (seqZ 0 (DisklabelHeader.slices_total hdr)) [] w1) as (w2 & Hloop).
    - exists (set_pos (bs + 148) f). repeat split; [exact Hf1|exact Hbad].
    - apply Forall_forall. intros num Hin. apply elem_of_seqZ in Hin.
      rewrite Hsz. lia.
    - exists w2. rewrite Hloop. cbn [app]. unfold parts, disklabel_slot.
      now rewrite Hsz. }
  destruct Hrun as (w2 & Hrun). rewrite Hrun in Hinit, Hq. cbn [snd] in Hq.
  rewrite Hinit. cbn [fst snd]. split; [reflexivity|congruence].
Qed.

(** X22: A disklabel whose header carries the magic twice and whose slot
    table lies within the image is decoded to the slots with a non-zero
    type code, in slot order, each numbered from 0 by its slot and named
    from the type table, "Unknown" when the code is not in it; the result
    records a sector size of 512 whatever block size located the header. *)
Theorem disklabel_slots_decoded fp name w f hdr :
  files w !! fp = Some f ->
  (forall p, f_bad f p = false) ->
  let bs := default 512 (f_blksz f) in
  0 <= bs ->
  DisklabelHeader.unpack (slice (Z.to_nat bs) 148 (f_data f)) 0x94 = Ok hdr ->
  DisklabelHeader.signature1 hdr = [x57; x45; x56; x82] ->
  DisklabelHeader.signature2 hdr = [x57; x45; x56; x82] ->
  (Z.to_nat bs + 148 + 16 * Z.to_nat (DisklabelHeader.slices_total hdr)
   <= length (f_data f))%nat ->
  Z.of_nat (length (f_data f)) <= max_off ->
  let parts := omap (fun num => disklabel_entry (disklabel_slot (f_data f) bs num) num)
                 (seqZ 0 (DisklabelHeader.slices_total hdr)) in
  (DisklabelTable.init fp name w).1
  = (DisklabelTable.mk fp name (Some (DisklabelInfo.mk 512 hdr parts)) (Some hdr) (Some parts),
     Ok tt)
  /\ Forall (fun p =>
               0 <= DisklabelPartition.index p < DisklabelHeader.slices_total hdr
               /\ DisklabelPartition.type p
                  = unpack_uint (slice 12 1 (disklabel_slot (f_data f) bs
                                               (DisklabelPartition.index p)))
               /\ DisklabelPartition.type p <> 0
               /\ DisklabelPartition.type_str p
                  = default "Unknown"
                      (DISKLABEL_PARTITION_TYPE !! DisklabelPartition.type p)) parts
  /\ stdout (DisklabelTable.init fp name w).2 = stdout w.
Proof.
  intros Hf Hbad bs Hbs Hun Hs1 Hs2 Hlen Hmax parts.
  destruct (DisklabelTable_init_decoded fp name w f hdr Hf Hbad Hbs Hun Hs1 Hs2 Hlen Hmax)
    as [Hinit Hso].
  split; [exact Hinit|]. split; [|exact Hso].
  apply Forall_forall. intros p Hp.
  apply list_elem_of_omap in Hp as (num & Hnum & Hp).
  apply elem_of_seqZ in Hnum.
  apply disklabel_entry_Some in Hp as (Hi & Hty & Hnz & Hstr & _).
  rewrite Hi. repeat split; try assumption; lia.
Qed.

Lemma disklabel_slots_decoded_witness :
  option_map (fun i => map (fun p => (DisklabelPartition.index p,
                                      DisklabelPartition.type_str p))
                         (DisklabelInfo.partitions i))
    (DisklabelTable.info (DisklabelTable.init 0%nat "disk.img"
                            (Image.disk 0%nat Sample.disklabel)).1.1)
  = Some [(0, "4.2BSD fast file system (FFS)"); (2, "Unknown")].
Proof.
  assert (Hh : exists hdr,
             DisklabelHeader.unpack (slice 512 148 Sample.disklabel) 0x94 = Ok hdr
             /\ DisklabelHeader.signature1 hdr = [x57; x45; x56; x82]
             /\ DisklabelHeader.signature2 hdr = [x57; x45; x56; x82]
             /\ DisklabelHeader.slices_total hdr = 3).
  { vm_compute. eexists. repeat split. }
  destruct Hh as (hdr & Hun & Hs1 & Hs2 & Hn).
  destruct (disklabel_slots_decoded 0%nat "disk.img" (Image.disk 0%nat Sample.disklabel)
              (Image.regular Sample.disklabel) hdr eq_refl (fun _ => eq_refl))
    as (Hinit & _).
  - vm_compute. discriminate.
  - exact Hun.
  - exact Hs1.
  - exact Hs2.
  - rewrite Hn. apply Nat.leb_le. vm_compute. reflexivity.
  - apply Z.leb_le. vm_compute. reflexivity.
  - rewrite Hinit. cbn [fst DisklabelTable.info option_map DisklabelInfo.partitions].
    rewrite Hn. vm_compute. reflexivity.
Defined.


(** ** The reports *)

Lemma MBR_rows_outcome (ps : list (option MBRPartition.t)) w :
  (for_ ps
     (fun part _ =>
        let* _ := print (str_mul "-" 88) in
        match part with
        | None => raise (AttributeError "'NoneType' object has no attribute 'index'")
        | Some p =>
            print_fmt "                |{n: ^9}|{type: ^23}|{from_s: ^10}|{size_s: ^12}| {boot: <2}ID=0x{code: <4X}|"
              [VInt (MBRPartition.index p);
               VStr (if MBRPartition.active p then "*" else "");
               VInt (MBRPartition.lba p);
               VInt (MBRPartition.sectors p);
               VInt (MBRPartition.type p);
               VStr (MBRPartition.type_str p)]
        end) tt w).1
  = if forallb (fun o => bool_decide (is_Some o)) ps then Ok tt
    else Raise (AttributeError "'NoneType' object has no attribute 'index'").
Proof.
  revert w. induction ps as [|[p|] ps IH]; intros w; cbn [for_ forallb].
  - reflexivity.
  - rewrite bool_decide_eq_true_2 by eauto. cbn [andb]. unfold bind at 1.
    unfold bind at 1. unfold print, print_fmt, print_line at 1 2. apply IH.
  - rewrite bool_decide_eq_false_2 by (intros [? ?]; discriminate). reflexivity.
Qed.

(** X24: The MBR report prints "No MBR" for an object without [info], and
    otherwise runs to its end exactly when no entry of the partition list
    is the placeholder [None]; on the first placeholder it raises
    AttributeError.  In both cases the final line is "---" when it
    returns, and it neither seeks nor reads. *)
Theorem mbr_report_outcome self w :
  match MBRTable.info self with
  | None =>
      MBRTable_pprint self w
      = (Ok tt, {| files := files w; stdout := stdout w ++ [Line "No MBR"; Line "---"];
                   io_log := io_log w |})
  | Some i =>
      (MBRTable_pprint self w).1
      = if forallb (fun o => bool_decide (is_Some o)) (MBRInfo.partitions i) then Ok tt
        else Raise (AttributeError "'NoneType' object has no attribute 'index'")
  end.
Proof.
  unfold MBRTable_pprint. destruct (MBRTable.info self) as [i|].
  - unfold bind at 1. unfold bind at 1. unfold bind at 1. unfold bind at 1.
    unfold bind at 1. unfold bind at 1. unfold bind at 1. unfold bind at 1.
    unfold print at 1 2 3 4 5, print_fmt at 1, print_line at 1 2 3 4 5 6.
    match goal with
    | |- context [for_ _ ?body tt ?w0] =>
        pose proof (MBR_rows_outcome (MBRInfo.partitions i) w0) as Hrows;
        destruct (for_ (MBRInfo.partitions i) body tt w0) as [[u|e] w1]
    end; cbn [fst] in Hrows |- *.
    + rewrite <- Hrows. destruct u. reflexivity.
    + rewrite <- Hrows. reflexivity.
  - unfold bind, print, print_line. cbn. now rewrite <- app_assoc.
Qed.

Lemma length_indexer : length indexer = 26%nat.
Proof. reflexivity. Qed.

Lemma Disklabel_rows_outcome (ps : list DisklabelPartition.t) w :
  Forall (fun p => 0 <= DisklabelPartition.index p) ps ->
  (for_ ps
     (fun part _ =>
        let* _ := print (str_mul "-" 88) in
        match indexer !! Z.to_nat (DisklabelPartition.index part) with
        | None => raise (IndexError "list index out of range")
        | Some letter =>
            print_fmt "              |{n: ^9}|{type: ^23}|{from_s: ^10}|{size_s: ^12}| ID=0x{code: <4X}  |"
              [VStr letter;
               VInt (DisklabelPartition.first_sector part);
               VInt (DisklabelPartition.sectors_total part);
               VInt (DisklabelPartition.type part);
               VStr (DisklabelPartition.type_str part)]
        end) tt w).1
  = if forallb (fun p => DisklabelPartition.index p <? 26) ps then Ok tt
    else Raise (IndexError "list index out of range").
Proof.
  intros Hall. revert w. induction Hall as [|p ps Hp _ IH]; intros w; cbn [for_ forallb].
  - reflexivity.
  - unfold bind at 1. unfold bind at 1. unfold print, print_line at 1.
    destruct (DisklabelPartition.index p <? 26) eqn:E; cbn [andb].
    + apply Z.ltb_lt in E.
      destruct (indexer !! Z.to_nat (DisklabelPartition.index p)) as [letter|] eqn:El.
      * unfold print_fmt, print_line at 1. apply IH.
      * apply lookup_ge_None_1 in El. rewrite length_indexer in El. lia.
    + apply Z.ltb_ge in E.
      rewrite (lookup_ge_None_2 indexer) by (rewrite length_indexer; lia).
      reflexivity.
Qed.

(** X25: The disklabel report names slots by the letters a to z.  For a
    decodable disklabel, constructing the object and printing it ends
    normally exactly when every slot in use is among the first 26; a used
    slot numbered 26 or more, which the 16-bit slot count allows, ends the
    report with IndexError. *)
Theorem disklabel_report_stops_at_slot_26 fp name w f hdr :
  files w !! fp = Some f ->
  (forall p, f_bad f p = false) ->
  let bs := default 512 (f_blksz f) in
  0 <= bs ->
  DisklabelHeader.unpack (slice (Z.to_nat bs) 148 (f_data f)) 0x94 = Ok hdr ->
  DisklabelHeader.signature1 hdr = [x57; x45; x56; x82] ->
  DisklabelHeader.signature2 hdr = [x57; x45; x56; x82] ->
  (Z.to_nat bs + 148 + 16 * Z.to_nat (DisklabelHeader.slices_total hdr)
   <= length (f_data f))%nat ->
  Z.of_nat (length (f_data f)) <= max_off ->
  let parts := omap (fun num => disklabel_entry (disklabel_slot (f_data f) bs num) num)
                 (seqZ 0 (DisklabelHeader.slices_total hdr)) in
  ((let* d := DisklabelTable.new fp name in DisklabelTable_pprint d) w).1
  = if forallb (fun p => DisklabelPartition.index p <? 26) parts then Ok tt
    else Raise (IndexError "list index out of range").
Proof.
  intros Hf Hbad bs Hbs Hun Hs1 Hs2 Hlen Hmax parts.
  destruct (DisklabelTable_init_decoded fp name w f hdr Hf Hbad Hbs Hun Hs1 Hs2 Hlen Hmax)
    as [Hinit _].
  fold bs parts in Hinit.
  assert (Hnn : Forall (fun p => 0 <= DisklabelPartition.index p) parts).
  { apply Forall_forall. intros p Hp.
    apply list_elem_of_omap in Hp as (num & Hnum & Hp).
    apply elem_of_seqZ in Hnum.
    apply disklabel_entry_Some in Hp as (Hi & _). lia. }
  unfold bind at 1. unfold DisklabelTable.new.
  destruct (DisklabelTable.init fp name w) as [[self r] w1]. cbn [fst] in Hinit.
  injection Hinit as -> ->.
  unfold DisklabelTable_pprint. cbn [DisklabelTable.info DisklabelInfo.partitions].
  unfold bind at 1. unfold bind at 1. unfold bind at 1. unfold bind at 1.
  unfold bind at 1. unfold bind at 1. unfold bind at 1.
  unfold print at 1 2 3 4, print_fmt at 1, print_line at 1 2 3 4 5.
  match goal with
  | |- context [for_ _ ?body tt ?w0] =>
      pose proof (Disklabel_rows_outcome parts w0 Hnn) as Hrows;
      destruct (for_ parts body tt w0) as [[u|e] w2]
  end; cbn [fst] in Hrows |- *.
  - rewrite <- Hrows. destruct u. reflexivity.
  - rewrite <- Hrows. reflexivity.
Qed.

Lemma disklabel_report_stops_at_slot_26_witness :
  ((let* d := DisklabelTable.new 0%nat "disk.img" in DisklabelTable_pprint d)
     (Image.disk 0%nat Sample.disklabel_27)).1
  = Raise (IndexError "list index out of range").
Proof.
  assert (Hh : exists hdr,
             DisklabelHeader.unpack (slice 512 148 Sample.disklabel_27) 0x94 = Ok hdr
             /\ DisklabelHeader.signature1 hdr = [x57; x45; x56; x82]
             /\ DisklabelHeader.signature2 hdr = [x57; x45; x56; x82]
             /\ DisklabelHeader.slices_total hdr = 27).
  { vm_compute. eexists. repeat split. }
  destruct Hh as (hdr & Hun & Hs1 & Hs2 & Hn).
  rewrite (disklabel_report_stops_at_slot_26 0%nat "disk.img"
             (Image.disk 0%nat Sample.disklabel_27)
             (Image.regular Sample.disklabel_27) hdr eq_refl (fun _ => eq_refl)).
  - rewrite Hn. vm_compute. reflexivity.
  - vm_compute. discriminate.
  - exact Hun.
  - exact Hs1.
  - exact Hs2.
  - rewrite Hn. apply Nat.leb_le. vm_compute. reflexivity.
  - apply Z.leb_le. vm_compute. reflexivity.
Defined.


(** ** The driver on images without a partition table, and on short images *)

Lemma same_medium_refl f : same_medium f f.
Proof. repeat split. Qed.

Lemma same_medium_trans f g h : same_medium f g -> same_medium g h -> same_medium f h.
Proof. intros (A1 & A2 & A3) (B1 & B2 & B3). repeat split; congruence. Qed.

Lemma keeps_ret {A} (a : A) : keeps (ret a).
Proof. intros w h f Hf. exists f. split; [exact Hf|apply same_medium_refl]. Qed.

Lemma keeps_raise {A} e : keeps (@raise A e).
Proof. intros w h f Hf. exists f. split; [exact Hf|apply same_medium_refl]. Qed.

Lemma keeps_lift {A} (r : result A) : keeps (lift r).
Proof. intros w h f Hf. exists f. split; [exact Hf|apply same_medium_refl]. Qed.

Lemma keeps_print_line l : keeps (print_line l).
Proof. intros w h f Hf. exists f. split; [exact Hf|apply same_medium_refl]. Qed.

Lemma keeps_bind {A B} (c : M A) (k : A -> M B) :
  keeps c -> (forall a, keeps (k a)) -> keeps (bind c k).
Proof.
  intros Hc Hk w h f Hf. unfold bind.
  destruct (Hc w h f Hf) as (f1 & Hf1 & Hm1).
  destruct (c w) as [[a|e] w1]; cbn [snd] in Hf1.
  - destruct (Hk a w1 h f1 Hf1) as (f2 & Hf2 & Hm2).
    exists f2. split; [exact Hf2|]. eapply same_medium_trans; eassumption.
  - exists f1. split; assumption.
Qed.

Lemma keeps_for {A S} (xs : list A) (body : A -> S -> M S) :
  (forall x s, keeps (body x s)) -> forall s, keeps (for_ xs body s).
Proof.
  intros Hbody. induction xs as [|x xs IH]; intros s; cbn [for_].
  - apply keeps_ret.
  - apply keeps_bind; [apply Hbody|]. intros s'. apply IH.
Qed.

Lemma keeps_set_file w h0 f0 p e h f :
  files w !! h0 = Some f0 -> files w !! h = Some f ->
  exists f', files (log_io e (set_file h0 (set_pos p f0) w)) !! h = Some f'
             /\ same_medium f f'.
Proof.
  intros H0 Hf. rewrite files_log_io.
  destruct (decide (h0 = h)) as [->|Hne].
  - rewrite files_set_file_eq. eexists. split; [reflexivity|].
    assert (f0 = f) by congruence. subst f0. repeat split.
  - rewrite files_set_file_ne by exact Hne. exists f. split; [exact Hf|apply same_medium_refl].
Qed.

Lemma keeps_fp_tell h0 : keeps (fp_tell h0).
Proof.
  intros w h f Hf. unfold fp_tell.
  destruct (files w !! h0); exists f; (split; [exact Hf|apply same_medium_refl]).
Qed.

Lemma keeps_fp_seek h0 off : keeps (fp_seek h0 off).
Proof.
  intros w h f Hf. unfold fp_seek.
  destruct (files w !! h0) as [f0|] eqn:H0;
    [|exists f; split; [exact Hf|apply same_medium_refl]].
  destruct (off <? 0); [exists f; split; [exact Hf|apply same_medium_refl]|].
  destruct (max_off <? off); [exists f; split; [exact Hf|apply same_medium_refl]|].
  cbn [snd]. now apply keeps_set_file.
Qed.

Lemma keeps_fp_seek_in env h0 off : keeps (fp_seek_in env h0 off).
Proof. intros w h f Hf. rewrite fp_seek_in_world. now apply keeps_fp_seek. Qed.

Lemma keeps_fp_read h0 n : keeps (fp_read h0 n).
Proof.
  intros w h f Hf. unfold fp_read.
  destruct (files w !! h0) as [f0|] eqn:H0;
    [|exists f; split; [exact Hf|apply same_medium_refl]].
  destruct (f_bad f0 (f_pos f0)); [exists f; split; [exact Hf|apply same_medium_refl]|].
  cbn [snd]. now apply keeps_set_file.
Qed.

Lemma keeps_load_global_fp env : keeps (load_global_fp env).
Proof. unfold load_global_fp. destruct (global_fp env); [apply keeps_ret|apply keeps_raise]. Qed.

Lemma keeps_check_disk_file h0 : keeps (check_disk_file h0).
Proof.
  intros w h f Hf. unfold check_disk_file.
  pose proof (keeps_fp_tell h0 w h f Hf) as Ht.
  destruct (fp_tell h0 w) as [[p|e] w1]; exact Ht.
Qed.

Lemma keeps_query_blocksize h0 : keeps (query_blocksize h0).
Proof.
  intros w h f Hf. unfold query_blocksize.
  destruct (files w !! h0); exists f; (split; [exact Hf|apply same_medium_refl]).
Qed.

Create HintDb keeps discriminated.
#[local] Hint Resolve keeps_ret keeps_raise keeps_lift keeps_print_line keeps_fp_tell
  keeps_fp_seek keeps_fp_seek_in keeps_fp_read keeps_load_global_fp keeps_check_disk_file
  keeps_query_blocksize : keeps.

Ltac keeps_walk :=
  repeat first
    [ solve [auto with keeps]
    | apply keeps_bind; [|intro]
    | apply keeps_for; intros
    | case_bool_decide
    | match goal with
      | |- keeps (match ?x with _ => _ end) => destruct x
      | |- keeps (if ?x then _ else _) => destruct x
      end ].

Lemma keeps_print s : keeps (print s).
Proof. apply keeps_print_line. Qed.

Lemma keeps_print_fmt t args : keeps (print_fmt t args).
Proof. apply keeps_print_line. Qed.

#[local] Hint Resolve keeps_print keeps_print_fmt : keeps.

Lemma keeps_read_mbr_header self : keeps (MBRTable.read_mbr_header self).
Proof. unfold MBRTable.read_mbr_header. keeps_walk. Qed.

Lemma keeps_read_ebr_partition env self ext depth :
  forall lba num, keeps (MBRTable.read_ebr_partition env depth self ext lba num).
Proof.
  induction depth as [|depth IH]; intros lba num; cbn [MBRTable.read_ebr_partition].
  - apply keeps_raise.
  - pose proof IH as IH'. keeps_walk.
Qed.

Lemma keeps_read_mbr_partitions env self : keeps (MBRTable.read_mbr_partitions env self).
Proof.
  pose proof (keeps_read_ebr_partition env self) as Hebr.
  unfold MBRTable.read_mbr_partitions, MBRTable.get_mbrheader. keeps_walk.
Qed.

Lemma keeps_MBRTable_new env fp name : keeps (MBRTable.new env fp name).
Proof.
  intros w h f Hf. unfold MBRTable.new, MBRTable.init. cbn [MBRTable.fp].
  destruct (keeps_check_disk_file fp w h f Hf) as (f1 & Hf1 & Hm1).
  destruct (check_disk_file fp w) as [[u|e] w1]; cbn [snd] in Hf1 |- *; [|eauto].
  destruct (keeps_fp_seek fp 0 w1 h f1 Hf1) as (f2 & Hf2 & Hm2).
  pose proof (same_medium_trans _ _ _ Hm1 Hm2) as Hm12.
  destruct (fp_seek fp 0 w1) as [[u'|e] w2]; cbn [snd] in Hf2 |- *; [|eauto].
  assert (Htry : exists f3, files (MBRTable.init_try env (MBRTable.mk name fp None None) w2).2
                             !! h = Some f3 /\ same_medium f f3).
  { unfold MBRTable.init_try.
    destruct (keeps_read_mbr_header (MBRTable.mk name fp None None) w2 h f2 Hf2)
      as (f3 & Hf3 & Hm3).
    pose proof (same_medium_trans _ _ _ Hm12 Hm3) as Hm13.
    destruct (MBRTable.read_mbr_header _ w2) as [[hd|e] wa]; cbn [snd] in Hf3 |- *; [|eauto].
    destruct (keeps_read_mbr_partitions env
                (MBRTable.set_mbrheader hd (MBRTable.mk name fp None None)) wa h f3 Hf3)
      as (f4 & Hf4 & Hm4).
    pose proof (same_medium_trans _ _ _ Hm13 Hm4) as Hm14.
    destruct (MBRTable.read_mbr_partitions env _ wa) as [[ps|e] wb]; cbn [snd] in Hf4 |- *;
      eauto. }
  destruct (MBRTable.init_try env _ w2) as [[self [u''|e]] w3]; cbn [snd] in Htry |- *;
    [exact Htry|].
  unfold MBRTable.init_except.
  destruct (isinstance_MBRMissing e); [exact Htry|].
  destruct (isinstance_MBRError e); exact Htry.
Qed.

Lemma keeps_read_gpt_header self bs : keeps (GPTTable.read_gpt_header self bs).
Proof.
  intros w h f Hf. unfold GPTTable.read_gpt_header.
  destruct (keeps_fp_seek (GPTTable.fp self) (1 * bs) w h f Hf) as (f1 & Hf1 & Hm1).
  destruct (fp_seek (GPTTable.fp self) (1 * bs) w) as [[u|e] w1]; cbn [snd] in Hf1.
  - assert (Hk : keeps (let* data := fp_read (GPTTable.fp self) 92 in
                   let* header := lift (GPTHeader.unpack data) in
                   if bool_decide (GPTHeader.signature header <> b_ "EFI PART")
                   then raise (GPTMissing "Bad GPT signature")
                   else if Qltb (GPTTable.revision header) (inject_Z 1)
                   then raise (GPTError ("Bad GPT revision: "
                                         +:+ pretty (GPTHeader.revision_major header)
                                         +:+ "." +:+ pretty (GPTHeader.revision_minor header)))
                   else if GPTHeader.header_size header <? 92
                   then raise (GPTError ("Bad GPT header size: "
                                         +:+ pretty (GPTHeader.header_size header)))
                   else
                     let* g := lift (uuid_str_upper (as_bytes (GPTHeader.disk_guid header))) in
                     ret (GPTHeader.replace_disk_guid (VStr g) header))) by keeps_walk.
    destruct (Hk w1 h f1 Hf1) as (f2 & Hf2 & Hm2).
    exists f2. split; [exact Hf2|]. eapply same_medium_trans; eassumption.
  - exists f1. split; [destruct e; exact Hf1|exact Hm1].
Qed.

Lemma keeps_read_gpt_partitions env self bs : keeps (GPTTable.read_gpt_partitions env self bs).
Proof.
  unfold GPTTable.read_gpt_partitions, GPTTable.get_gptheader.
  assert (Hbody : forall hdr i acc,
             keeps (GPTTable.read_gpt_partitions_body env self hdr i acc)).
  { intros. unfold GPTTable.read_gpt_partitions_body. keeps_walk. }
  keeps_walk.
Qed.

Lemma keeps_GPTTable_new env fp name : keeps (GPTTable.new env fp name).
Proof.
  intros w h f Hf. unfold GPTTable.new, GPTTable.init. cbn [GPTTable.fp].
  destruct (keeps_check_disk_file fp w h f Hf) as (f1 & Hf1 & Hm1).
  destruct (check_disk_file fp w) as [[u|e] w1]; cbn [snd] in Hf1 |- *; [|eauto].
  destruct (keeps_fp_seek fp 0 w1 h f1 Hf1) as (f2 & Hf2 & Hm2).
  pose proof (same_medium_trans _ _ _ Hm1 Hm2) as Hm12.
  destruct (fp_seek fp 0 w1) as [[u'|e] w2]; cbn [snd] in Hf2 |- *; [|eauto].
  destruct (keeps_query_blocksize fp w2 h f2 Hf2) as (fq & Hfq & Hmq).
  pose proof (same_medium_trans _ _ _ Hm12 Hmq) as Hm1q.
  destruct (query_blocksize fp w2) as [[bs|e] wq]; cbn [snd] in Hfq |- *; [|eauto].
  assert (Htry : exists f3, files (GPTTable.init_try env (GPTTable.mk name fp None None) bs wq).2
                             !! h = Some f3 /\ same_medium f f3).
  { unfold GPTTable.init_try.
    destruct (keeps_read_gpt_header (GPTTable.mk name fp None None) bs wq h fq Hfq)
      as (f3 & Hf3 & Hm3).
    pose proof (same_medium_trans _ _ _ Hm1q Hm3) as Hm13.
    destruct (GPTTable.read_gpt_header _ bs wq) as [[hd|e] wa]; cbn [snd] in Hf3 |- *;
      [|eauto].
    destruct (keeps_read_gpt_partitions env
                (GPTTable.set_gptheader hd (GPTTable.mk name fp None None)) bs wa h f3 Hf3)
      as (f4 & Hf4 & Hm4).
    pose proof (same_medium_trans _ _ _ Hm13 Hm4) as Hm14.
    destruct (GPTTable.read_gpt_partitions env _ bs wa) as [[ps|e] wb]; cbn [snd] in Hf4 |- *;
      eauto. }
  destruct (GPTTable.init_try env _ bs wq) as [[self [u''|e]] w3]; cbn [snd] in Htry |- *;
    [exact Htry|].
  unfold GPTTable.init_except.
  destruct (isinstance_GPTMissing e); [exact Htry|].
  destruct (isinstance_GPTError e); exact Htry.
Qed.

Lemma keeps_MBRTable_pprint self : keeps (MBRTable_pprint self).
Proof. unfold MBRTable_pprint. keeps_walk. Qed.

Lemma keeps_GPTTable_pprint self : keeps (GPTTable_pprint self).
Proof. unfold GPTTable_pprint. keeps_walk. Qed.

(** The disklabel constructor on an image that ends before the header
    region is complete. *)
Lemma DisklabelTable_new_short fp name w f :
  files w !! fp = Some f ->
  0 <= default 512 (f_blksz f) ->
  (length (f_data f) < Z.to_nat (default 512%Z (f_blksz f)) + 148)%nat ->
  exists e, (DisklabelTable.new fp name w).1 = Raise e.
Proof.
  intros Hf Hbs Hlen. set (bs := default 512 (f_blksz f)) in *.
  unfold DisklabelTable.new.
  rewrite (DisklabelTable_init_open fp name w f Hf). fold bs.
  set (w0 := log_io (EvSeek fp 0) (set_file fp (set_pos 0 f) w)).
  assert (Hf0 : files w0 !! fp = Some (set_pos 0 f)).
  { unfold w0. rewrite files_log_io. apply files_set_file_eq. }
  unfold DisklabelTable.init_try, DisklabelTable.read_disklabel_header.
  cbn [DisklabelTable.fp]. rewrite Z.mul_1_l.
  unfold fp_seek. rewrite Hf0.
  destruct (bs <? 0) eqn:E0; [apply Z.ltb_lt in E0; lia|].
  destruct (max_off <? bs); [cbn; eauto|].
  set (wa := log_io (EvSeek fp bs) (set_file fp (set_pos bs (set_pos 0 f)) w0)).
  assert (Hfa : files wa !! fp = Some (set_pos bs f)).
  { unfold wa. rewrite files_log_io, files_set_file_eq. now rewrite set_pos_set_pos. }
  unfold bind at 1. unfold fp_read. rewrite Hfa. cbn [f_bad f_pos f_data set_pos].
  destruct (f_bad f bs); [cbn; eauto|].
  unfold lift, bind, DisklabelHeader.unpack.
  rewrite bool_decide_eq_false_2; [cbn; eauto|].
  change (Z.to_nat 148) with 148%nat. unfold slice. rewrite length_take, length_drop. lia.
Qed.

(** [get_info] gets as far as the disklabel constructor with the medium
    as it found it, unless an earlier step raises. *)
Lemma get_info_reaches_disklabel env fp name w f :
  files w !! fp = Some f ->
  (forall w4 f4, files w4 !! fp = Some f4 -> same_medium f f4 ->
                 exists e, (DisklabelTable.new fp name w4).1 = Raise e) ->
  exists e, (get_info env fp name w).1 = Raise e.
Proof.
  intros Hf Hlast. unfold get_info.
  assert (Hstep : forall {A B} (c : M A) (k : A -> M B) w0 f0,
             keeps c -> files w0 !! fp = Some f0 -> same_medium f f0 ->
             (forall a w1 f1, files w1 !! fp = Some f1 -> same_medium f f1 ->
                              exists e, (k a w1).1 = Raise e) ->
             exists e, (bind c k w0).1 = Raise e).
  { intros A B c k w0 f0 Hc Hf0 Hm Hk. unfold bind.
    destruct (Hc w0 fp f0 Hf0) as (f1 & Hf1 & Hm1).
    destruct (c w0) as [[a|e] w1]; cbn [snd] in Hf1; [|cbn; eauto].
    apply (Hk a w1 f1 Hf1). eapply same_medium_trans; eassumption. }
  apply (Hstep _ _ _ _ w f (keeps_MBRTable_new env fp name) Hf (same_medium_refl f)).
  intros m w1 f1 Hf1 Hm1.
  apply (Hstep _ _ _ _ w1 f1 (keeps_MBRTable_pprint m) Hf1 Hm1).
  intros _ w2 f2 Hf2 Hm2.
  apply (Hstep _ _ _ _ w2 f2 (keeps_GPTTable_new env fp name) Hf2 Hm2).
  intros g w3 f3 Hf3 Hm3.
  apply (Hstep _ _ _ _ w3 f3 (keeps_GPTTable_pprint g) Hf3 Hm3).
  intros _ w4 f4 Hf4 Hm4.
  destruct (Hlast w4 f4 Hf4 Hm4) as (e & He).
  exists e. unfold bind. destruct (DisklabelTable.new fp name w4) as [[d|e'] w5];
    cbn [fst] in He |- *; [discriminate|congruence].
Qed.

(** X27: Whatever an image shorter than one block plus the 148 bytes of a
    disklabel header holds, and whatever the interpreter state,
    [get_info] does not return: one of its steps ends in an exception, at
    the latest the disklabel constructor with its struct.error.  A dump
    of the boot sector alone cannot be examined. *)
Theorem get_info_needs_room_for_disklabel env fp name w f :
  files w !! fp = Some f ->
  0 <= default 512 (f_blksz f) ->
  (length (f_data f) < Z.to_nat (default 512%Z (f_blksz f)) + 148)%nat ->
  exists e, (get_info env fp name w).1 = Raise e.
Proof.
  intros Hf Hbs Hlen.
  apply (get_info_reaches_disklabel env fp name w f Hf).
  intros w4 f4 Hf4 (Hd & Hb & _).
  apply (DisklabelTable_new_short fp name w4 f4 Hf4).
  - now rewrite Hb.
  - now rewrite Hd, Hb.
Qed.

Lemma get_info_needs_room_for_disklabel_witness :
  exists e, (get_info (Image.script 0%nat) 0%nat "disk.img"
               (Image.disk 0%nat Sample.mbr_only)).1 = Raise e.
Proof.
  refine (get_info_needs_room_for_disklabel (Image.script 0%nat) 0%nat "disk.img"
            (Image.disk 0%nat Sample.mbr_only) (Image.regular Sample.mbr_only)
            eq_refl _ _).
  - vm_compute. discriminate.
  - apply Nat.ltb_lt. vm_compute. reflexivity.
Defined.


Lemma same_medium_good f f' :
  same_medium f f' -> (forall p, f_bad f p = false) -> forall p, f_bad f' p = false.
Proof. intros (_ & _ & Hb) H p. now rewrite Hb. Qed.

(** X26: On an image that carries none of the three schemes (no 55 AA at the
    end of sector 0, no "EFI PART" and no disklabel magic one block in)
    [get_info] returns three objects without [info] and prints exactly the
    three "No ..." notices, each followed by "---", and an empty line; it
    reads sector 0 once and the second block twice. *)
Theorem get_info_no_scheme env fp name w f :
  files w !! fp = Some f ->
  (forall p, f_bad f p = false) ->
  let bs := default 512 (f_blksz f) in
  0 <= bs <= max_off ->
  (512 <= length (f_data f))%nat ->
  (Z.to_nat bs + 148 <= length (f_data f))%nat ->
  slice 510 2 (f_data f) <> [x55; xaa] ->
  slice (Z.to_nat bs) 8 (f_data f) <> b_ "EFI PART" ->
  slice (Z.to_nat bs) 4 (f_data f) <> [x57; x45; x56; x82]
  \/ slice (Z.to_nat bs + 132) 4 (f_data f) <> [x57; x45; x56; x82] ->
  (get_info env fp name w).1
  = Ok (MBRTable.mk name fp None None, GPTTable.mk name fp None None,
        DisklabelTable.mk fp name None None None)
  /\ stdout (get_info env fp name w).2
     = stdout w ++ [Line "No MBR"; Line "---"; Line "No GPT"; Line "---";
                    Line "No Disklabel"; Line "---"; Line ""]
  /\ io_log (get_info env fp name w).2
     = io_log w ++ [EvSeek fp 0; EvRead fp 0 512;
                    EvSeek fp 0; EvSeek fp bs; EvRead fp bs 92;
                    EvSeek fp 0; EvSeek fp bs; EvRead fp bs 148].
Proof.
  intros Hf Hbad bs Hbs H512 Hlen Hmbr Hgpt Hdl.
  (* the MBR *)
  destruct (MBRTable_init_read env fp name w f Hf Hbad) as (w1 & _ & Hso1 & Hlog1 & Hinit1).
  unfold MBRHeader.unpack in Hinit1.
  rewrite bool_decide_eq_true_2 in Hinit1 by (rewrite length_slice_0; lia).
  cbn [MBRHeader.signature] in Hinit1. rewrite slice_slice_0 in Hinit1 by lia.
  rewrite bool_decide_eq_true_2 in Hinit1 by exact Hmbr.
  destruct (keeps_MBRTable_new env fp name w fp f Hf) as (f1 & Hf1 & Hm1).
  unfold MBRTable.new in Hf1. rewrite Hinit1 in Hf1. cbn [snd] in Hf1.
  pose proof Hm1 as (Hd1 & Hb1 & _).
  set (w1' := {| files := files w1;
                 stdout := (stdout w1 ++ [Line "No MBR"]) ++ [Line "---"];
                 io_log := io_log w1 |}).
  (* the GPT *)
  assert (Hun2 : exists h, GPTHeader.unpack (slice (Z.to_nat bs) 92 (f_data f)) = Ok h
                           /\ GPTHeader.signature h
                              = slice 0 8 (slice (Z.to_nat bs) 92 (f_data f))).
  { unfold GPTHeader.unpack.
    rewrite bool_decide_eq_true_2 by (apply length_slice_le; lia).
    eexists. split; reflexivity. }
  destruct Hun2 as (h2 & Hun2 & Hs2).
  rewrite slice_slice, Nat.add_0_r in Hs2 by lia.
  destruct (GPTTable_init_whole env fp name w1' f1 h2 Hf1 (same_medium_good _ _ Hm1 Hbad))
    as (g & w2 & _ & Hf2 & Hso2 & Hlog2 & Hinit2).
  { now rewrite Hb1. }
  { now rewrite Hb1, Hd1. }
  rewrite Hb1 in Hf2, Hlog2, Hinit2. fold bs in Hf2, Hlog2, Hinit2.
  rewrite bool_decide_eq_true_2 in Hinit2 by (now rewrite Hs2).
  set (w2' := {| files := files w2;
                 stdout := (stdout w2 ++ [Line "No GPT"]) ++ [Line "---"];
                 io_log := io_log w2 |}).
  (* the disklabel *)
  assert (Hun3 : exists hdr,
             DisklabelHeader.unpack (slice (Z.to_nat bs) 148 (f_data f)) 0x94 = Ok hdr).
  { unfold DisklabelHeader.unpack.
    rewrite bool_decide_eq_true_2 by (apply length_slice_le; lia). eauto. }
  destruct Hun3 as (hdr & Hun3).
  destruct (DisklabelHeader_unpack_size _ _ _ Hun3) as (_ & _ & H1 & H2 & _).
  rewrite slice_slice, Nat.add_0_r in H1 by lia. rewrite slice_slice in H2 by lia.
  destruct (DisklabelTable_init_whole fp name w2' (set_pos (bs + 92) f1) hdr Hf2)
    as (w3 & _ & Hso3 & Hlog3 & Hinit3).
  { intros p. cbn [f_bad set_pos]. now apply (same_medium_good _ _ Hm1 Hbad). }
  { cbn [f_blksz set_pos]. now rewrite Hb1. }
  { cbn [f_blksz f_data set_pos]. now rewrite Hb1, Hd1. }
  cbn [f_blksz set_pos] in Hlog3, Hinit3. rewrite Hb1 in Hlog3, Hinit3.
  fold bs in Hlog3, Hinit3.
  assert (Hor : bool_decide (DisklabelHeader.signature1 hdr <> [x57; x45; x56; x82])
                || bool_decide (DisklabelHeader.signature2 hdr <> [x57; x45; x56; x82])
                = true).
  { rewrite H1, H2. destruct Hdl as [Hs|Hs].
    - now rewrite bool_decide_eq_true_2.
    - rewrite (bool_decide_eq_true_2 _ Hs). apply orb_true_r. }
  rewrite Hor in Hinit3.
  (* the run *)
  assert (Hrun : get_info env fp name w
                 = (Ok (MBRTable.mk name fp None None, GPTTable.mk name fp None None,
                        DisklabelTable.mk fp name None None None),
                    {| files := files w3;
                       stdout := ((stdout w3 ++ [Line "No Disklabel"]) ++ [Line "---"])
                                   ++ [Line ""];
                       io_log := io_log w3 |})).
  { unfold get_info.
    rewrite (bind_Ok _ _ w (MBRTable.mk name fp None None) w1)
      by (unfold MBRTable.new; now rewrite Hinit1).
    rewrite (bind_Ok _ _ w1 tt w1') by reflexivity.
    rewrite (bind_Ok _ _ w1' (GPTTable.mk name fp None None) w2)
      by (unfold GPTTable.new; now rewrite Hinit2).
    rewrite (bind_Ok _ _ w2 tt w2') by reflexivity.
    rewrite (bind_Ok _ _ w2' (DisklabelTable.mk fp name None None None) w3)
      by (unfold DisklabelTable.new; now rewrite Hinit3).
    reflexivity. }
  rewrite Hrun. cbn [fst snd stdout io_log].
  split; [reflexivity|]. split.
  - rewrite Hso3. unfold w2'. cbn [stdout]. rewrite Hso2. unfold w1'. cbn [stdout].
    rewrite Hso1, <- !app_assoc. reflexivity.
  - rewrite Hlog3. unfold w2'. cbn [io_log]. rewrite Hlog2. unfold w1'. cbn [io_log].
    rewrite Hlog1, <- !app_assoc. reflexivity.
Qed.

Lemma get_info_no_scheme_witness :
  stdout (get_info Image.imported 0%nat "disk.img" (Image.disk 0%nat Image.blank_disk)).2
  = [Line "No MBR"; Line "---"; Line "No GPT"; Line "---";
     Line "No Disklabel"; Line "---"; Line ""].
Proof.
  refine (proj1 (proj2 (get_info_no_scheme Image.imported 0%nat "disk.img"
                          (Image.disk 0%nat Image.blank_disk)
                          (Image.regular Image.blank_disk)
                          eq_refl (fun _ => eq_refl) _ _ _ _ _ _))).
  - vm_compute. split; discriminate.
  - apply Nat.leb_le. vm_compute. reflexivity.
  - apply Nat.leb_le. vm_compute. reflexivity.
  - vm_compute. discriminate.
  - vm_compute. discriminate.
  - left. vm_compute. discriminate.
Defined.


(** ** Partition numbers *)

(** X7: Whatever the image and the interpreter state, every entry of a
    populated MBR result is numbered 1, 2 or 3 (a primary slot) or 5 and
    up (a logical partition): no entry is ever numbered 4 or less than 1. *)
Theorem entry_numbers_skip_4 env fp name w i p :
  MBRTable.info (MBRTable.init env fp name w).1.1 = Some i ->
  Some p ∈ MBRInfo.partitions i ->
  1 <= MBRPartition.index p <= 3 \/ 5 <= MBRPartition.index p.
Proof.
  intros Hi Hin.
  destruct (MBRTable_init_info _ _ _ _ _ Hi) as (_ & w0 & Etry).
  pose proof (MBRTable_init_try_spec env (MBRTable.mk name fp None None) w0 eq_refl) as Hspec.
  rewrite Etry in Hspec. cbn [fst snd] in Hspec.
  destruct Hspec as (h & w1 & ps & Hhdr & Hparts & Hinfo).
  assert (Heq : MBRInfo.partitions i = ps).
  { rewrite Hi in Hinfo. apply (inj Some) in Hinfo. now rewrite Hinfo. }
  rewrite Heq in Hin.
  unfold MBRTable.read_mbr_header in Hhdr.
  apply bind_inv_Ok in Hhdr as (data & wa & _ & Hhdr).
  apply bind_inv_Ok in Hhdr as (h0 & wb & Hun & Hhdr).
  case_bool_decide; [discriminate|].
  assert (Hh : h0 = h) by (unfold ret in Hhdr; congruence). subst h0.
  assert (Hun' : MBRHeader.unpack data = Ok h) by (unfold lift in Hun; congruence).
  rewrite (read_mbr_partitions_eq env
             (MBRTable.set_mbrheader h (MBRTable.mk name fp None None)) data h w1 Hun' eq_refl)
    in Hparts.
  assert (Hprim : Some p ∈ map Some (primary_entries h) -> 1 <= MBRPartition.index p <= 3).
  { intros Hp. apply list_elem_of_fmap in Hp as (q & Hq & Hq').
    apply (inj Some) in Hq. subst q.
    apply primary_entries_index in Hq'. lia. }
  destruct (find is_extended (primary_entries h)) as [ep|].
  - apply bind_inv_Ok in Hparts as (logical & w2 & Hlog & Hret).
    assert (Hps : ps = map Some (primary_entries h) ++ logical)
      by (unfold ret in Hret; congruence).
    rewrite Hps in Hin. apply elem_of_app in Hin as [Hin|Hin]; [left; now apply Hprim|].
    right. exact (read_ebr_partition_index _ _ _ _ _ _ _ _ _ p Hlog Hin).
  - assert (Hps : ps = map Some (primary_entries h)) by congruence.
    rewrite Hps in Hin. left. now apply Hprim.
Qed.

Lemma entry_numbers_skip_4_witness :
  exists i p,
    MBRTable.info (MBRTable.init (Image.script 0%nat) 0%nat "disk.img"
                     (Image.disk 0%nat Image.chain3)).1.1 = Some i
    /\ head (MBRInfo.partitions i) = Some (Some p)
    /\ (1 <= MBRPartition.index p <= 3 \/ 5 <= MBRPartition.index p).
Proof.
  assert (H : exists i p rest,
             MBRTable.info (MBRTable.init (Image.script 0%nat) 0%nat "disk.img"
                              (Image.disk 0%nat Image.chain3)).1.1 = Some i
             /\ MBRInfo.partitions i = Some p :: rest).
  { vm_compute. do 3 eexists. split; reflexivity. }
  destruct H as (i & p & rest & Hi & Hps).
  exists i, p. split; [exact Hi|]. split; [now rewrite Hps|].
  apply (entry_numbers_skip_4 (Image.script 0%nat) 0%nat "disk.img"
           (Image.disk 0%nat Image.chain3) i p Hi).
  rewrite Hps. apply list_elem_of_here.
Defined.


(** ** The [__main__] block *)

Lemma main_loop_missing env fs drives w p :
  p ∈ drives ->
  fs !! p = None \/ fs !! p = Some FsDir ->
  (main_loop env fs drives w).1 = Exited (-1)
  \/ exists e, (main_loop env fs drives w).1 = Crashed e.
Proof.
  intros Hin Hp. revert env w. induction drives as [|d rest IH]; intros env w.
  - apply elem_of_nil in Hin. destruct Hin.
  - cbn [main_loop].
    destruct (fs !! d) as [[|[f|]]|] eqn:Ed; [now left| | |now left].
    + assert (Hin' : p ∈ rest).
      { apply elem_of_cons in Hin as [->|Hin]; [|exact Hin].
        destruct Hp as [Hp|Hp]; rewrite Ed in Hp; discriminate. }
      unfold open_rb.
      destruct ((let* _ := print _ in get_info _ _ _) _) as [[r|e] w2].
      * apply (IH Hin').
      * right. eauto.
    + apply elem_of_cons in Hin as [->|Hin].
      * destruct Hp as [Hp|Hp]; rewrite Ed in Hp; discriminate.
      * apply (IH Hin).
Qed.

(** X28: A path on the command line that names nothing, or a directory, keeps
    the run from ending with status 0: it ends with status -1 at that
    path, unless an earlier image has already ended it with an uncaught
    exception. *)
Theorem main_missing_path_fails env fs drives w p :
  p ∈ drives ->
  fs !! p = None \/ fs !! p = Some FsDir ->
  (main env fs drives w).1 = Exited (-1)
  \/ exists e, (main env fs drives w).1 = Crashed e.
Proof.
  intros Hin Hp. unfold main. destruct drives as [|d rest].
  - apply elem_of_nil in Hin. destruct Hin.
  - now apply main_loop_missing with p.
Qed.

Lemma main_missing_path_fails_witness :
  (main Image.imported ∅ ["absent.img"]
     {| files := ∅; stdout := []; io_log := [] |}).1 = Exited (-1)
  \/ exists e, (main Image.imported ∅ ["absent.img"]
                  {| files := ∅; stdout := []; io_log := [] |}).1 = Crashed e.
Proof.
  apply (main_missing_path_fails Image.imported ∅ ["absent.img"] _ "absent.img").
  - apply list_elem_of_here.
  - left. reflexivity.
Defined.

(** X29: Files that exist but cannot be opened are reported one by one and
    skipped, and the run still ends with status 0. *)
Theorem main_unopenable_paths_skipped env fs drives w :
  drives <> [] ->
  Forall (fun p => fs !! p = Some (FsFile None)) drives ->
  main env fs drives w
  = (Exited 0,
     {| files := files w;
        stdout := stdout w ++ map (fun p => Line ("Error, can't open image " +:+ p)) drives;
        io_log := io_log w |}).
Proof.
  intros Hne Hall. unfold main. destruct drives as [|d0 rest0]; [now destruct Hne|].
  clear Hne. revert w. generalize dependent (d0 :: rest0). clear d0 rest0.
  intros drives Hall. induction Hall as [|d rest Hd _ IH]; intros w.
  - cbn. rewrite app_nil_r. now destruct w.
  - cbn [main_loop map]. rewrite Hd, IH. cbn [files stdout io_log snd print print_line].
    now rewrite <- app_assoc.
Qed.

Lemma main_unopenable_paths_skipped_witness :
  (main Image.imported {[ "locked.img" := FsFile None ]} ["locked.img"]
     {| files := ∅; stdout := []; io_log := [] |}).1 = Exited 0.
Proof.
  rewrite (main_unopenable_paths_skipped Image.imported
             {[ "locked.img" := FsFile None ]} ["locked.img"]).
  - reflexivity.
  - discriminate.
  - repeat constructor.
Defined.

(** X30: An image on the command line that is shorter than one block plus 148
    bytes ends the whole run with an uncaught exception: whatever paths
    follow it are neither checked nor read, and the outcome does not
    depend on them. *)
Theorem main_stops_at_short_image env fs p rest w f :
  fs !! p = Some (FsFile (Some f)) ->
  0 <= default 512 (f_blksz f) ->
  (length (f_data f) < Z.to_nat (default 512%Z (f_blksz f)) + 148)%nat ->
  (exists e, (main env fs (p :: rest) w).1 = Crashed e)
  /\ main env fs (p :: rest) w = main env fs [p] w.
Proof.
  intros Hp Hbs Hlen. unfold main. cbn [main_loop]. rewrite Hp.
  unfold open_rb.
  set (h := fresh (dom (files w))).
  set (w1 := set_file h (set_pos 0 f) w).
  set (env1 := bind_global_fp h env).
  assert (Hrun : exists e w3,
             (let* _ := print ("##### IMAGE " +:+ basename p +:+ " #####") in
              get_info env1 h (basename p)) w1 = (Raise e, w3)).
  { unfold bind at 1. unfold print, print_line.
    set (w2 := {| files := files w1; stdout := stdout w1 ++ [_]; io_log := io_log w1 |}).
    assert (Hf2 : files w2 !! h = Some (set_pos 0 f)) by apply files_set_file_eq.
    destruct (get_info_reaches_disklabel env1 h (basename p) w2 (set_pos 0 f) Hf2)
      as (e & He).
    { intros w4 f4 Hf4 (Hd & Hb & _).
      apply (DisklabelTable_new_short h (basename p) w4 f4 Hf4).
      - now rewrite Hb.
      - now rewrite Hd, Hb. }
    destruct (get_info env1 h (basename p) w2) as [[r|e'] w3]; cbn [fst] in He;
      [discriminate|eauto]. }
  destruct Hrun as (e & w3 & Hrun). rewrite Hrun. split; eauto.
Qed.

Lemma main_stops_at_short_image_witness :
  exists e,
    (main Image.imported {[ "boot.img" := FsFile (Some (Image.regular Sample.mbr_only)) ]}
       ["boot.img"; "other.img"] {| files := ∅; stdout := []; io_log := [] |}).1
    = Crashed e.
Proof.
  refine (proj1 (main_stops_at_short_image Image.imported
                   {[ "boot.img" := FsFile (Some (Image.regular Sample.mbr_only)) ]}
                   "boot.img" ["other.img"] _ (Image.regular Sample.mbr_only) _ _ _)).
  - reflexivity.
  - vm_compute. discriminate.
  - apply Nat.ltb_lt. vm_compute. reflexivity.
Defined.


(** X23: A disklabel whose slot table runs past the end of the image is not
    reported as damaged: after the slots that are whole, the first
    incomplete one makes [struct.unpack] raise struct.error, which neither
    [except] clause of the constructor catches. *)
Theorem disklabel_truncated_table_raises fp name w f hdr k :
  files w !! fp = Some f ->
  (forall p, f_bad f p = false) ->
  let bs := default 512 (f_blksz f) in
  0 <= bs ->
  DisklabelHeader.unpack (slice (Z.to_nat bs) 148 (f_data f)) 0x94 = Ok hdr ->
  DisklabelHeader.signature1 hdr = [x57; x45; x56; x82] ->
  DisklabelHeader.signature2 hdr = [x57; x45; x56; x82] ->
  0 <= k < DisklabelHeader.slices_total hdr ->
  (Z.to_nat bs + 148 + 16 * Z.to_nat k <= length (f_data f))%nat ->
  (length (f_data f) < Z.to_nat bs + 148 + 16 * Z.to_nat k + 16)%nat ->
  Z.of_nat (length (f_data f)) <= max_off ->
  (DisklabelTable.init fp name w).1.2
  = Raise (struct_error "unpack requires a buffer of 16 bytes")
  /\ DisklabelTable.info (DisklabelTable.init fp name w).1.1 = None
  /\ stdout (DisklabelTable.init fp name w).2 = stdout w.
Proof.
  intros Hf Hbad bs Hbs Hun Hs1 Hs2 Hk Hlo Hhi Hmax.
  destruct (DisklabelHeader_unpack_size _ _ _ Hun) as (_ & Hsz & _).
  assert (Hbs' : 0 <= bs <= max_off) by lia.
  destruct (DisklabelTable_init_whole fp name w f hdr Hf Hbad Hbs' Hun)
    as (w1 & Hf1 & Hso & _ & Hinit).
  fold bs in Hf1, Hinit.
  rewrite Hs1, Hs2 in Hinit.
  rewrite !bool_decide_eq_false_2 in Hinit by (intros Hne; now apply Hne).
  cbn [orb] in Hinit.
  set (self := DisklabelTable.mk fp name None (Some hdr) None) in *.
  pose proof (quiet_read_disklabel_partitions self bs w1) as Hq.
  assert (Hrun : (DisklabelTable.read_disklabel_partitions self bs w1).1
                 = Raise (struct_error "unpack requires a buffer of 16 bytes")).
  { unfold DisklabelTable.read_disklabel_partitions, DisklabelTable.get_header.
    cbn [DisklabelTable.header self].
    rewrite (bind_Ok (ret hdr) _ w1 hdr w1 eq_refl).
    unfold py_range. rewrite Z.sub_0_r.
    replace (DisklabelHeader.slices_total hdr)
      with (k + (DisklabelHeader.slices_total hdr - k)) by lia.
    rewrite seqZ_app by lia. rewrite for_app.
    match goal with
    | |- context [for_ (seqZ 0 k) ?body []] => set (B := body)
    end.
    destruct (read_disklabel_partitions_loop self hdr bs (f_data f) (seqZ 0 k) [] w1)
      as (w2 & Hloop).
    { exists (set_pos (bs + 148) f). repeat split; [exact Hf1|exact Hbad]. }
    { apply Forall_forall. intros num Hin. apply elem_of_seqZ in Hin. rewrite Hsz. lia. }
    fold B in Hloop.
    assert (HkB : keeps (for_ (seqZ 0 k) B [])).
    { apply keeps_for. intros num parts. unfold B. keeps_walk. }
    destruct (HkB w1 fp _ Hf1) as (f2 & Hf2 & (Hd2 & _ & Hb2)).
    rewrite Hloop in Hf2. cbn [snd] in Hf2.
    rewrite (bind_Ok _ _ _ _ _ Hloop).
    rewrite seqZ_cons by lia. cbn [for_]. unfold bind at 1. unfold B at 1.
    cbn [DisklabelTable.fp self]. rewrite Hsz. rewrite Z.add_0_l.
    set (off := bs + 148 + k * 16).
    assert (Hoff : 0 <= off <= max_off) by (unfold off; lia).
    rewrite (bind_Ok _ _ _ _ _ (fp_seek_Ok fp off _ _ Hf2 Hoff)).
    erewrite bind_Ok; cycle 1.
    { apply fp_read_Ok; [rewrite files_log_io; apply files_set_file_eq|].
      cbn [f_bad f_pos set_pos]. rewrite Hb2. apply Hbad. }
    cbn [f_pos f_data set_pos]. rewrite Hd2. cbn [f_data set_pos].
    change (Z.to_nat 16) with 16%nat.
    unfold lift, bind, DisklabelPartition.unpack.
    rewrite bool_decide_eq_false_2; [reflexivity|].
    unfold slice. rewrite length_take, length_drop. unfold off. lia. }
  rewrite Hinit.
  destruct (DisklabelTable.read_disklabel_partitions self bs w1) as [[ps|e] w2];
    cbn [fst snd] in Hrun, Hq; [discriminate|].
  injection Hrun as ->. cbn. repeat split. congruence.
Qed.

Lemma disklabel_truncated_table_raises_witness :
  (DisklabelTable.init 0%nat "disk.img"
     (Image.disk 0%nat (take 700 Sample.disklabel))).1.2
  = Raise (struct_error "unpack requires a buffer of 16 bytes").
Proof.
  assert (Hh : exists hdr,
             DisklabelHeader.unpack (slice 512 148 (take 700 Sample.disklabel)) 0x94 = Ok hdr
             /\ DisklabelHeader.signature1 hdr = [x57; x45; x56; x82]
             /\ DisklabelHeader.signature2 hdr = [x57; x45; x56; x82]
             /\ DisklabelHeader.slices_total hdr = 3).
  { vm_compute. eexists. repeat split. }
  destruct Hh as (hdr & Hun & Hs1 & Hs2 & Hn).
  refine (proj1 (disklabel_truncated_table_raises 0%nat "disk.img"
                   (Image.disk 0%nat (take 700 Sample.disklabel))
                   (Image.regular (take 700 Sample.disklabel)) hdr 2
                   eq_refl (fun _ => eq_refl) _ Hun Hs1 Hs2 _ _ _ _)).
  - vm_compute. discriminate.
  - rewrite Hn. lia.
  - apply Nat.leb_le. vm_compute. reflexivity.
  - apply Nat.ltb_lt. vm_compute. reflexivity.
  - apply Z.leb_le. vm_compute. reflexivity.
Defined.


(** ** A well-formed GPT *)




(** ** EBR cycles, from the constructor *)

Lemma recursion_error_uncaught env :
  isinstance_MBRMissing (recursion_error env) = false
  /\ isinstance_MBRError (recursion_error env) = false.
Proof. unfold recursion_error. destruct (py3 env); split; reflexivity. Qed.

(** C1, as amended: the traversal has no cycle detection.  When the EBR
    reads reach the parser's own file and the chain runs into a cycle
    (every visited EBR is well-formed and points back into the visited
    set), [read_ebr_partition] never returns and never raises an MBRError:
    whatever the recursion limit, it ends with the interpreter's recursion
    error, RecursionError on Python 3 and RuntimeError on Python 2.  For
    every image whose signed MBR has its first extended entry lead into
    such a cycle, [__init__] does not catch that exception: it leaves the
    constructor with [info] unset and nothing printed, and [get_info] ends
    with it. *)
Theorem C1_cycle_exhausts_recursion env :
  (forall self d ext visited,
      global_fp env = Some (MBRTable.fp self) ->
      cyclic_chain d ext visited = true ->
      forall depth lba num w,
        steady w (MBRTable.fp self) d ->
        lba ∈ visited ->
        (MBRTable.read_ebr_partition env depth self ext lba num w).1
        = Raise (recursion_error env)
        /\ forall msg, (MBRTable.read_ebr_partition env depth self ext lba num w).1
                       <> Raise (MBRError msg))
  /\ (forall fp name w f h ep visited,
        files w !! fp = Some f ->
        (forall p, f_bad f p = false) ->
        MBRHeader.unpack (slice 0 512 (f_data f)) = Ok h ->
        MBRHeader.signature h = [x55; xaa] ->
        find is_extended (primary_entries h) = Some ep ->
        global_fp env = Some fp ->
        cyclic_chain (f_data f) (MBRPartition.lba ep) visited = true ->
        0 ∈ visited ->
        (MBRTable.init env fp name w).1
        = (MBRTable.mk name fp None (Some h), Raise (recursion_error env))
        /\ stdout (MBRTable.init env fp name w).2 = stdout w
        /\ (get_info env fp name w).1 = Raise (recursion_error env)).
Proof.
  split.
  - intros self d ext visited Hg Hcyc depth lba num w Hst Hin.
    pose proof (read_ebr_partition_cycle env self d ext visited Hg Hcyc depth lba num w
                  Hst Hin) as Hrun.
    split; [exact Hrun|].
    intros msg Hmsg. rewrite Hrun in Hmsg.
    unfold recursion_error in Hmsg. destruct (py3 env); discriminate.
  - intros fp name w f h ep visited Hf Hbad Hun Hsig Hfind Hg Hcyc H0.
    destruct (MBRTable_init_signed env fp name w f h Hf Hbad Hun Hsig)
      as (w1 & Hst & Hso & _ & Hinit).
    rewrite Hfind in Hinit.
    set (self := MBRTable.mk name fp None (Some h)) in *.
    pose proof (read_ebr_partition_cycle env self (f_data f) (MBRPartition.lba ep) visited
                  Hg Hcyc (recursion_limit env) 0 5 w1 Hst H0) as Hrun.
    pose proof (quiet_read_ebr_partition env self (MBRPartition.lba ep)
                  (recursion_limit env) 0 5 w1) as Hq.
    destruct (MBRTable.read_ebr_partition env (recursion_limit env) self
                (MBRPartition.lba ep) 0 5 w1) as [[logical|e] w2];
      cbn [fst snd] in Hrun, Hq; [discriminate|].
    assert (He : e = recursion_error env) by congruence. subst e.
    destruct (recursion_error_uncaught env) as [Hm1 Hm2].
    assert (Hres : MBRTable.init env fp name w
                   = (self, Raise (recursion_error env), w2)).
    { rewrite Hinit. unfold MBRTable.init_except. now rewrite Hm1, Hm2. }
    rewrite Hres. cbn [fst snd]. split; [reflexivity|]. split; [congruence|].
    unfold get_info, bind, MBRTable.new. now rewrite Hres.
Qed.

Lemma C1_cycle_exhausts_recursion_witness :
  (get_info (Image.script 0%nat) 0%nat "disk.img" (Image.disk 0%nat Image.cycle3)).1
  = Raise (RecursionError "maximum recursion depth exceeded")
  /\ (get_info (Image.script_py2 0%nat) 0%nat "disk.img" (Image.disk 0%nat Image.cycle3)).1
     = Raise (RuntimeError "maximum recursion depth exceeded").
Proof.
  assert (Hh : exists h ep,
             MBRHeader.unpack (slice 0 512 Image.cycle3) = Ok h
             /\ MBRHeader.signature h = [x55; xaa]
             /\ find is_extended (primary_entries h) = Some ep
             /\ MBRPartition.lba ep = 1).
  { vm_compute. do 2 eexists. repeat split. }
  destruct Hh as (h & ep & Hun & Hsig & Hfind & Hlba).
  assert (Hcyc : cyclic_chain Image.cycle3 (MBRPartition.lba ep) [0; 1; 2] = true).
  { rewrite Hlba. vm_compute. reflexivity. }
  split.
  - exact (proj2 (proj2 (proj2 (C1_cycle_exhausts_recursion (Image.script 0%nat))
             0%nat "disk.img" (Image.disk 0%nat Image.cycle3) (Image.regular Image.cycle3)
             h ep [0; 1; 2] eq_refl (fun _ => eq_refl) Hun Hsig Hfind eq_refl Hcyc
             (list_elem_of_here _ _)))).
  - exact (proj2 (proj2 (proj2 (C1_cycle_exhausts_recursion (Image.script_py2 0%nat))
             0%nat "disk.img" (Image.disk 0%nat Image.cycle3) (Image.regular Image.cycle3)
             h ep [0; 1; 2] eq_refl (fun _ => eq_refl) Hun Hsig Hfind eq_refl Hcyc
             (list_elem_of_here _ _)))).
Defined.

(** ** Entries wider than 128 bytes *)

(** C7, the defect: [read_gpt_partitions] reads [part_entry_size] bytes
    per slot and hands all of them to [struct.unpack], which takes 128 and
    no more.  The table of the claim, 128 declared entries of 128 bytes
    with slots 1 and 50 in use, yields the two entries numbered 1 and 50.
    With entries of 256 bytes, a table whose first slot has an all-zero
    type GUID and whose second slot is in use is not scanned: the unused
    slot is not skipped, the first [struct.unpack] raises struct.error,
    and the constructor ends with that exception and [info] unset. *)
Theorem C7_wide_slot_not_skipped :
  let env := Image.script 0%nat in
  option_map (fun i => map GPTPartition.index (GPTInfo.partitions i))
    (GPTTable.info (GPTTable.init env 0%nat "disk.img"
                      (Image.disk 0%nat Image.gpt_sparse)).1.1)
  = Some [1; 50]
  /\ let self := Image.parser_after_header Image.gpt_wide_unused in
     let w := Image.disk 0%nat Image.gpt_wide_unused in
     option_map (fun hdr => (GPTHeader.part_entry_start_lba hdr,
                             GPTHeader.num_part_entries hdr,
                             GPTHeader.part_entry_size hdr))
       (GPTTable.gptheader self) = Some (2, 2, 256)
     /\ slice 0 16 (slice 1024 256 Image.gpt_wide_unused) = zeros 16
     /\ slice 0 16 (slice 1280 256 Image.gpt_wide_unused) = Image.efi_system_guid
     /\ (GPTTable.read_gpt_partitions env self 512 w).1
        = Raise (struct_error "unpack requires a buffer of 128 bytes")
     /\ (GPTTable.init env 0%nat "disk.img" w).1.2
        = Raise (struct_error "unpack requires a buffer of 128 bytes")
     /\ GPTTable.info (GPTTable.init env 0%nat "disk.img" w).1.1 = None.
Proof.
  vm_compute. repeat split.
Qed.

(** ** An untyped next-EBR descriptor anywhere in the chain *)

Lemma extended_entry_lba h ep :
  find is_extended (primary_entries h) = Some ep ->
  0 <= MBRPartition.lba ep < 2 ^ 32.
Proof.
  intros Hfind. apply find_some in Hfind as [Hin _].
  assert (Hall : Forall (fun p => 0 <= MBRPartition.lba p < 2 ^ 32) (primary_entries h)).
  { apply primary_entries_Forall. intros partstr num p Hp _.
    now apply read_mbr_partition_entry in Hp as (_ & _ & _ & Hlba). }
  rewrite Forall_forall in Hall.
  exact (Hall ep (proj2 (list_elem_of_In _ _) Hin)).
Qed.

Lemma ebr_next_inv d ext l nxt :
  ebr_next d ext l = Some nxt ->
  0 <= nxt < 2 ^ 32
  /\ exists ebr p,
       EBR.unpack (ebr_sector_at d ext l) = Ok ebr
       /\ EBR.signature ebr = [x55; xaa]
       /\ EBR.next_ebr ebr <> zeros 16
       /\ MBRTable.read_mbr_partition (EBR.next_ebr ebr) 0 = Ok (Some p)
       /\ MBRPartition.lba p = nxt.
Proof.
  intros Hnext. 
  destruct (EBR.unpack (ebr_sector_at d ext l)) as [ebr|] eqn:Eu;
    [|unfold ebr_next in Hnext; rewrite Eu in Hnext; discriminate].
  destruct (ebr_next_Some d ext l nxt ebr Eu Hnext) as (Hnz & p & Hp & Hlba).
  assert (Hs : EBR.signature ebr = [x55; xaa]).
  { unfold ebr_next in Hnext. rewrite Eu in Hnext.
    destruct (bool_decide (EBR.signature ebr = [x55; xaa])) eqn:Es; [|discriminate].
    now apply bool_decide_eq_true_1 in Es. }
  split.
  - rewrite <- Hlba. now apply read_mbr_partition_entry in Hp as (_ & _ & _ & Hr).
  - exists ebr, p. auto.
Qed.

(** The traversal along EBRs that lead to one with an untyped next-EBR
    descriptor. *)
Lemma read_ebr_partition_untyped env self d ext target :
  global_fp env = Some (MBRTable.fp self) ->
  0 <= ext < 2 ^ 32 ->
  length (ebr_sector_at d ext target) = 512%nat ->
  slice 510 2 (ebr_sector_at d ext target) = [x55; xaa] ->
  slice 462 16 (ebr_sector_at d ext target) <> zeros 16 ->
  unpack_uint (slice 4 1 (slice 462 16 (ebr_sector_at d ext target))) = 0 ->
  forall lbas cur depth num w,
    0 <= cur < 2 ^ 32 ->
    ebr_leads_to d ext lbas cur target = true ->
    (length lbas < depth)%nat ->
    steady w (MBRTable.fp self) d ->
    (MBRTable.read_ebr_partition env depth self ext cur num w).1
    = Raise (AttributeError "'NoneType' object has no attribute 'lba'").
Proof.
  intros Hg Hext Hlen Hebr Hnext Hty.
  induction lbas as [|l rest IH]; intros cur depth num w Hcur Hlead Hdepth Hst.
  - cbn [ebr_leads_to] in Hlead. apply bool_decide_eq_true_1 in Hlead. subst cur.
    destruct depth as [|depth]; [cbn in Hdepth; lia|].
    assert (Hoff : 0 <= (ext + target) * 512 <= max_off) by (unfold max_off; lia).
    destruct (ebr_fetch env self w d ext target Hg Hst Hoff) as (w' & _ & _ & _ & Hk).
    cbn [MBRTable.read_ebr_partition]. rewrite Hk.
    set (sector := ebr_sector_at d ext target) in *.
    unfold lift, bind, EBR.unpack. rewrite bool_decide_eq_true_2 by exact Hlen.
    cbn [EBR.signature EBR.partition EBR.next_ebr].
    rewrite bool_decide_eq_false_2 by (intros Hne; now apply Hne).
    assert (H16 : length (slice 446 16 sector) = 16%nat) by (apply length_slice_le; lia).
    rewrite (slot_entry_Ok _ num H16).
    rewrite bool_decide_eq_true_2 by exact Hnext.
    assert (Hnone : MBRTable.read_mbr_partition (slice 462 16 sector) 0 = Ok None).
    { unfold MBRTable.read_mbr_partition, MBRPartition.unpack.
      rewrite bool_decide_eq_true_2 by (apply length_slice_le; lia).
      cbn [MBRPartition.type]. now rewrite Hty. }
    rewrite Hnone. reflexivity.
  - cbn [ebr_leads_to] in Hlead. apply andb_prop in Hlead as [Hl Hlead].
    apply bool_decide_eq_true_1 in Hl. subst l.
    destruct (ebr_next d ext cur) as [nxt|] eqn:En; [|discriminate].
    destruct (ebr_next_inv _ _ _ _ En) as (Hnxt & ebr & p & Hun & Hsig & Hnz & Hp & Hlba).
    destruct depth as [|depth]; [cbn in Hdepth; lia|].
    assert (Hoff : 0 <= (ext + cur) * 512 <= max_off) by (unfold max_off; lia).
    destruct (ebr_fetch env self w d ext cur Hg Hst Hoff) as (w' & Hst' & _ & _ & Hk).
    cbn [MBRTable.read_ebr_partition]. rewrite Hk.
    unfold lift at 1. unfold bind at 1. rewrite Hun.
    rewrite bool_decide_eq_false_2 by (intros Hne; now apply Hne).
    destruct (unpack_EBR_inv _ _ Hun) as [Hl1 _].
    pose proof (read_mbr_partition_16 (EBR.partition ebr) num Hl1) as Hok.
    destruct (MBRTable.read_mbr_partition (EBR.partition ebr) num) as [part|] eqn:Epart;
      [|destruct Hok].
    unfold lift at 1. unfold bind at 1.
    rewrite bool_decide_eq_true_2 by exact Hnz.
    unfold lift at 1. unfold bind at 1. rewrite Hp. rewrite Hlba.
    specialize (IH nxt depth (num + 1) w' Hnxt Hlead ltac:(cbn in Hdepth; lia) Hst').
    unfold bind.
    destruct (MBRTable.read_ebr_partition env depth self ext nxt (num + 1) w')
      as [[more|e] w''].
    + discriminate.
    + cbn [fst] in IH |- *. exact IH.
Qed.

(** X10: In script mode, an EBR whose next-EBR descriptor is not all zero
    but carries type code 0 ends the constructor with an AttributeError,
    wherever in the chain it is reached within the recursion limit: the
    descriptor decodes to nothing, and the code takes its [lba].  [info]
    stays unset and nothing is printed. *)
Theorem untyped_next_descriptor_raises env fp name w f h ep lbas target :
  files w !! fp = Some f ->
  (forall p, f_bad f p = false) ->
  MBRHeader.unpack (slice 0 512 (f_data f)) = Ok h ->
  MBRHeader.signature h = [x55; xaa] ->
  find is_extended (primary_entries h) = Some ep ->
  global_fp env = Some fp ->
  ebr_leads_to (f_data f) (MBRPartition.lba ep) lbas 0 target = true ->
  (length lbas < recursion_limit env)%nat ->
  let sector := ebr_sector_at (f_data f) (MBRPartition.lba ep) target in
  length sector = 512%nat ->
  slice 510 2 sector = [x55; xaa] ->
  slice 462 16 sector <> zeros 16 ->
  unpack_uint (slice 4 1 (slice 462 16 sector)) = 0 ->
  (MBRTable.init env fp name w).1
  = (MBRTable.mk name fp None (Some h),
     Raise (AttributeError "'NoneType' object has no attribute 'lba'"))
  /\ stdout (MBRTable.init env fp name w).2 = stdout w.
Proof.
  intros Hf Hbad Hun Hsig Hfind Hg Hlead Hlim sector Hlen Hebr Hnext Hty.
  destruct (MBRTable_init_signed env fp name w f h Hf Hbad Hun Hsig)
    as (w1 & Hst & Hso & _ & Hinit).
  rewrite Hfind in Hinit.
  set (self := MBRTable.mk name fp None (Some h)) in *.
  pose proof (read_ebr_partition_untyped env self (f_data f) (MBRPartition.lba ep) target
                Hg (extended_entry_lba h ep Hfind) Hlen Hebr Hnext Hty
                lbas 0 (recursion_limit env) 5 w1 ltac:(lia) Hlead Hlim Hst) as Hrun.
  pose proof (quiet_read_ebr_partition env self (MBRPartition.lba ep)
                (recursion_limit env) 0 5 w1) as Hq.
  destruct (MBRTable.read_ebr_partition env (recursion_limit env) self
              (MBRPartition.lba ep) 0 5 w1) as [[logical|e] w2];
    cbn [fst snd] in Hrun, Hq; [discriminate|].
  injection Hrun as ->. rewrite Hinit. cbn. split; [reflexivity|congruence].
Qed.

Lemma untyped_next_descriptor_raises_witness :
  (MBRTable.init (Image.script 0%nat) 0%nat "disk.img"
     (Image.disk 0%nat Sample.untyped_next)).1.2
  = Raise (AttributeError "'NoneType' object has no attribute 'lba'")
  /\ (MBRTable.init (Image.script 0%nat) 0%nat "disk.img"
        (Image.disk 0%nat Sample.untyped_second)).1.2
     = Raise (AttributeError "'NoneType' object has no attribute 'lba'").
Proof.
  split.
  - assert (Hh : exists h ep,
               MBRHeader.unpack (slice 0 512 Sample.untyped_next) = Ok h
               /\ MBRHeader.signature h = [x55; xaa]
               /\ find is_extended (primary_entries h) = Some ep
               /\ MBRPartition.lba ep = 1).
    { vm_compute. do 2 eexists. repeat split. }
    destruct Hh as (h & ep & Hun & Hsig & Hfind & Hlba).
    destruct (untyped_next_descriptor_raises (Image.script 0%nat) 0%nat "disk.img"
                (Image.disk 0%nat Sample.untyped_next)
                (Image.regular Sample.untyped_next)
                h ep [] 0 eq_refl (fun _ => eq_refl) Hun Hsig Hfind eq_refl) as (Hout & _).
    + reflexivity.
    + cbn. lia.
    + cbn [f_data Image.regular]. rewrite Hlba. vm_compute. reflexivity.
    + cbn [f_data Image.regular]. rewrite Hlba. vm_compute. reflexivity.
    + cbn [f_data Image.regular]. rewrite Hlba. vm_compute. discriminate.
    + cbn [f_data Image.regular]. rewrite Hlba. vm_compute. reflexivity.
    + now rewrite Hout.
  - assert (Hh : exists h ep,
               MBRHeader.unpack (slice 0 512 Sample.untyped_second) = Ok h
               /\ MBRHeader.signature h = [x55; xaa]
               /\ find is_extended (primary_entries h) = Some ep
               /\ MBRPartition.lba ep = 1).
    { vm_compute. do 2 eexists. repeat split. }
    destruct Hh as (h & ep & Hun & Hsig & Hfind & Hlba).
    destruct (untyped_next_descriptor_raises (Image.script 0%nat) 0%nat "disk.img"
                (Image.disk 0%nat Sample.untyped_second)
                (Image.regular Sample.untyped_second)
                h ep [0] 1 eq_refl (fun _ => eq_refl) Hun Hsig Hfind eq_refl) as (Hout & _).
    + cbn [f_data Image.regular]. rewrite Hlba. vm_compute. reflexivity.
    + cbn. lia.
    + cbn [f_data Image.regular]. rewrite Hlba. vm_compute. reflexivity.
    + cbn [f_data Image.regular]. rewrite Hlba. vm_compute. reflexivity.
    + cbn [f_data Image.regular]. rewrite Hlba. vm_compute. discriminate.
    + cbn [f_data Image.regular]. rewrite Hlba. vm_compute. reflexivity.
    + now rewrite Hout.
Defined.
